(** * Hawtcher: a monitor that keeps a coding agent on task

    A shallow embedding of the monitoring core of the repository
    (monitor/analyzer.py, monitor/llm_client.py, monitor/models.py,
    monitor/watcher.py, monitor/question_detector.py,
    monitor/telegram_relay.py, monitor/interventor.py and hawtcher.py),
    followed by the properties its specification states about it.

    Conventions of the embedding.
    - A Python [str] is a [string]; each character stands for the code point
      of the same number, so the texts covered are those over code points
      0..255.  Whitespace, word characters and case mapping are those of
      Python on that range.
    - A Python [float] is a primitive binary64 [float]; comparisons are the
      IEEE ones, so a NaN compares false with everything.
    - A Python [Optional[T]] is an [option T]; an exception that a function
      lets escape is an explicit [Raised] result.
    - The libraries behind the code (the JSON decoder, pydantic's conversion
      of field values, the conversion of a timestamp, UTF-8 decoding,
      exception texts) are the fields of the [PyRuntime] class, and the
      console of the rich library is the [RichConsole] class: every
      theorem holds for each instance. *)

From Stdlib Require Import List String Ascii Bool Arith NArith ZArith Lia.
From Stdlib Require Import Floats.
Import ListNotations.

Set Implicit Arguments.
Set Warnings "-inexact-float".
Open Scope string_scope.
Open Scope bool_scope.

(** ** Python strings *)

Module PyStr.

Definition code (c : ascii) : N := N_of_ascii c.

Definition in_range (lo hi : N) (c : ascii) : bool :=
  (lo <=? code c)%N && (code c <=? hi)%N.

(** [str.isspace] on one character: TAB..CR, FS..US, SPACE, NEL, NBSP. *)
Definition isspace (c : ascii) : bool :=
  in_range 9 13 c || in_range 28 32 c
  || (code c =? 133)%N || (code c =? 160)%N.

(** [str.isalnum] on one character. *)
Definition isalnum (c : ascii) : bool :=
  in_range 48 57 c || in_range 65 90 c || in_range 97 122 c
  || (code c =? 170)%N || in_range 178 179 c || (code c =? 181)%N
  || in_range 185 186 c || in_range 188 190 c
  || in_range 192 214 c || in_range 216 246 c || in_range 248 255 c.

(** [str.lower] on one character. *)
Definition lower_char (c : ascii) : ascii :=
  if in_range 65 90 c || in_range 192 214 c || in_range 216 222 c
  then ascii_of_N (code c + 32) else c.

Fixpoint lower (s : string) : string :=
  match s with
  | EmptyString => EmptyString
  | String c s' => String (lower_char c) (lower s')
  end.

Fixpoint lstrip (s : string) : string :=
  match s with
  | EmptyString => EmptyString
  | String c s' => if isspace c then lstrip s' else s
  end.

Fixpoint rstrip (s : string) : string :=
  match s with
  | EmptyString => EmptyString
  | String c s' =>
      match rstrip s' with
      | EmptyString => if isspace c then EmptyString else String c EmptyString
      | r => String c r
      end
  end.

(** [s.strip()] *)
Definition strip (s : string) : string := rstrip (lstrip s).

(** Truth value of a string: [bool(s)]. *)
Definition truthy (s : string) : bool :=
  match s with EmptyString => false | String _ _ => true end.

(** Truth value of an optional string, as in [if not self.user_instruction]. *)
Definition truthy_opt (o : option string) : bool :=
  match o with None => false | Some s => truthy s end.

(** [a or b] on two strings. *)
Definition or_else (a b : string) : string := if truthy a then a else b.

(** [s.startswith(p)] *)
Fixpoint startswith (p s : string) : bool :=
  match p, s with
  | EmptyString, _ => true
  | String a p', String b s' => Ascii.eqb a b && startswith p' s'
  | String _ _, EmptyString => false
  end.

(** [p in s] *)
Fixpoint contains (p s : string) : bool :=
  startswith p s ||
  match s with
  | EmptyString => false
  | String _ s' => contains p s'
  end.

Definition cons_head (c : ascii) (pieces : list string) : list string :=
  match pieces with
  | h :: t => String c h :: t
  | [] => [String c EmptyString]
  end.

(** [s.split(sep)] for a separator of one character. *)
Fixpoint split_char (sep : ascii) (s : string) : list string :=
  match s with
  | EmptyString => [EmptyString]
  | String c s' =>
      if Ascii.eqb c sep then EmptyString :: split_char sep s'
      else cons_head c (split_char sep s')
  end.

(** [s.split(sep)] for a non-empty separator: leftmost occurrences, not
    overlapping.  [skip] counts the characters of an occurrence still to
    be passed over. *)
Fixpoint split_go (sep : string) (skip : nat) (s : string) : list string :=
  match s with
  | EmptyString => [EmptyString]
  | String c s' =>
      match skip with
      | S k => split_go sep k s'
      | O =>
          if startswith sep s
          then EmptyString :: split_go sep (String.length sep - 1) s'
          else cons_head c (split_go sep 0 s')
      end
  end.

Definition split (sep s : string) : list string := split_go sep 0 s.

Definition newline : ascii := "010"%char.

(** [sep.join(parts)] *)
Definition join (sep : string) (parts : list string) : string :=
  String.concat sep parts.

End PyStr.

(** ** The regular expressions of the question detector

    The patterns of the detector use literals, alternatives of literals,
    [^], [$], [\b] and [.*] only.  [search] is [pattern.search(text)] for a
    pattern compiled with [re.IGNORECASE | re.MULTILINE], read as a truth
    value. *)

Module Re.
Import PyStr.

Inductive atom : Type :=
| Lit (s : string)            (* the characters of s, ignoring case *)
| OneOf (alts : list string)  (* (?:a|b|c) *)
| Bol                         (* ^ *)
| Eol                         (* $ *)
| WordB                       (* \b *)
| DotStar.                    (* .* *)

Definition regex : Type := list atom.

Definition is_word (c : ascii) : bool := isalnum c || Ascii.eqb c "_"%char.

Definition word_before (prev : option ascii) : bool :=
  match prev with Some c => is_word c | None => false end.

Definition word_after (s : string) : bool :=
  match s with String c _ => is_word c | EmptyString => false end.

(** [^] in MULTILINE mode: at the start, or right after a newline. *)
Definition at_bol (prev : option ascii) : bool :=
  match prev with None => true | Some c => Ascii.eqb c newline end.

(** [$] in MULTILINE mode: at the end, or right before a newline. *)
Definition at_eol (s : string) : bool :=
  match s with EmptyString => true | String c _ => Ascii.eqb c newline end.

Definition at_boundary (prev : option ascii) (s : string) : bool :=
  xorb (word_before prev) (word_after s).

(** Consume the literal [lit] at the head of [s]; gives the last character
    read and the rest. *)
Fixpoint eat (lit : string) (prev : option ascii) (s : string)
  : option (option ascii * string) :=
  match lit with
  | EmptyString => Some (prev, s)
  | String p lit' =>
      match s with
      | String c s' =>
          if Ascii.eqb (lower_char c) (lower_char p)
          then eat lit' (Some c) s' else None
      | EmptyString => None
      end
  end.

(** Does [r] match at the head of [s], the character before being [prev]? *)
Fixpoint match_here (r : regex) (prev : option ascii) (s : string)
  {struct r} : bool :=
  match r with
  | [] => true
  | a :: r' =>
      match a with
      | Lit l =>
          match eat l prev s with
          | Some (p', s') => match_here r' p' s'
          | None => false
          end
      | OneOf alts =>
          existsb (fun l =>
                     match eat l prev s with
                     | Some (p', s') => match_here r' p' s'
                     | None => false
                     end) alts
      | Bol => at_bol prev && match_here r' prev s
      | Eol => at_eol s && match_here r' prev s
      | WordB => at_boundary prev s && match_here r' prev s
      | DotStar =>
          (fix star (p : option ascii) (t : string) {struct t} : bool :=
             match_here r' p t ||
             match t with
             | String c t' =>
                 if Ascii.eqb c newline then false else star (Some c) t'
             | EmptyString => false
             end) prev s
      end
  end.

Fixpoint search_from (r : regex) (prev : option ascii) (s : string) : bool :=
  match_here r prev s ||
  match s with
  | String c s' => search_from r (Some c) s'
  | EmptyString => false
  end.

Definition search (r : regex) (s : string) : bool := search_from r None s.

End Re.

(** ** monitor/question_detector.py *)

Module QuestionDetector.
Import PyStr Re.

Definition QUESTION_PATTERNS : list regex :=
  [ [Lit "?"; Eol];
    [Bol; Lit "Should I"; WordB];
    [Bol; Lit "Which"; WordB];
    [Bol; Lit "Do you want"];
    [Bol; Lit "Would you like"];
    [Bol; Lit "Can I"; WordB];
    [Bol; Lit "May I"; WordB];
    [Bol; Lit "Could you"; WordB];
    [Bol; Lit "Would you"; WordB];
    [Bol; Lit "Please ";
     OneOf ["confirm"; "choose"; "select"; "specify"; "clarify"]];
    [WordB; Lit "confirm?"];
    [WordB; Lit "choose"; WordB; DotStar; Lit "?"];
    [WordB; Lit "prefer"; WordB; DotStar; Lit "?"];
    [WordB; Lit "or"; WordB; DotStar; Lit "?"] ].

Definition RHETORICAL_PATTERNS : list regex :=
  [ [Bol; Lit "What "; OneOf ["is"; "are"; "was"; "were"; "does"; "did"]];
    [Bol; Lit "How "; OneOf ["does"; "did"; "can"; "should"]; Lit " ";
     OneOf ["this"; "that"; "it"]];
    [Bol; Lit "Why "; OneOf ["is"; "are"; "does"; "did"]];
    [Bol; Lit "Let me "; OneOf ["check"; "see"; "verify"; "analyze"]] ].

Definition is_question (text : string) : bool :=
  if negb (truthy text) || (String.length (strip text) =? 0)%nat then false
  else if existsb (fun p => search p text) RHETORICAL_PATTERNS then false
  else existsb (fun p => search p text) QUESTION_PATTERNS.

(** The loop of [extract_question] over the lines. *)
Definition collect_questions (lines : list string) : list string :=
  fold_left (fun questions line =>
               let line := strip line in
               if is_question line then (questions ++ [line])%list
               else questions)
            lines [].

Definition extract_question (text : string) : option string :=
  if negb (is_question text) then None
  else
    let lines := split_char newline text in
    match collect_questions lines with
    | [] => if contains "?" text then Some (strip text) else None
    | q :: _ => Some q
    end.

End QuestionDetector.

(** ** Values, exceptions and results of the Python runtime *)

(** What [json.loads] returns. *)
#[warnings="-register-all"]
Inductive pyjson : Type :=
| JNull
| JBool (b : bool)
| JInt (n : Z)
| JFloat (x : float)
| JStr (s : string)
| JList (items : list pyjson)
| JDict (fields : list (string * pyjson)).

Inductive pyerror : Type :=
| JSONDecodeError (text : string)
| ValidationError (model : string)
| UnicodeDecodeError
| ValueError
| TypeError
| IndexError
| AttributeError
| RecursionError
| OverflowError
| OSError
| MarkupError
| ApiError (detail : string).

(** [isinstance(e, ValueError)]: the JSON, validation and decoding errors
    derive from [ValueError]; the others do not. *)
Definition is_ValueError (e : pyerror) : bool :=
  match e with
  | JSONDecodeError _ | ValidationError _ | UnicodeDecodeError
  | ValueError => true
  | TypeError | IndexError | AttributeError | RecursionError
  | OverflowError | OSError | MarkupError | ApiError _ => false
  end.

Inductive result (A : Type) : Type :=
| Ok (a : A)
| Raised (e : pyerror).
Arguments Raised {A} e.

Definition bind {A B : Type} (r : result A) (k : A -> result B) : result B :=
  match r with Ok a => k a | Raised e => Raised e end.

Notation "x <- r ;; k" := (bind r (fun x => k))
  (at level 61, r at next level, right associativity).

Definition or_raise {A : Type} (e : pyerror) (o : option A) : result A :=
  match o with Some a => Ok a | None => Raised e end.

(** The libraries the code calls.  [json_loads] gives [None] where
    [json.loads] raises; what it raises there is [RecursionError] on a
    text that [nests_too_deep], and [JSONDecodeError] otherwise.  The
    [lax_] functions are pydantic's conversion of a decoded value to the
    annotated field type, [None] where it reports a validation error.
    [fromtimestamp v] is what [datetime.fromtimestamp(v / 1000.0)] raises
    on the integer [v], [None] where it returns.  [utf8_decode] is the
    decoding of a text-mode read; [exc_str] is [str(e)]. *)
Class PyRuntime : Type := {
  json_loads : string -> option pyjson;
  nests_too_deep : string -> bool;
  lax_bool : pyjson -> option bool;
  lax_int : pyjson -> option Z;
  lax_float : pyjson -> option float;
  lax_str : pyjson -> option string;
  fromtimestamp : Z -> option pyerror;
  utf8_decode : string -> option string;
  exc_str : pyerror -> string
}.

(** [json.loads(text)] with what it raises. *)
Definition loads {rt : PyRuntime} (text : string) : result pyjson :=
  match json_loads text with
  | Some data => Ok data
  | None =>
      Raised (if nests_too_deep text then RecursionError
              else JSONDecodeError text)
  end.

Fixpoint dict_get (k : string) (fields : list (string * pyjson))
  : option pyjson :=
  match fields with
  | [] => None
  | (k', v) :: rest => if String.eqb k k' then Some v else dict_get k rest
  end.

(** ** monitor/models.py *)

Module Models.

Record ClaudeHistoryEvent : Type := {
  display : string;
  timestamp : Z;     (* epoch milliseconds, as read *)
  project : string;
  session_id : string;
  pasted_contents : option (list (string * pyjson))
}.

Record AnalysisResult : Type := {
  is_on_task : bool;
  confidence : float;
  reasoning : string;
  detected_issues : list string;
  recommended_action : option string
}.

Record TaskContext : Type := {
  user_instruction : string;
  recent_events : list ClaudeHistoryEvent;
  current_todos : list string;
  completed_todos : list string
}.

Inductive severity : Type := low | medium | high | critical.

Record InterventionDecision : Type := {
  should_intervene : bool;
  decision_severity : severity;
  intervention_message : string;
  analysis : AnalysisResult
}.

(** [confidence: float = Field(ge=0.0, le=1.0)] *)
Definition confidence_in_bounds (c : float) : bool :=
  (0 <=? c)%float && (c <=? 1)%float.

Section Validation.
Context {rt : PyRuntime}.

(** A required field. *)
Definition required {A : Type} (model : string)
  (conv : pyjson -> option A) (k : string)
  (fields : list (string * pyjson)) : result A :=
  match dict_get k fields with
  | Some v => or_raise (ValidationError model) (conv v)
  | None => Raised (ValidationError model)
  end.

(** A field with a default. *)
Definition defaulted {A : Type} (model : string)
  (conv : pyjson -> option A) (k : string) (dflt : A)
  (fields : list (string * pyjson)) : result A :=
  match dict_get k fields with
  | Some v => or_raise (ValidationError model) (conv v)
  | None => Ok dflt
  end.

(** A field that may also be given under its alias; the alias is looked
    up first. *)
Definition aliased (alias name : string)
  (fields : list (string * pyjson)) : option pyjson :=
  match dict_get alias fields with
  | Some v => Some v
  | None => dict_get name fields
  end.

Fixpoint lax_str_list (items : list pyjson) : option (list string) :=
  match items with
  | [] => Some []
  | v :: rest =>
      match lax_str v, lax_str_list rest with
      | Some s, Some l => Some (s :: l)
      | _, _ => None
      end
  end.

Definition lax_list_of_str (v : pyjson) : option (list string) :=
  match v with JList items => lax_str_list items | _ => None end.

Definition lax_optional_str (v : pyjson) : option (option string) :=
  match v with
  | JNull => Some None
  | _ => option_map Some (lax_str v)
  end.

Definition lax_optional_dict (v : pyjson)
  : option (option (list (string * pyjson))) :=
  match v with
  | JNull => Some None
  | JDict kv => Some (Some kv)
  | _ => None
  end.

(** [AnalysisResult] built from the keyword arguments [data]. *)
Definition AnalysisResult_of (data : pyjson) : result AnalysisResult :=
  match data with
  | JDict fields =>
      let m := "AnalysisResult" in
      on_task <- required m lax_bool "is_on_task" fields ;;
      conf <- required m lax_float "confidence" fields ;;
      if negb (confidence_in_bounds conf) then Raised (ValidationError m)
      else
        why <- required m lax_str "reasoning" fields ;;
        issues <- defaulted m lax_list_of_str "detected_issues" [] fields ;;
        action <- defaulted m lax_optional_str "recommended_action" None
                    fields ;;
        Ok {| is_on_task := on_task; confidence := conf;
              reasoning := why; detected_issues := issues;
              recommended_action := action |}
  | _ => Raised TypeError
  end.

(** The field validator [convert_timestamp] on the integer of the
    [timestamp] field.  pydantic reports a [ValueError] raised by a
    validator as a validation error of the field; any other exception
    leaves the validation as it is.  The record keeps the milliseconds
    the [datetime] was made from. *)
Definition convert_timestamp (model : string) (v : Z) : result Z :=
  match fromtimestamp v with
  | None => Ok v
  | Some e => Raised (if is_ValueError e then ValidationError model else e)
  end.

(** The [timestamp] field: conversion to [int], then the validator. *)
Definition timestamp_field (model : string)
  (fields : list (string * pyjson)) : result Z :=
  v <- required model lax_int "timestamp" fields ;;
  convert_timestamp model v.

(** Whether validating the fields is left by an exception that is no
    validation error.  Validation errors are collected over all the
    fields and raised together at the end; an exception of
    [convert_timestamp] that is no [ValueError] is raised at once,
    whatever the other fields hold. *)
Definition validation_left_by (model : string)
  (fields : list (string * pyjson)) : option pyerror :=
  match timestamp_field model fields with
  | Raised (ValidationError _) | Ok _ => None
  | Raised e => Some e
  end.

(** [ClaudeHistoryEvent] built from the keyword arguments [data]. *)
Definition ClaudeHistoryEvent_of (data : pyjson)
  : result ClaudeHistoryEvent :=
  match data with
  | JDict fields =>
      let m := "ClaudeHistoryEvent" in
      match validation_left_by m fields with
      | Some e => Raised e
      | None =>
      d <- required m lax_str "display" fields ;;
      t <- timestamp_field m fields ;;
      p <- required m lax_str "project" fields ;;
      s <- or_raise (ValidationError m)
             (match aliased "sessionId" "session_id" fields with
              | Some v => lax_str v
              | None => None
              end) ;;
      pc <- match aliased "pastedContents" "pasted_contents" fields with
            | Some v => or_raise (ValidationError m) (lax_optional_dict v)
            | None => Ok None
            end ;;
      Ok {| display := d; timestamp := t; project := p;
            session_id := s; pasted_contents := pc |}
      end
  | _ => Raised TypeError
  end.

End Validation.

End Models.

(** ** monitor/llm_client.py *)

Module LlmClient.
Import PyStr Models.

(** What the completion request gives: it raises, or it returns the text
    of the first choice, which may be absent. *)
Inductive completion : Type :=
| CallRaises (e : pyerror)
| Content (text : option string).

(** The endpoint behind [self.client.chat.completions.create], as a
    function of what the prompt is built from. *)
Definition endpoint : Type := TaskContext -> string -> completion.

Section Client.
Context {rt : PyRuntime}.

Definition fence_json : string := "```json".
Definition fence : string := "```".

Definition item (i : nat) (pieces : list string) : result string :=
  or_raise IndexError (nth_error pieces i).

(** The body of the [try] block of [_parse_analysis_response]. *)
Definition parse_body (content : option string) : result AnalysisResult :=
  content <- or_raise AttributeError content ;;
  let content := strip content in
  content <-
    (if startswith fence_json content then
       inner <- item 1 (split fence_json content) ;;
       item 0 (split fence inner)
     else if startswith fence content then
       inner <- item 1 (split fence content) ;;
       item 0 (split fence inner)
     else Ok content) ;;
  data <- loads (strip content) ;;
  AnalysisResult_of data.

Definition _parse_analysis_response (content : option string)
  : AnalysisResult :=
  match parse_body content with
  | Ok r => r
  | Raised e =>
      {| is_on_task := true;
         confidence := 0;
         reasoning := "Failed to parse response: " ++ exc_str e;
         detected_issues := [];
         recommended_action := None |}
  end.

Definition analyze_task_adherence (chat : endpoint)
  (context : TaskContext) (current_activity : string) : AnalysisResult :=
  match chat context current_activity with
  | Content content => _parse_analysis_response content
  | CallRaises e =>
      {| is_on_task := true;
         confidence := 0;
         reasoning := "Analysis failed: " ++ exc_str e;
         detected_issues := [];
         recommended_action := None |}
  end.

End Client.

End LlmClient.

(** ** monitor/analyzer.py *)

Module Analyzer.
Import PyStr Models.

(** [llm_client.analyze_task_adherence], as the analyzer sees it. *)
Definition classifier : Type := TaskContext -> string -> AnalysisResult.

Record TaskAnalyzer : Type := {
  context_window_size : nat;
  intervention_threshold : float;
  on_intervention : bool;            (* is a callback installed? *)
  user_instruction : option string;
  current_todos : list string;
  completed_todos : list string;
  recent_events : list ClaudeHistoryEvent;   (* deque, oldest first *)
  event_count : nat
}.

(** [self.check_frequency = 3] *)
Definition check_frequency : nat := 3.

(** [TaskAnalyzer.__init__] *)
Definition init (window : nat) (threshold : float) (callback : bool)
  : TaskAnalyzer :=
  {| context_window_size := window;
     intervention_threshold := threshold;
     on_intervention := callback;
     user_instruction := None;
     current_todos := [];
     completed_todos := [];
     recent_events := [];
     event_count := 0 |}.

(** [deque.append] on a deque of bounded length: the item goes to the
    right, and the leftmost one is dropped when the bound is exceeded. *)
Definition deque_append {A : Type} (maxlen : nat) (q : list A) (x : A)
  : list A :=
  let q' := (q ++ [x])%list in
  if (maxlen <? List.length q')%nat then tl q' else q'.

Definition set_user_instruction (self : TaskAnalyzer) (instruction : string)
  : TaskAnalyzer :=
  {| context_window_size := context_window_size self;
     intervention_threshold := intervention_threshold self;
     on_intervention := on_intervention self;
     user_instruction := Some instruction;
     current_todos := [];
     completed_todos := [];
     recent_events := recent_events self;
     event_count := event_count self |}.

Definition update_todos (self : TaskAnalyzer)
  (current completed : option (list string)) : TaskAnalyzer :=
  {| context_window_size := context_window_size self;
     intervention_threshold := intervention_threshold self;
     on_intervention := on_intervention self;
     user_instruction := user_instruction self;
     current_todos :=
       match current with Some l => l | None => current_todos self end;
     completed_todos :=
       match completed with Some l => l | None => completed_todos self end;
     recent_events := recent_events self;
     event_count := event_count self |}.

Definition suspicious_patterns : list string :=
  [ "i'll monitor"; "i will monitor"; "i'll check"; "i will check";
    "later on"; "in the future"; "i'll watch"; "i will watch";
    "i'll track"; "i will track"; "continuously"; "ongoing" ].

Definition _is_suspicious_activity (activity : string) : bool :=
  let activity_lower := lower activity in
  existsb (fun pattern => contains pattern activity_lower) suspicious_patterns.

Definition _determine_severity (analysis : AnalysisResult) : severity :=
  if (0.9 <=? confidence analysis)%float then critical
  else if (0.8 <=? confidence analysis)%float then high
  else if (0.7 <=? confidence analysis)%float then medium
  else low.

Definition _build_intervention_message (analysis : AnalysisResult) : string :=
  let message_parts :=
    [ "CLAUDE CODE APPEARS TO BE OFF-TASK"; "";
      "Reasoning: " ++ reasoning analysis; "" ] in
  let message_parts :=
    match detected_issues analysis with
    | [] => message_parts
    | issues =>
        (message_parts ++ ["Detected Issues:"]
           ++ map (fun issue => ("  - " ++ issue)%string) issues ++ [""])%list
    end in
  let message_parts :=
    match recommended_action analysis with
    | Some action =>
        if truthy action
        then (message_parts
                ++ ["Recommended Action:"; ("  " ++ action)%string; ""])%list
        else message_parts
    | None => message_parts
    end in
  join (String newline "")
    (message_parts
       ++ ["Consider redirecting Claude Code back to the original task."])%list.

(** What one call of [_trigger_analysis] does: it returns at once when no
    instruction is known; otherwise it asks the classifier and may build a
    decision. *)
Inductive trigger_outcome : Type :=
| NoInstruction
| Analysed (context : TaskContext) (analysis : AnalysisResult)
           (decision : option InterventionDecision).

Definition _trigger_analysis (llm_client : classifier) (self : TaskAnalyzer)
  (current_activity : string) (force : bool) : trigger_outcome :=
  match user_instruction self with
  | None => NoInstruction
  | Some instruction =>
      if negb (truthy instruction) then NoInstruction
      else
        let context :=
          {| Models.user_instruction := instruction;
             Models.recent_events := recent_events self;
             Models.current_todos := current_todos self;
             Models.completed_todos := completed_todos self |} in
        let analysis := llm_client context current_activity in
        let should_intervene :=
          (negb (is_on_task analysis)
           && (intervention_threshold self <=? confidence analysis)%float)
          || force in
        if should_intervene then
          Analysed context analysis
            (Some {| should_intervene := true;
                     decision_severity := _determine_severity analysis;
                     intervention_message :=
                       _build_intervention_message analysis;
                     analysis := analysis |})
        else Analysed context analysis None
  end.

(** The decision handed to [on_intervention], when a callback is installed. *)
Definition delivered (self : TaskAnalyzer) (t : trigger_outcome)
  : option InterventionDecision :=
  match t with
  | Analysed _ _ (Some d) => if on_intervention self then Some d else None
  | _ => None
  end.

(** What [process_event] does after recording the event: nothing, or a
    call of [_trigger_analysis] with the given [force]. *)
Inductive event_outcome : Type :=
| NoCheck
| Checked (force : bool) (t : trigger_outcome).

Definition process_event (llm_client : classifier) (self : TaskAnalyzer)
  (event : ClaudeHistoryEvent) : TaskAnalyzer * event_outcome :=
  let self :=
    {| context_window_size := context_window_size self;
       intervention_threshold := intervention_threshold self;
       on_intervention := on_intervention self;
       user_instruction :=
         if negb (truthy_opt (user_instruction self))
         then Some (display event) else user_instruction self;
       current_todos := current_todos self;
       completed_todos := completed_todos self;
       recent_events :=
         deque_append (context_window_size self) (recent_events self) event;
       event_count := event_count self + 1 |} in
  if _is_suspicious_activity (display event) then
    (self, Checked true
             (_trigger_analysis llm_client self (display event) true))
  else if (event_count self mod check_frequency =? 0)%nat then
    (self, Checked false
             (_trigger_analysis llm_client self (display event) false))
  else (self, NoCheck).

(** The events of a run, each with the classifier as it behaves while the
    event is processed. *)
Fixpoint process_events (self : TaskAnalyzer)
  (feed : list (classifier * ClaudeHistoryEvent))
  : TaskAnalyzer * list event_outcome :=
  match feed with
  | [] => (self, [])
  | (llm_client, event) :: rest =>
      let (self', o) := process_event llm_client self event in
      let (final, os) := process_events self' rest in
      (final, o :: os)
  end.

End Analyzer.

(** ** monitor/watcher.py

    The history file is its bytes, [None] while it does not exist.  A read
    position is a number of bytes. *)

Module Watcher.
Import PyStr Models.

Record HistoryWatcher : Type := { last_position : nat }.

Fixpoint skip (n : nat) (s : string) : string :=
  match n, s with
  | O, _ => s
  | S _, EmptyString => EmptyString
  | S k, String _ s' => skip k s'
  end.

(** [HistoryWatcher.__init__] with [_initialize_position]: the position is
    the end of the file when the file exists, 0 otherwise. *)
Definition _initialize_position (file : option string) : HistoryWatcher :=
  match file with
  | Some bytes => {| last_position := String.length bytes |}
  | None => {| last_position := 0 |}
  end.

Definition carriage_return : ascii := "013"%char.

(** [f.readlines()] of a file opened in text mode: a line ends at LF, CR LF
    or CR, each read as LF; what follows the last terminator is a line of
    its own when it is not empty. *)
Fixpoint readlines_go (after_cr : bool) (s : string) : list string :=
  match s with
  | EmptyString => []
  | String c s' =>
      if Ascii.eqb c newline then
        if after_cr then readlines_go false s'
        else String newline "" :: readlines_go false s'
      else if Ascii.eqb c carriage_return then
        String newline "" :: readlines_go true s'
      else cons_head c (readlines_go false s')
  end.

Definition readlines (s : string) : list string := readlines_go false s.

Section Reading.
Context {rt : PyRuntime}.

(** The body of the [try] block, up to the callback. *)
Definition parse_entry (line : string) : result ClaudeHistoryEvent :=
  data <- loads line ;;
  ClaudeHistoryEvent_of data.

(** [except (json.JSONDecodeError, ValueError)] *)
Definition caught (e : pyerror) : bool := is_ValueError e.

(** The loop over the new lines: the events handed to [on_new_event], in
    order, and the exception that ended the loop, if one did.  The
    callback is taken to return. *)
Fixpoint handle_lines (new_lines : list string)
  : list ClaudeHistoryEvent * option pyerror :=
  match new_lines with
  | [] => ([], None)
  | line :: rest =>
      let line := strip line in
      if negb (truthy line) then handle_lines rest
      else
        match parse_entry line with
        | Ok event =>
            let (events, err) := handle_lines rest in (event :: events, err)
        | Raised e =>
            if caught e then handle_lines rest else ([], Some e)
        end
  end.

Record read_outcome : Type := {
  watcher_after : HistoryWatcher;
  emitted : list ClaudeHistoryEvent;
  escaped : option pyerror
}.

Definition _read_new_entries (self : HistoryWatcher) (file : option string)
  : read_outcome :=
  match file with
  | None =>
      {| watcher_after := self; emitted := []; escaped := None |}
  | Some bytes =>
      match utf8_decode (skip (last_position self) bytes) with
      | None =>
          {| watcher_after := self; emitted := [];
             escaped := Some UnicodeDecodeError |}
      | Some text =>
          let new_lines := readlines text in
          let self' :=
            {| last_position :=
                 Nat.max (last_position self) (String.length bytes) |} in
          let (events, err) := handle_lines new_lines in
          {| watcher_after := self'; emitted := events; escaped := err |}
      end
  end.

End Reading.

End Watcher.

(** ** monitor/telegram_relay.py *)

Module TelegramRelay.
Import PyStr.

Record TelegramRelay : Type := {
  chat_id : option string;
  response_timeout : nat;
  answer_queue : list string;
  waiting_for_answer : bool;
  current_question_id : nat
}.

(** What the listener thread puts on the answer queue during a wait, by
    the tick of the wait at which it arrives. *)
Definition inbox : Type := nat -> option string.

(** [self.answer_queue.get(timeout=...)] on an empty queue: the first
    answer to arrive within [timeout] ticks from [now], if any. *)
Fixpoint queue_get (timeout : nat) (arrivals : inbox) (now : nat)
  : option string :=
  match arrivals now with
  | Some answer => Some answer
  | None =>
      match timeout with
      | O => None
      | S t => queue_get t arrivals (S now)
      end
  end.

(** [ask_question]: the relay afterwards and the answer returned, for a
    relay whose listener has set the event loop and whose timeout is not
    negative; [HawtcherRun.ask_question_run] below adds what the call
    raises otherwise.  The question is sent from the listener thread and
    its sending is not awaited, so it has no part in the result. *)
Definition ask_question (self : TelegramRelay) (arrivals : inbox)
  : TelegramRelay * option string :=
  if negb (truthy_opt (chat_id self)) then (self, None)
  else
    let answer := queue_get (response_timeout self) arrivals 0 in
    ({| chat_id := chat_id self;
        response_timeout := response_timeout self;
        answer_queue := [];
        waiting_for_answer := false;
        current_question_id := current_question_id self + 1 |},
     answer).

End TelegramRelay.

(** ** monitor/interventor.py and hawtcher.py *)

Module Hawtcher.
Import PyStr Models.

(** monitor/question_answerer.py: [AnswerAttempt] *)
Record AnswerAttempt : Type := {
  answer : string;
  attempt_confidence : float;
  attempt_reasoning : string;
  should_ask_user : bool
}.

(** The text that [Interventor._write_intervention_file] puts in the
    intervention file. *)
Definition intervention_file_text (decision : InterventionDecision) : string :=
  let a := analysis decision in
  let message_parts :=
    [ "STOP - Hawtcher Intervention Required"; "";
      "Issue detected: " ++ reasoning a; "" ] in
  let message_parts :=
    match detected_issues a with
    | [] => message_parts
    | issues =>
        (message_parts ++ ["Problems:"]
           ++ map (fun issue => ("- " ++ issue)%string) issues ++ [""])%list
    end in
  let message_parts :=
    (message_parts ++
       [ if truthy_opt (recommended_action a)
         then ("Action required: "
                 ++ match recommended_action a with
                    | Some s => s
                    | None => ""
                    end)%string
         else "Action required: Return to the original task immediately." ])%list
  in
  join (String newline "") message_parts.

Record question_outcome : Type := {
  returned : string;                         (* the answer returned *)
  sent : InterventionDecision;               (* the decision written out *)
  file_text : string;                        (* the intervention file *)
  relay_after : option TelegramRelay.TelegramRelay
}.

Definition clarify : string := "Please clarify your question.".

(** [HawtcherApp._handle_question]: the answer it returns and the
    decision it writes out, where the console prints its lines and the
    relay raises nothing; [HawtcherRun._handle_question_run] below adds
    what the call raises otherwise. *)
Definition _handle_question (telegram_relay : option TelegramRelay.TelegramRelay)
  (arrivals : TelegramRelay.inbox) (question : string)
  (answer_attempt : AnswerAttempt) : question_outcome :=
  let '(relay', answer) :=
    if should_ask_user answer_attempt then
      match telegram_relay with
      | Some relay =>
          let (relay', user_answer) :=
            TelegramRelay.ask_question relay arrivals in
          (Some relay',
           match user_answer with
           | Some text =>
               if truthy text then text
               else or_else (answer answer_attempt) clarify
           | None => or_else (answer answer_attempt) clarify
           end)
      | None => (None, or_else (answer answer_attempt) clarify)
      end
    else (telegram_relay, answer answer_attempt) in
  let decision :=
    {| should_intervene := true;
       decision_severity := low;
       intervention_message :=
         "Answer to your question:" ++ String newline answer;
       analysis :=
         {| is_on_task := true;
            confidence := 1;
            reasoning := "Answering Claude Code's question";
            detected_issues := [];
            recommended_action := None |} |} in
  {| returned := answer;
     sent := decision;
     file_text := intervention_file_text decision;
     relay_after := relay' |}.

End Hawtcher.

(** ** Sample data for the examples *)

Module Samples.
Import PyStr Models Analyzer.

Definition sample_judgment (on_task : bool) (c : float) : AnalysisResult :=
  {| is_on_task := on_task; confidence := c;
     reasoning := "The agent defers the work";
     detected_issues := ["No code was changed"];
     recommended_action := None |}.

Definition sample_classifier (on_task : bool) (c : float) : classifier :=
  fun _ _ => sample_judgment on_task c.

Definition sample_analyzer : TaskAnalyzer :=
  set_user_instruction (init 10 0.75 true) "Add a login endpoint".

Definition sample_event (text : string) : ClaudeHistoryEvent :=
  {| display := text; timestamp := 1700000000000; project := "/srv/app";
     session_id := "session-1"; pasted_contents := None |}.

(** A runtime for the examples: values convert to a field type only from
    the JSON type of the same name, texts decode as they are, and the
    decoder knows the three texts used below. *)

Definition quoted (s : string) : string :=
  String "034" (s ++ String "034" "").

(** A reply of the classifier with a confidence of 1.5. *)
Definition overconfident_reply : string :=
  "{" ++ quoted "is_on_task" ++ ": false, "
      ++ quoted "confidence" ++ ": 1.5, "
      ++ quoted "reasoning" ++ ": " ++ quoted "Drifting" ++ "}".

Definition overconfident_data : pyjson :=
  JDict [ ("is_on_task", JBool false); ("confidence", JFloat 1.5);
          ("reasoning", JStr "Drifting") ].

(** A well-formed line of the history file. *)
Definition entry_line : string :=
  "{" ++ quoted "display" ++ ": " ++ quoted "Editing app.py" ++ ", "
      ++ quoted "timestamp" ++ ": 1700000000000, "
      ++ quoted "project" ++ ": " ++ quoted "/srv/app" ++ ", "
      ++ quoted "sessionId" ++ ": " ++ quoted "session-1" ++ "}".

Definition entry_data : pyjson :=
  JDict [ ("display", JStr "Editing app.py"); ("timestamp", JInt 1700000000000);
          ("project", JStr "/srv/app"); ("sessionId", JStr "session-1") ].

Definition sample_loads (text : string) : option pyjson :=
  if String.eqb text overconfident_reply then Some overconfident_data
  else if String.eqb text entry_line then Some entry_data
  else if String.eqb text "[]" then Some (JList [])
  else None.

Definition sample_exc_str (e : pyerror) : string :=
  match e with
  | JSONDecodeError _ => "Expecting value"
  | ValidationError model => "1 validation error for " ++ model
  | UnicodeDecodeError => "invalid start byte"
  | ValueError => "year out of range"
  | TypeError => "argument after ** must be a mapping"
  | IndexError => "list index out of range"
  | AttributeError => "'NoneType' object has no attribute 'strip'"
  | RecursionError => "maximum recursion depth exceeded"
  | OverflowError => "timestamp out of range for platform time_t"
  | OSError => "Value too large for defined data type"
  | MarkupError => "closing tag '[/0]' doesn't match any open tag"
  | ApiError detail => detail
  end.

(** [datetime.fromtimestamp] of CPython on a 64-bit Linux: the years 1
    to 9999 convert, later or earlier times that fit the platform's
    [time_t] give [ValueError], the others [OverflowError]. *)
Definition sample_fromtimestamp (v : Z) : option pyerror :=
  if ((-62135596800000 <=? v) && (v <? 253402300800000))%Z then None
  else if ((-9223372036854775808000 <? v)
           && (v <? 9223372036854775808000))%Z then Some ValueError
  else Some OverflowError.

Definition sample_runtime : PyRuntime :=
  {| json_loads := sample_loads;
     nests_too_deep := fun text => false;
     lax_bool := fun v => match v with JBool b => Some b | _ => None end;
     lax_int := fun v => match v with JInt n => Some n | _ => None end;
     lax_float := fun v => match v with JFloat x => Some x | _ => None end;
     lax_str := fun v => match v with JStr t => Some t | _ => None end;
     fromtimestamp := sample_fromtimestamp;
     utf8_decode := fun bytes => Some bytes;
     exc_str := sample_exc_str |}.

End Samples.

(** * Properties *)

(** ** Order facts on binary64 values *)

Module FloatOrder.

Lemma SFleb_refl (x : spec_float) : x <> S754_nan -> SFleb x x = true.
Proof.
  unfold SFleb. destruct x as [s|s| |s m e]; simpl; try congruence.
  - destruct s; reflexivity.
  - intros _. rewrite Z.compare_refl.
    change (Pos.compare_cont Eq m m) with (Pos.compare m m).
    rewrite Pos.compare_refl. destruct s; reflexivity.
Qed.

Lemma SFleb_not_nan_r (x y : spec_float) : SFleb x y = true -> y <> S754_nan.
Proof. intros H E. subst y. unfold SFleb in H. destruct x; discriminate. Qed.

Ltac cmp_cases :=
  repeat match goal with
    | |- context [Z.compare ?a ?b] => destruct (Z.compare_spec a b)
    | H : context [Z.compare ?a ?b] |- _ => destruct (Z.compare_spec a b)
    | |- context [Pos.compare ?a ?b] => destruct (Pos.compare_spec a b)
    | H : context [Pos.compare ?a ?b] |- _ => destruct (Pos.compare_spec a b)
    end.

Ltac by_signs :=
  repeat match goal with
    | s : bool |- _ => destruct s
    end;
  simpl in *; try discriminate; try reflexivity.

Lemma SFleb_trans (x y z : spec_float) :
  SFleb x y = true -> SFleb y z = true -> SFleb x z = true.
Proof.
  unfold SFleb.
  destruct x as [sx|sx| |sx mx ex], y as [sy|sy| |sy my ey],
           z as [sz|sz| |sz mz ez];
    by_signs;
    change (Pos.compare_cont Eq) with Pos.compare;
    intros Hxy Hyz; cmp_cases; simpl in *;
    try discriminate; try reflexivity; try lia.
Qed.

Lemma SFltb_not_leb (x y : spec_float) :
  SFltb x y = true -> SFleb y x = false.
Proof.
  unfold SFltb, SFleb.
  destruct x as [sx|sx| |sx mx ex], y as [sy|sy| |sy my ey];
    by_signs;
    change (Pos.compare_cont Eq) with Pos.compare;
    intros Hxy; cmp_cases; simpl in *;
    try discriminate; try reflexivity; try lia.
Qed.

(** A value that is at least 0 is not a NaN, so it is at least itself. *)
Lemma leb_refl (x : float) : (0 <=? x)%float = true -> (x <=? x)%float = true.
Proof.
  rewrite !leb_spec. intros H. apply SFleb_refl.
  eapply SFleb_not_nan_r; eauto.
Qed.

Lemma leb_trans (x y z : float) :
  (x <=? y)%float = true -> (y <=? z)%float = true -> (x <=? z)%float = true.
Proof. rewrite !leb_spec. apply SFleb_trans. Qed.

Lemma ltb_not_leb (x y : float) :
  (x <? y)%float = true -> (y <=? x)%float = false.
Proof. rewrite ltb_spec, leb_spec. apply SFltb_not_leb. Qed.

End FloatOrder.

(** ** The intervention decision and its severity *)

Module DecisionProps.
Import PyStr Models Analyzer Samples.

Lemma trigger_known (llm_client : classifier) (self : TaskAnalyzer)
  (activity : string) (force : bool) :
  truthy_opt (user_instruction self) = true ->
  exists instruction,
    user_instruction self = Some instruction /\
    _trigger_analysis llm_client self activity force =
      let context :=
        {| Models.user_instruction := instruction;
           Models.recent_events := recent_events self;
           Models.current_todos := current_todos self;
           Models.completed_todos := completed_todos self |} in
      let judgment := llm_client context activity in
      Analysed context judgment
        (if (negb (is_on_task judgment)
             && (intervention_threshold self <=? confidence judgment)%float)
            || force
         then Some {| should_intervene := true;
                      decision_severity := _determine_severity judgment;
                      intervention_message :=
                        _build_intervention_message judgment;
                      analysis := judgment |}
         else None).
Proof.
  unfold _trigger_analysis. intros Hk.
  destruct (user_instruction self) as [instruction|]; [|discriminate].
  exists instruction. split; [reflexivity|].
  simpl in Hk. rewrite Hk. simpl.
  destruct ((negb _ && _) || force); reflexivity.
Qed.

Lemma trigger_unknown (llm_client : classifier) (self : TaskAnalyzer)
  (activity : string) (force : bool) :
  truthy_opt (user_instruction self) = false ->
  _trigger_analysis llm_client self activity force = NoInstruction.
Proof.
  unfold _trigger_analysis. intros Hk.
  destruct (user_instruction self) as [instruction|]; [|reflexivity].
  simpl in Hk. rewrite Hk. reflexivity.
Qed.

(** C1.  When [_trigger_analysis] reaches the classifier, that is when an
    instruction is known, it builds a decision exactly when the judgment
    is off task with a confidence at or above the threshold, or the call is
    forced.  So an off-task judgment whose confidence equals the threshold
    gives a decision; an off-task judgment below the threshold, not forced,
    gives none; an on-task judgment, not forced, gives none.  The
    classifier is arbitrary, hence so is the judgment. *)
Theorem intervention_iff_off_task_or_forced
  (llm_client : classifier) (self : TaskAnalyzer) (activity : string)
  (force : bool) :
  truthy_opt (user_instruction self) = true ->
  exists context decision,
    let judgment := llm_client context activity in
    _trigger_analysis llm_client self activity force =
      Analysed context judgment decision /\
    (decision <> None <->
       (is_on_task judgment = false /\
        (intervention_threshold self <=? confidence judgment)%float = true)
       \/ force = true) /\
    (is_on_task judgment = false ->
     confidence_in_bounds (confidence judgment) = true ->
     confidence judgment = intervention_threshold self ->
     decision <> None) /\
    (is_on_task judgment = false -> force = false ->
     (confidence judgment <? intervention_threshold self)%float = true ->
     decision = None) /\
    (is_on_task judgment = true -> force = false -> decision = None).
Proof.
  intros Hk.
  destruct (trigger_known llm_client self activity force Hk)
    as (instruction & _ & Heq).
  cbv zeta in Heq.
  eexists. eexists. cbv zeta. split; [exact Heq|].
  generalize (llm_client
                {| Models.user_instruction := instruction;
                   Models.recent_events := recent_events self;
                   Models.current_todos := current_todos self;
                   Models.completed_todos := completed_todos self |}
                activity).
  intros judgment.
  generalize (intervention_threshold self). intros t.
  repeat split.
  - destruct (is_on_task judgment), (t <=? confidence judgment)%float, force;
      simpl; intros H; try congruence; auto.
  - destruct (is_on_task judgment), (t <=? confidence judgment)%float, force;
      simpl; intros H; try congruence;
      destruct H as [[? ?]|?]; congruence.
  - intros Hoff Hb Hc. subst t.
    unfold confidence_in_bounds in Hb. apply andb_true_iff in Hb.
    rewrite Hoff, (FloatOrder.leb_refl (proj1 Hb)). simpl. congruence.
  - intros Hoff Hf Hlt. apply FloatOrder.ltb_not_leb in Hlt.
    rewrite Hoff, Hf, Hlt. reflexivity.
  - intros Hon Hf. rewrite Hon, Hf. reflexivity.
Qed.

(** An off-task judgment whose confidence is the threshold 0.75 makes the
    analyzer of the example build a decision. *)
Lemma intervention_at_threshold :
  exists context decision,
    _trigger_analysis (sample_classifier false 0.75) sample_analyzer
      "I refactored the tests" false
    = Analysed context (sample_judgment false 0.75) decision
    /\ decision <> None.
Proof.
  destruct (@intervention_iff_off_task_or_forced
              (sample_classifier false 0.75) sample_analyzer
              "I refactored the tests" false eq_refl)
    as (context & decision & Heq & _ & Hat & _).
  exists context, decision. split; [exact Heq|].
  apply Hat; reflexivity.
Defined.

(** C4.  The severity is a function of the confidence alone, defined for
    every judgment: critical exactly when the confidence is at least 0.9,
    high exactly when it is at least 0.8 and not at least 0.9, medium
    exactly when it is at least 0.7 and not at least 0.8, low exactly when
    it is not at least 0.7 (a NaN included); the values 0.9, 0.8 and 0.7
    themselves give critical, high and medium. *)
Theorem severity_by_confidence (a : AnalysisResult) :
  let c := confidence a in
  (forall b : AnalysisResult,
      confidence b = c -> _determine_severity b = _determine_severity a) /\
  (_determine_severity a = critical <-> (0.9 <=? c)%float = true) /\
  (_determine_severity a = high <->
     (0.8 <=? c)%float = true /\ (0.9 <=? c)%float = false) /\
  (_determine_severity a = medium <->
     (0.7 <=? c)%float = true /\ (0.8 <=? c)%float = false) /\
  (_determine_severity a = low <-> (0.7 <=? c)%float = false) /\
  (forall on_task why issues action,
      _determine_severity
        (Build_AnalysisResult on_task 0.9 why issues action) = critical /\
      _determine_severity
        (Build_AnalysisResult on_task 0.8 why issues action) = high /\
      _determine_severity
        (Build_AnalysisResult on_task 0.7 why issues action) = medium).
Proof.
  cbv zeta. unfold _determine_severity.
  assert (H98 : (0.9 <=? confidence a)%float = true ->
                (0.8 <=? confidence a)%float = true).
  { apply FloatOrder.leb_trans. reflexivity. }
  assert (H87 : (0.8 <=? confidence a)%float = true ->
                (0.7 <=? confidence a)%float = true).
  { apply FloatOrder.leb_trans. reflexivity. }
  split; [intros b Hb; rewrite Hb; reflexivity|].
  destruct (0.9 <=? confidence a)%float eqn:H9;
    destruct (0.8 <=? confidence a)%float eqn:H8;
    destruct (0.7 <=? confidence a)%float eqn:H7;
    try (specialize (H98 eq_refl); discriminate);
    try (specialize (H87 eq_refl); discriminate);
    repeat split; intros; try discriminate; try reflexivity;
    try (match goal with H : _ /\ _ |- _ => destruct H end; discriminate).
Qed.

End DecisionProps.

(** ** Facts on lower-casing, prefixes and substrings *)

Module PyStrFacts.
Import PyStr.

Lemma lower_app (a b : string) : lower (a ++ b) = lower a ++ lower b.
Proof. induction a as [|c a IH]; simpl; [reflexivity | now rewrite IH]. Qed.

Lemma startswith_app (p s b : string) :
  startswith p s = true -> startswith p (s ++ b) = true.
Proof.
  revert s. induction p as [|x p IH]; intros s H; [reflexivity|].
  destruct s as [|y s]; [discriminate|].
  simpl in *. apply andb_true_iff in H. destruct H as [Hxy Hp].
  rewrite Hxy. simpl. apply IH. exact Hp.
Qed.

Lemma contains_app_r (p s b : string) :
  contains p s = true -> contains p (s ++ b) = true.
Proof.
  induction s as [|c s IH]; intros H.
  - simpl in H. rewrite orb_false_r in H.
    destruct p; [|discriminate]. destruct b; reflexivity.
  - change (String c s ++ b) with (String c (s ++ b)).
    cbn [contains] in *. apply orb_true_iff in H. destruct H as [H|H].
    + pose proof (startswith_app p (String c s) b H) as Hs.
      change (String c s ++ b) with (String c (s ++ b)) in Hs.
      rewrite Hs. reflexivity.
    + rewrite (IH H). apply orb_true_r.
Qed.

Lemma contains_app_l (p a s : string) :
  contains p s = true -> contains p (a ++ s) = true.
Proof.
  intros H. induction a as [|c a IH]; [exact H|].
  change (String c a ++ s) with (String c (a ++ s)).
  cbn [contains]. rewrite IH. apply orb_true_r.
Qed.

Lemma startswith_split (p s : string) :
  startswith p s = true -> exists b, s = p ++ b.
Proof.
  revert s. induction p as [|x p IH]; intros s H.
  - exists s. reflexivity.
  - destruct s as [|y s]; [discriminate|].
    simpl in H. apply andb_true_iff in H. destruct H as [Hxy Hp].
    apply Ascii.eqb_eq in Hxy. subst y.
    destruct (IH s Hp) as (b & ->). exists b. reflexivity.
Qed.

Lemma contains_split (p s : string) :
  contains p s = true -> exists a b, s = a ++ p ++ b.
Proof.
  induction s as [|c s IH]; intros H.
  - simpl in H. rewrite orb_false_r in H.
    destruct (@startswith_split p "" H) as (b & Hb).
    exists "", b. exact Hb.
  - cbn [contains] in H. apply orb_true_iff in H. destruct H as [H|H].
    + destruct (@startswith_split p (String c s) H) as (b & Hb).
      exists "", b. exact Hb.
    + destruct (IH H) as (a & b & ->). exists (String c a), b. reflexivity.
Qed.

Lemma lower_app_inv (s x y : string) :
  lower s = x ++ y ->
  exists s1 s2, s = s1 ++ s2 /\ lower s1 = x /\ lower s2 = y.
Proof.
  revert s. induction x as [|c x IH]; intros s H.
  - exists "", s. repeat split. exact H.
  - destruct s as [|d s]; [discriminate|].
    simpl in H. injection H as Hc Hs.
    destruct (IH s Hs) as (s1 & s2 & -> & H1 & H2).
    exists (String d s1), s2. repeat split; [|exact H2].
    simpl. rewrite Hc, H1. reflexivity.
Qed.

End PyStrFacts.

(** ** The context buffer, the inferred instruction and the trigger policy *)

Module AnalyzerProps.
Import PyStr Models Analyzer Samples PyStrFacts.

(** The last [n] items of a list, in order. *)
Definition last_n {A : Type} (n : nat) (l : list A) : list A :=
  skipn (List.length l - n) l.

Lemma tl_skipn {A : Type} (n : nat) (l : list A) :
  tl (skipn n l) = skipn (S n) l.
Proof.
  revert l. induction n as [|n IH]; intros [|x l]; try reflexivity.
  exact (IH l).
Qed.

Lemma length_last_n {A : Type} (n : nat) (l : list A) :
  List.length (last_n n l) = Nat.min n (List.length l).
Proof. unfold last_n. rewrite length_skipn. lia. Qed.

Lemma deque_append_last_n {A : Type} (maxlen : nat) (l : list A) (x : A) :
  deque_append maxlen (last_n maxlen l) x = last_n maxlen (l ++ [x]).
Proof.
  unfold deque_append, last_n.
  rewrite !length_app, length_skipn. simpl.
  destruct (Nat.ltb_spec maxlen
              (List.length l - (List.length l - maxlen) + 1)) as [Hfull|Hroom].
  - replace (List.length l + 1 - maxlen) with (S (List.length l - maxlen))
      by lia.
    rewrite <- tl_skipn, skipn_app.
    replace (List.length l - maxlen - List.length l) with 0 by lia.
    reflexivity.
  - replace (List.length l - maxlen) with 0 by lia.
    replace (List.length l + 1 - maxlen) with 0 by lia.
    reflexivity.
Qed.

(** The analyzer after [process_event], whatever the check does. *)
Lemma process_event_state (llm_client : classifier) (self : TaskAnalyzer)
  (event : ClaudeHistoryEvent) :
  fst (process_event llm_client self event) =
    {| context_window_size := context_window_size self;
       intervention_threshold := intervention_threshold self;
       on_intervention := on_intervention self;
       user_instruction :=
         if negb (truthy_opt (user_instruction self))
         then Some (display event) else user_instruction self;
       current_todos := current_todos self;
       completed_todos := completed_todos self;
       recent_events :=
         deque_append (context_window_size self) (recent_events self) event;
       event_count := event_count self + 1 |}.
Proof.
  unfold process_event.
  destruct (_is_suspicious_activity (display event)); [reflexivity|].
  match goal with |- context [if ?b then _ else _] => destruct b end;
    reflexivity.
Qed.

Lemma process_events_cons (self : TaskAnalyzer) (llm_client : classifier)
  (event : ClaudeHistoryEvent) (rest : list (classifier * ClaudeHistoryEvent)) :
  process_events self ((llm_client, event) :: rest) =
    (fst (process_events (fst (process_event llm_client self event)) rest),
     snd (process_event llm_client self event)
       :: snd (process_events (fst (process_event llm_client self event)) rest)).
Proof.
  simpl. destruct (process_event llm_client self event) as [self' o].
  simpl. destruct (process_events self' rest) as [final os]. reflexivity.
Qed.

Lemma process_events_window (feed : list (classifier * ClaudeHistoryEvent)) :
  forall self,
    context_window_size (fst (process_events self feed)) =
      context_window_size self.
Proof.
  induction feed as [|[c e] rest IH]; intros self; [reflexivity|].
  rewrite process_events_cons. simpl. rewrite IH, process_event_state.
  reflexivity.
Qed.

Lemma process_events_buffer (feed : list (classifier * ClaudeHistoryEvent)) :
  forall self history,
    recent_events self = last_n (context_window_size self) history ->
    recent_events (fst (process_events self feed)) =
      last_n (context_window_size self) (history ++ map snd feed).
Proof.
  induction feed as [|[c e] rest IH]; intros self history Hinv.
  - simpl. rewrite app_nil_r. exact Hinv.
  - rewrite process_events_cons. simpl.
    rewrite (IH _ (history ++ [e])%list).
    + rewrite process_event_state. simpl. rewrite <- app_assoc. reflexivity.
    + rewrite process_event_state. simpl. rewrite Hinv.
      apply deque_append_last_n.
Qed.

(** C7.  From a new analyzer with window size W, after any events the
    buffer holds the last W of them in the order they came, so never more
    than W; after W + k events it holds exactly W events, the first k
    having been dropped. *)
Theorem buffer_holds_last_window (window : nat) (threshold : float)
  (callback : bool) (feed : list (classifier * ClaudeHistoryEvent)) :
  let events := map snd feed in
  let buffer :=
    recent_events (fst (process_events (init window threshold callback) feed))
  in
  List.length buffer <= window /\
  buffer = skipn (List.length events - window) events /\
  (forall k, List.length events = window + k ->
             buffer = skipn k events /\ List.length buffer = window).
Proof.
  cbv zeta.
  pose proof (@process_events_buffer feed (init window threshold callback) [])
    as H.
  simpl in H. specialize (H eq_refl). rewrite H. unfold last_n.
  split; [rewrite length_skipn; lia|].
  split; [reflexivity|].
  intros k Hk. rewrite Hk.
  replace (window + k - window) with k by lia.
  split; [reflexivity|]. rewrite length_skipn. lia.
Qed.

(** *** The inferred instruction *)

Lemma truthy_after_event (llm_client : classifier) (self : TaskAnalyzer)
  (event : ClaudeHistoryEvent) :
  truthy_opt (user_instruction (fst (process_event llm_client self event))) =
    truthy_opt (user_instruction self) || truthy (display event).
Proof.
  rewrite process_event_state. simpl.
  destruct (truthy_opt (user_instruction self)) eqn:Hk; simpl;
    [exact Hk | reflexivity].
Qed.

(** C9, counterexample.  A first event with an empty display text leaves
    the empty text as instruction, and the second event replaces it: the
    inference ran twice, and a later event has overwritten what the first
    one had set. *)
Lemma inference_not_first_event_only :
  let s0 := init 10 0.75 true in
  let s1 := fst (process_event (sample_classifier true 0.5) s0
                   (sample_event "")) in
  let s2 := fst (process_event (sample_classifier true 0.5) s1
                   (sample_event "Add a login endpoint")) in
  user_instruction s0 = None /\
  user_instruction s1 = Some "" /\
  user_instruction s2 = Some "Add a login endpoint".
Proof. repeat split. Qed.

(** C9, as amended.  An event processed while no non-empty instruction is
    set makes its display text the instruction; an event processed while a
    non-empty instruction is set leaves it as it is.  So over a run that
    starts without one, the instruction ends up as the display text of
    the first event whose display text is not empty (the empty text while
    there is none), and over a run that starts with one it never changes. *)
Theorem instruction_inferred_while_empty
  (llm_client : classifier) (self : TaskAnalyzer) (event : ClaudeHistoryEvent)
  (feed : list (classifier * ClaudeHistoryEvent)) :
  user_instruction (fst (process_event llm_client self event)) =
    (if truthy_opt (user_instruction self) then user_instruction self
     else Some (display event)) /\
  user_instruction (fst (process_events self feed)) =
    (if truthy_opt (user_instruction self) then user_instruction self
     else match find (fun e => truthy (display e)) (map snd feed) with
          | Some e => Some (display e)
          | None =>
              match feed with
              | [] => user_instruction self
              | _ :: _ => Some ""
              end
          end).
Proof.
  split.
  - rewrite process_event_state. simpl.
    destruct (truthy_opt (user_instruction self)); reflexivity.
  - revert self. induction feed as [|[c e] rest IH]; intros self.
    + simpl. destruct (truthy_opt (user_instruction self)); reflexivity.
    + rewrite process_events_cons. simpl fst. rewrite IH.
      rewrite truthy_after_event, process_event_state. simpl.
      destruct (truthy_opt (user_instruction self)) eqn:Hk; simpl;
        [reflexivity|].
      destruct (truthy (display e)) eqn:Hd; [reflexivity|].
      destruct (find _ (map snd rest)); [reflexivity|].
      destruct (display e); [|discriminate].
      destruct rest; reflexivity.
Qed.

(** *** The trigger policy *)

(** The analyzer as hawtcher.py starts it: new, with the instruction of
    the command line when there is one. *)
Definition started (window : nat) (threshold : float) (callback : bool)
  (instruction : option string) : TaskAnalyzer :=
  match instruction with
  | Some text =>
      if truthy text
      then set_user_instruction (init window threshold callback) text
      else init window threshold callback
  | None => init window threshold callback
  end.

(** Is an instruction known once the given events have been recorded? *)
Definition known_after (instruction : option string)
  (events : list ClaudeHistoryEvent) : bool :=
  truthy_opt instruction || existsb (fun e => truthy (display e)) events.

Lemma suspicious_is_not_empty (activity : string) :
  _is_suspicious_activity activity = true -> truthy activity = true.
Proof. destruct activity; [discriminate | reflexivity]. Qed.

Lemma suspicious_iff (activity : string) :
  _is_suspicious_activity activity = true <->
  exists pattern, In pattern suspicious_patterns /\
                  contains pattern (lower activity) = true.
Proof. unfold _is_suspicious_activity. apply existsb_exists. Qed.

Example suspicious_ignores_case :
  _is_suspicious_activity "I'LL Monitor the build" = true /\
  _is_suspicious_activity "Editing app.py" = false.
Proof. split; reflexivity. Qed.

(** *** A phrase held in a text, the case of its letters left aside *)

(** [c] is the character [p] of a phrase, or the capital letter of it. *)
Definition same_letter (p c : ascii) : Prop :=
  c = p \/ (in_range 65 90 c = true /\ code p = (code c + 32)%N).

(** [text] is [phrase], character by character, up to the case. *)
Fixpoint spells (phrase text : string) : Prop :=
  match phrase, text with
  | EmptyString, EmptyString => True
  | String p phrase', String c text' => same_letter p c /\ spells phrase' text'
  | _, _ => False
  end.

(** [phrase] is written somewhere in [text], in any case. *)
Definition holds_phrase (phrase text : string) : Prop :=
  exists before middle after,
    text = before ++ middle ++ after /\ spells phrase middle.

(** The text contains one of the suspicious phrases, as a substring and
    whatever the case of its letters. *)
Definition suspicious_phrasing (text : string) : Prop :=
  exists phrase, In phrase suspicious_patterns /\ holds_phrase phrase text.

(** A phrase of characters below 128 that lower-casing leaves alone. *)
Fixpoint plain (phrase : string) : bool :=
  match phrase with
  | EmptyString => true
  | String p phrase' =>
      (code p <? 128)%N && Ascii.eqb (lower_char p) p && plain phrase'
  end.

Lemma patterns_plain (phrase : string) :
  In phrase suspicious_patterns -> plain phrase = true.
Proof.
  unfold suspicious_patterns. simpl In.
  intros H.
  repeat (destruct H as [<-|H]; [reflexivity|]). contradiction.
Qed.

Lemma lower_char_below_128 (c : ascii) :
  (code (lower_char c) <? 128)%N = true -> same_letter (lower_char c) c.
Proof.
  destruct c as [[] [] [] [] [] [] [] []]; intros H;
    try (vm_compute in H; discriminate);
    first [ left; reflexivity | right; split; reflexivity ].
Qed.

Lemma same_letter_lower (p c : ascii) :
  lower_char p = p -> same_letter p c -> lower_char c = p.
Proof.
  intros Hp [->|[Hr Hc]]; [exact Hp|].
  unfold lower_char. rewrite Hr. cbn [orb].
  rewrite <- Hc. unfold code. apply ascii_N_embedding.
Qed.

Lemma spells_lower (phrase text : string) :
  plain phrase = true -> spells phrase text -> lower text = phrase.
Proof.
  revert text. induction phrase as [|p phrase IH]; intros [|c text] Hp Hs;
    try contradiction; [reflexivity|].
  simpl in Hp. apply andb_true_iff in Hp. destruct Hp as [Hp Hrest].
  apply andb_true_iff in Hp. destruct Hp as [_ Hfix].
  apply Ascii.eqb_eq in Hfix. destruct Hs as [Hc Hs].
  simpl. rewrite (@same_letter_lower p c Hfix Hc), (IH text Hrest Hs).
  reflexivity.
Qed.

Lemma lower_spells (phrase text : string) :
  plain phrase = true -> lower text = phrase -> spells phrase text.
Proof.
  revert text. induction phrase as [|p phrase IH]; intros [|c text] Hp Hl;
    try discriminate; [exact I|].
  simpl in Hp. apply andb_true_iff in Hp. destruct Hp as [Hp Hrest].
  apply andb_true_iff in Hp. destruct Hp as [Hlow _].
  simpl in Hl. injection Hl as Hc Hl. subst p.
  split; [apply lower_char_below_128; exact Hlow | exact (IH text Hrest Hl)].
Qed.

(** The detector fires on the texts that contain a suspicious phrase in
    any case, and on no other. *)
Lemma suspicious_as_specified (text : string) :
  _is_suspicious_activity text = true <-> suspicious_phrasing text.
Proof.
  rewrite suspicious_iff. split.
  - intros (phrase & Hin & Hc). exists phrase. split; [exact Hin|].
    destruct (@contains_split phrase (lower text) Hc) as (a & b & Hab).
    destruct (@lower_app_inv text a (phrase ++ b) Hab)
      as (before & rest & -> & _ & Hrest).
    destruct (@lower_app_inv rest phrase b Hrest)
      as (middle & after & -> & Hm & _).
    exists before, middle, after. split; [reflexivity|].
    exact (@lower_spells phrase middle (@patterns_plain phrase Hin) Hm).
  - intros (phrase & Hin & before & middle & after & -> & Hs).
    exists phrase. split; [exact Hin|].
    rewrite !lower_app.
    rewrite (@spells_lower phrase middle (@patterns_plain phrase Hin) Hs).
    apply contains_app_l, contains_app_r.
    clear. induction phrase as [|p phrase IH]; [reflexivity|].
    cbn [contains startswith]. rewrite Ascii.eqb_refl. cbn [andb].
    assert (Hst : forall q, startswith q q = true).
    { induction q as [|x q IHq]; [reflexivity|].
      simpl. rewrite Ascii.eqb_refl. exact IHq. }
    rewrite Hst. reflexivity.
Qed.

(** *** What an event of a run makes the analyzer do *)

(** What [process_event] does after recording the event, in terms of the
    analyzer it leaves. *)
Lemma process_event_outcome (llm_client : classifier) (self : TaskAnalyzer)
  (event : ClaudeHistoryEvent) :
  let after := fst (process_event llm_client self event) in
  snd (process_event llm_client self event) =
    if _is_suspicious_activity (display event) then
      Checked true (_trigger_analysis llm_client after (display event) true)
    else if ((event_count self + 1) mod 3 =? 0)%nat then
      Checked false (_trigger_analysis llm_client after (display event) false)
    else NoCheck.
Proof.
  cbv zeta. rewrite process_event_state.
  unfold process_event, check_frequency. cbn [event_count].
  destruct (_is_suspicious_activity (display event)); [reflexivity|].
  destruct ((event_count self + 1) mod 3 =? 0)%nat; reflexivity.
Qed.

(** The event at index [i] of a run is processed by the analyzer that
    the events before it left: that analyzer has counted [i] events more
    than the first one, and after the event an instruction is known if
    one was given at the start or one of the events so far has a display
    text that is not empty. *)
Lemma outcome_nth (feed : list (classifier * ClaudeHistoryEvent)) :
  forall self i llm_client event,
    nth_error feed i = Some (llm_client, event) ->
    exists before,
      nth_error (snd (process_events self feed)) i =
        Some (snd (process_event llm_client before event)) /\
      event_count before = event_count self + i /\
      truthy_opt (user_instruction (fst (process_event llm_client before event)))
        = known_after (user_instruction self) (firstn (S i) (map snd feed)).
Proof.
  induction feed as [|[c e] rest IH]; intros self i llm_client event Hnth.
  - destruct i; discriminate.
  - rewrite process_events_cons. destruct i as [|i].
    + injection Hnth as -> ->. exists self.
      split; [reflexivity|]. split; [lia|].
      rewrite truthy_after_event. unfold known_after. simpl.
      rewrite orb_false_r. reflexivity.
    + simpl in Hnth.
      destruct (IH (fst (process_event c self e)) i llm_client event Hnth)
        as (before & Ho & Hcount & Hknown).
      exists before. split; [exact Ho|]. split.
      * rewrite Hcount, process_event_state. simpl event_count. lia.
      * rewrite Hknown. unfold known_after. rewrite truthy_after_event.
        change (map snd ((c, e) :: rest)) with (e :: map snd rest).
        rewrite firstn_cons. simpl existsb. rewrite orb_assoc.
        reflexivity.
Qed.

(** C3.  In a run of an analyzer started as hawtcher.py starts it, take
    the event at position [S i], counting from 1, and what the analyzer
    does with it.  While no instruction is known the classifier is not
    asked: nothing is checked, or the check returns at once.  An event
    whose display text contains a suspicious phrase, as a substring and
    in any case of its letters, makes the classifier run at once on that
    text, at any position, with the forced flag set, and a decision is
    built whatever the classifier says.  An event without such a phrase,
    once an instruction is known, makes the classifier run on its text,
    not forced, when the position is a multiple of 3, and is not checked
    at all at any other position.  Where the classifier runs, the context
    it is given carries an instruction that is not empty. *)
Theorem trigger_policy (window : nat) (threshold : float) (callback : bool)
  (instruction : option string)
  (feed : list (classifier * ClaudeHistoryEvent)) (i : nat)
  (llm_client : classifier) (event : ClaudeHistoryEvent) :
  nth_error feed i = Some (llm_client, event) ->
  let self := started window threshold callback instruction in
  let known :=
    known_after (user_instruction self) (firstn (S i) (map snd feed)) in
  exists o,
    nth_error (snd (process_events self feed)) i = Some o /\
    (known = false ->
       o = NoCheck \/ exists force, o = Checked force NoInstruction) /\
    (suspicious_phrasing (display event) ->
       exists context decision,
         truthy (Models.user_instruction context) = true /\
         o = Checked true
               (Analysed context (llm_client context (display event))
                  (Some decision))) /\
    (~ suspicious_phrasing (display event) -> known = true ->
       ((S i) mod 3 = 0 ->
          exists context decision,
            truthy (Models.user_instruction context) = true /\
            o = Checked false
                  (Analysed context (llm_client context (display event))
                     decision)) /\
       ((S i) mod 3 <> 0 -> o = NoCheck)).
Proof.
  intros Hnth self known.
  destruct (@outcome_nth feed self i llm_client event Hnth)
    as (before & Ho & Hcount & Hknown).
  fold known in Hknown.
  assert (Hzero : event_count self = 0).
  { unfold self, started. destruct instruction as [text|]; [|reflexivity].
    destruct (truthy text); reflexivity. }
  rewrite Hzero in Hcount. simpl in Hcount.
  pose proof (process_event_outcome llm_client before event) as Hout.
  cbv zeta in Hout. rewrite Hcount in Hout.
  replace (i + 1) with (S i) in Hout by lia.
  exists (snd (process_event llm_client before event)).
  split; [exact Ho|]. rewrite Hout. clear Hout Ho.
  set (after := fst (process_event llm_client before event)) in *.
  split; [|split].
  - intros Hk. rewrite Hk in Hknown.
    destruct (_is_suspicious_activity (display event)).
    + right. exists true.
      rewrite (@DecisionProps.trigger_unknown llm_client after
                 (display event) true Hknown). reflexivity.
    + destruct (S i mod 3 =? 0)%nat; [|left; reflexivity].
      right. exists false.
      rewrite (@DecisionProps.trigger_unknown llm_client after
                 (display event) false Hknown). reflexivity.
  - intros Hs. apply suspicious_as_specified in Hs. rewrite Hs.
    assert (Hk : truthy_opt (user_instruction after) = true).
    { unfold after. rewrite truthy_after_event.
      rewrite (@suspicious_is_not_empty (display event) Hs).
      apply orb_true_r. }
    destruct (@DecisionProps.trigger_known llm_client after
                (display event) true Hk) as (text & Htext & Heq).
    rewrite Heq. cbv zeta. rewrite orb_true_r.
    rewrite Htext in Hk.
    eexists. eexists. split; [|reflexivity]. exact Hk.
  - intros Hs Hk.
    assert (Hd : _is_suspicious_activity (display event) = false).
    { destruct (_is_suspicious_activity (display event)) eqn:Hd;
        [|reflexivity].
      exfalso. apply Hs. apply suspicious_as_specified. exact Hd. }
    rewrite Hd. rewrite Hk in Hknown.
    destruct (@DecisionProps.trigger_known llm_client after
                (display event) false Hknown) as (text & Htext & Heq).
    destruct (Nat.eqb_spec (S i mod 3) 0) as [Hm|Hm]; split; intros H;
      try contradiction; try reflexivity.
    rewrite Heq. cbv zeta. rewrite Htext in Hknown.
    eexists. eexists. split; [|reflexivity]. exact Hknown.
Qed.

(** C3 on a run of three events under a known instruction.  The second
    event announces, in capital letters, that the agent will monitor
    something: the classifier runs on it at once, forced, though the
    position is no multiple of 3, and a decision is built from a judgment
    that is on task.  The third event holds no suspicious phrase and
    makes the classifier run, not forced. *)
Lemma suspicious_and_third_event_trigger :
  let feed :=
    [ (sample_classifier true 0.5, sample_event "Reading the routes");
      (sample_classifier true 0.5, sample_event "I'LL Monitor the build");
      (sample_classifier true 0.5, sample_event "Running the tests") ] in
  let outcomes :=
    snd (process_events (started 10 0.75 true (Some "Add a login endpoint"))
           feed) in
  (exists context decision,
      nth_error outcomes 1 =
        Some (Checked true
                (Analysed context
                   (sample_classifier true 0.5 context
                      "I'LL Monitor the build")
                   (Some decision)))) /\
  (exists context decision,
      nth_error outcomes 2 =
        Some (Checked false
                (Analysed context
                   (sample_classifier true 0.5 context "Running the tests")
                   decision))).
Proof.
  cbv zeta. split.
  - destruct (@trigger_policy 10 0.75 true (Some "Add a login endpoint")
                [ (sample_classifier true 0.5,
                   sample_event "Reading the routes");
                  (sample_classifier true 0.5,
                   sample_event "I'LL Monitor the build");
                  (sample_classifier true 0.5,
                   sample_event "Running the tests") ]
                1 (sample_classifier true 0.5)
                (sample_event "I'LL Monitor the build") eq_refl)
      as (o & Ho & _ & Hforced & _).
    destruct Hforced as (context & decision & _ & ->).
    + exists "i'll monitor". split; [left; reflexivity|].
      exists "", "I'LL Monitor", " the build". split; [reflexivity|].
      simpl. unfold same_letter.
      repeat split;
        first [ left; reflexivity | right; split; reflexivity ].
    + exists context, decision. exact Ho.
  - destruct (@trigger_policy 10 0.75 true (Some "Add a login endpoint")
                [ (sample_classifier true 0.5,
                   sample_event "Reading the routes");
                  (sample_classifier true 0.5,
                   sample_event "I'LL Monitor the build");
                  (sample_classifier true 0.5,
                   sample_event "Running the tests") ]
                2 (sample_classifier true 0.5)
                (sample_event "Running the tests") eq_refl)
      as (o & Ho & _ & _ & Hplain).
    destruct Hplain as [Hthird _].
    + intros Hs. apply suspicious_as_specified in Hs. discriminate Hs.
    + reflexivity.
    + destruct (Hthird eq_refl) as (context & decision & _ & ->).
      exists context, decision. exact Ho.
Defined.

End AnalyzerProps.

(** ** The question detector *)

Module QuestionProps.
Import PyStr Re QuestionDetector.

(** Every character of the text is whitespace; the empty text included. *)
Fixpoint blank (s : string) : bool :=
  match s with
  | EmptyString => true
  | String c s' => isspace c && blank s'
  end.

(** [extract] as the specification words it: the first line classified as
    a question, else the whole text when it holds a question mark. *)
Definition extract_as_specified (text : string) : option string :=
  match find is_question (split_char newline text) with
  | Some line => Some line
  | None => if contains "?" text then Some text else None
  end.

Lemma lstrip_blank (s : string) : blank s = true -> lstrip s = "".
Proof.
  induction s as [|c s IH]; simpl; [reflexivity|].
  intros H. apply andb_true_iff in H. destruct H as [Hc Hs].
  rewrite Hc. exact (IH Hs).
Qed.

Lemma strip_blank (s : string) : blank s = true -> strip s = "".
Proof. intros H. unfold strip. rewrite (lstrip_blank s H). reflexivity. Qed.

(** The examples of the specification. *)
Example rhetorical_exclusion_wins :
  is_question "What is this variable for?" = false.
Proof. reflexivity. Qed.

Example alternative_is_question :
  is_question "Should I use PostgreSQL or MySQL?" = true.
Proof. reflexivity. Qed.

Example planning_is_no_question :
  is_question "Let me check the config file." = false.
Proof. reflexivity. Qed.

Example question_ignores_case :
  is_question "would you like me to continue" = true.
Proof. reflexivity. Qed.

(** C10.  A text that is empty or made of whitespace only is not a
    question, and nothing is extracted from it. *)
Theorem blank_is_no_question (text : string) :
  blank text = true ->
  is_question text = false /\ extract_question text = None.
Proof.
  intros H.
  assert (Hq : is_question text = false).
  { unfold is_question. rewrite (strip_blank text H). simpl.
    rewrite orb_true_r. reflexivity. }
  split; [exact Hq|].
  unfold extract_question. rewrite Hq. reflexivity.
Qed.

(** Two spaces, a tab and a line feed. *)
Lemma spaces_are_no_question :
  is_question (String " " (String " " (String "009" (String newline ""))))
    = false
  /\ extract_question
       (String " " (String " " (String "009" (String newline "")))) = None.
Proof.
  apply (@blank_is_no_question
           (String " " (String " " (String "009" (String newline ""))))).
  reflexivity.
Defined.

Definition two_lines : string :=
  "What is this?" ++ String newline "Should I proceed?".

(** C8, counterexample.  The second line of the text is a question taken
    alone, so the specified [extract] returns it, but the whole text
    matches an exclusion pattern and [extract_question] returns nothing.
    Likewise the one-line text holds a question mark and no line of it is
    a question, so the specified [extract] returns the text, and
    [extract_question] returns nothing. *)
Lemma extract_guarded_by_whole_text :
  is_question "Should I proceed?" = true /\
  extract_as_specified two_lines = Some "Should I proceed?" /\
  extract_question two_lines = None /\
  extract_as_specified "What is this?" = Some "What is this?" /\
  extract_question "What is this?" = None.
Proof. repeat split. Qed.

Lemma collect_is_filter (lines acc : list string) :
  fold_left (fun questions line =>
               let line := strip line in
               if is_question line then (questions ++ [line])%list
               else questions) lines acc
  = (acc ++ filter is_question (map strip lines))%list.
Proof.
  revert acc. induction lines as [|line rest IH]; intros acc; simpl.
  - rewrite app_nil_r. reflexivity.
  - rewrite IH. destruct (is_question (strip line)).
    + rewrite <- app_assoc. reflexivity.
    + reflexivity.
Qed.

Lemma head_of_filter {A : Type} (f : A -> bool) (l : list A) :
  match filter f l with [] => None | x :: _ => Some x end = find f l.
Proof.
  induction l as [|x l IH]; simpl; [reflexivity|].
  destruct (f x); [reflexivity | exact IH].
Qed.

(** C8, as amended.  [extract_question] returns nothing when the whole text
    is not classified as a question.  Otherwise it splits the text into
    lines, strips each, and returns the first stripped line classified as
    a question; when there is none it returns the stripped text if the
    text holds a question mark, and nothing otherwise. *)
Theorem extract_first_question_line (text : string) :
  extract_question text =
    if negb (is_question text) then None
    else match find is_question (map strip (split_char newline text)) with
         | Some line => Some line
         | None => if contains "?" text then Some (strip text) else None
         end.
Proof.
  unfold extract_question, collect_questions.
  destruct (negb (is_question text)); [reflexivity|].
  rewrite collect_is_filter. simpl app.
  rewrite <- head_of_filter.
  destruct (filter is_question (map strip (split_char newline text)));
    reflexivity.
Qed.

End QuestionProps.

(** ** The judgment returned by the client *)

Module ClientProps.
Import PyStr Models LlmClient Analyzer Samples.

(** The judgment as the specification words it: the fields of the reply,
    with the confidence clamped to the interval from 0 to 1. *)
Definition clamp (c : float) : float :=
  if (c <? 0)%float then 0%float
  else if (1 <? c)%float then 1%float
  else c.

Definition AnalysisResult_clamped {rt : PyRuntime} (data : pyjson)
  : result AnalysisResult :=
  match data with
  | JDict fields =>
      let m := "AnalysisResult" in
      on_task <- required m lax_bool "is_on_task" fields ;;
      conf <- required m lax_float "confidence" fields ;;
      why <- required m lax_str "reasoning" fields ;;
      issues <- defaulted m lax_list_of_str "detected_issues" [] fields ;;
      action <- defaulted m lax_optional_str "recommended_action" None fields ;;
      Ok {| is_on_task := on_task; confidence := clamp conf;
            reasoning := why; detected_issues := issues;
            recommended_action := action |}
  | _ => Raised TypeError
  end.

(** C2, counterexample.  The reply is well-formed JSON with every field
    of a judgment, off task, with confidence 1.5.  Clamping would give an
    off-task judgment of confidence 1; the client gives the default of a
    parse failure, on task with confidence 0. *)
Lemma out_of_range_confidence_not_clamped :
  @json_loads sample_runtime overconfident_reply = Some overconfident_data /\
  @AnalysisResult_clamped sample_runtime overconfident_data =
    Ok {| is_on_task := false; confidence := 1; reasoning := "Drifting";
          detected_issues := []; recommended_action := None |} /\
  @_parse_analysis_response sample_runtime (Some overconfident_reply) =
    {| is_on_task := true; confidence := 0;
       reasoning :=
         "Failed to parse response: 1 validation error for AnalysisResult";
       detected_issues := []; recommended_action := None |}.
Proof. repeat split. Qed.

Section Client.
Context {rt : PyRuntime}.

Lemma validated_confidence (data : pyjson) (r : AnalysisResult) :
  AnalysisResult_of data = Ok r -> confidence_in_bounds (confidence r) = true.
Proof.
  unfold AnalysisResult_of. destruct data; try discriminate.
  unfold bind.
  destruct (required _ lax_bool _ _); [|discriminate].
  destruct (required _ lax_float _ _) as [conf|]; [|discriminate].
  destruct (confidence_in_bounds conf) eqn:Hb; simpl; [|discriminate].
  destruct (required _ lax_str _ _); [|discriminate].
  destruct (defaulted _ lax_list_of_str _ _ _); [|discriminate].
  destruct (defaulted _ lax_optional_str _ _ _); [|discriminate].
  intros H. injection H as <-. exact Hb.
Qed.

(** A reply whose confidence lies outside the interval is refused,
    whatever its other fields hold. *)
Lemma out_of_range_refused (fields : list (string * pyjson))
  (v : pyjson) (conf : float) :
  dict_get "confidence" fields = Some v ->
  lax_float v = Some conf ->
  confidence_in_bounds conf = false ->
  AnalysisResult_of (JDict fields) = Raised (ValidationError "AnalysisResult").
Proof.
  intros Hv Hc Hb. unfold AnalysisResult_of, bind.
  destruct (required _ lax_bool _ _) as [on_task|e] eqn:H1.
  - unfold required at 1. rewrite Hv. unfold or_raise. rewrite Hc, Hb.
    reflexivity.
  - unfold required in H1.
    destruct (dict_get "is_on_task" fields) as [w|]; [|congruence].
    unfold or_raise in H1. destruct (lax_bool w); congruence.
Qed.

(** The value that [_parse_analysis_response] decodes from the reply:
    the text is stripped and taken out of its code fence, then given to
    [json.loads]. *)
Definition reply_data (content : option string) : result pyjson :=
  content <- or_raise AttributeError content ;;
  let content := strip content in
  content <-
    (if startswith fence_json content then
       inner <- item 1 (split fence_json content) ;;
       item 0 (split fence inner)
     else if startswith fence content then
       inner <- item 1 (split fence content) ;;
       item 0 (split fence inner)
     else Ok content) ;;
  loads (strip content).

Lemma parse_body_of_data (content : option string) :
  parse_body content = (data <- reply_data content ;; AnalysisResult_of data).
Proof.
  unfold parse_body, reply_data, bind.
  destruct (or_raise AttributeError content) as [text|]; [|reflexivity].
  match goal with
  | |- match ?x with Ok _ => _ | Raised _ => _ end = _ =>
      destruct x as [body|]; reflexivity
  end.
Qed.

Lemma parse_body_confidence (content : option string) (r : AnalysisResult) :
  parse_body content = Ok r -> confidence_in_bounds (confidence r) = true.
Proof.
  unfold parse_body, bind.
  destruct (or_raise AttributeError content) as [text|]; [|discriminate].
  match goal with
  | |- match ?x with Ok _ => _ | Raised _ => _ end = _ -> _ =>
      destruct x as [body|]; [|discriminate]
  end.
  destruct (loads (strip body)) as [data|]; [|discriminate].
  apply validated_confidence.
Qed.

(** No judgment came back: the request raised, or its reply did not parse
    into a valid judgment. *)
Definition no_judgment (chat : endpoint) (context : TaskContext)
  (activity : string) : bool :=
  match chat context activity with
  | CallRaises _ => true
  | Content content =>
      match parse_body content with Raised _ => true | Ok _ => false end
  end.

(** The judgment of a failed parse. *)
Definition parse_failure (e : pyerror) : AnalysisResult :=
  {| is_on_task := true;
     confidence := 0;
     reasoning := "Failed to parse response: " ++ exc_str e;
     detected_issues := [];
     recommended_action := None |}.

(** C2, as amended.  The judgment returned by the client always has a
    confidence between 0 and 1.  A reply that decodes to a mapping whose
    confidence lies outside that interval is refused, whatever its other
    fields hold, and the judgment is the one of a parse failure, on task
    with confidence 0: the confidence is not clamped.  A reply whose
    fields convert and whose confidence lies inside the interval gives
    the judgment made of those fields, the confidence as it was sent.  On
    a failed request and on every parse failure the judgment is on task
    with confidence 0, with no issue and no recommended action; such a
    judgment makes [_trigger_analysis] build no decision unless the call
    is forced.  The client returns a judgment in every case. *)
Theorem judgment_bounded_and_fail_open (chat : endpoint)
  (context : TaskContext) (activity : string) :
  let judgment := analyze_task_adherence chat context activity in
  confidence_in_bounds (confidence judgment) = true /\
  (forall content fields v conf,
      chat context activity = Content content ->
      reply_data content = Ok (JDict fields) ->
      dict_get "confidence" fields = Some v ->
      lax_float v = Some conf ->
      confidence_in_bounds conf = false ->
      judgment = parse_failure (ValidationError "AnalysisResult")) /\
  (forall content fields on_task conf why issues action,
      chat context activity = Content content ->
      reply_data content = Ok (JDict fields) ->
      required "AnalysisResult" lax_bool "is_on_task" fields = Ok on_task ->
      required "AnalysisResult" lax_float "confidence" fields = Ok conf ->
      confidence_in_bounds conf = true ->
      required "AnalysisResult" lax_str "reasoning" fields = Ok why ->
      defaulted "AnalysisResult" lax_list_of_str "detected_issues" []
        fields = Ok issues ->
      defaulted "AnalysisResult" lax_optional_str "recommended_action" None
        fields = Ok action ->
      judgment = {| is_on_task := on_task; confidence := conf;
                    reasoning := why; detected_issues := issues;
                    recommended_action := action |}) /\
  (forall content r,
      chat context activity = Content content ->
      parse_body content = Ok r -> judgment = r) /\
  (no_judgment chat context activity = true ->
     is_on_task judgment = true /\ confidence judgment = 0%float /\
     detected_issues judgment = [] /\ recommended_action judgment = None) /\
  (forall self : TaskAnalyzer,
      (forall c, no_judgment chat c activity = true) ->
      match _trigger_analysis (analyze_task_adherence chat) self activity false
      with
      | Analysed _ _ (Some _) => False
      | _ => True
      end).
Proof.
  cbv zeta.
  assert (Hfail : forall c, no_judgment chat c activity = true ->
            is_on_task (analyze_task_adherence chat c activity) = true /\
            confidence (analyze_task_adherence chat c activity) = 0%float /\
            detected_issues (analyze_task_adherence chat c activity) = [] /\
            recommended_action (analyze_task_adherence chat c activity) = None).
  { intros c. unfold no_judgment, analyze_task_adherence,
      _parse_analysis_response.
    destruct (chat c activity) as [e|content]; [repeat split|].
    destruct (parse_body content); [discriminate | repeat split]. }
  split; [|split; [|split; [|split; [|split]]]].
  - unfold analyze_task_adherence, _parse_analysis_response.
    destruct (chat context activity) as [e|content]; [reflexivity|].
    destruct (parse_body content) as [r|e] eqn:Hp; [|reflexivity].
    exact (parse_body_confidence content Hp).
  - intros content fields v conf Hc Hd Hv Hf Hb.
    unfold analyze_task_adherence, _parse_analysis_response.
    rewrite Hc, parse_body_of_data, Hd. unfold bind.
    rewrite (out_of_range_refused fields Hv Hf Hb). reflexivity.
  - intros content fields on_task conf why issues action
      Hc Hd H1 H2 Hb H3 H4 H5.
    unfold analyze_task_adherence, _parse_analysis_response.
    rewrite Hc, parse_body_of_data, Hd. unfold bind at 1.
    unfold AnalysisResult_of, bind. rewrite H1, H2, Hb. cbn [negb].
    rewrite H3, H4, H5. reflexivity.
  - intros content r Hc Hp.
    unfold analyze_task_adherence, _parse_analysis_response.
    rewrite Hc, Hp. reflexivity.
  - apply Hfail.
  - intros self Hall.
    destruct (truthy_opt (Analyzer.user_instruction self)) eqn:Hk.
    + destruct (DecisionProps.trigger_known
                  (analyze_task_adherence chat) self activity false Hk)
        as (instruction & _ & Heq).
      rewrite Heq. cbv zeta.
      match goal with
      | |- context [analyze_task_adherence chat ?c activity] =>
          destruct (Hfail c (Hall c)) as (Hon & _)
      end.
      rewrite Hon. reflexivity.
    + rewrite (DecisionProps.trigger_unknown
                 (analyze_task_adherence chat) self activity false Hk).
      exact I.
Qed.

End Client.

(** An endpoint that replies, to every request, with a well-formed
    off-task judgment of confidence 1.5. *)
Definition overconfident_endpoint : endpoint :=
  fun _ _ => Content (Some overconfident_reply).

(** C2, at that endpoint: the judgment is the one of a parse failure, not
    the off-task judgment of the reply with its confidence cut to 1. *)
Lemma overconfident_reply_fails_open :
  @analyze_task_adherence sample_runtime overconfident_endpoint
    {| Models.user_instruction := "Add a login endpoint";
       Models.recent_events := []; Models.current_todos := [];
       Models.completed_todos := [] |} "Editing app.py" =
    {| is_on_task := true; confidence := 0;
       reasoning :=
         "Failed to parse response: 1 validation error for AnalysisResult";
       detected_issues := []; recommended_action := None |}.
Proof.
  refine (proj1 (proj2 (@judgment_bounded_and_fail_open sample_runtime
            overconfident_endpoint _ "Editing app.py"))
            (Some overconfident_reply)
            [ ("is_on_task", JBool false); ("confidence", JFloat 1.5);
              ("reasoning", JStr "Drifting") ]
            (JFloat 1.5) 1.5%float _ _ _ _ _); reflexivity.
Defined.

End ClientProps.

(** ** The history watcher *)

Module WatcherProps.
Import PyStr Models Watcher Samples.

Lemma skip_app (old new : string) :
  skip (String.length old) (old ++ new) = new.
Proof. induction old as [|c old IH]; simpl; [reflexivity | exact IH]. Qed.

Lemma length_append (a b : string) :
  String.length (a ++ b) = String.length a + String.length b.
Proof. induction a as [|c a IH]; simpl; [reflexivity | now rewrite IH]. Qed.

Section Reading.
Context {rt : PyRuntime}.

(** A read covers what was appended after the stored position and nothing
    before it, and moves the position to the end of the file, whatever the
    lines turn out to be. *)
Lemma read_covers_appended (self : HistoryWatcher) (old new text : string) :
  last_position self = String.length old ->
  utf8_decode new = Some text ->
  _read_new_entries self (Some (old ++ new)) =
    {| watcher_after := {| last_position := String.length (old ++ new) |};
       emitted := fst (handle_lines (readlines text));
       escaped := snd (handle_lines (readlines text)) |}.
Proof.
  intros Hpos Hdec. unfold _read_new_entries.
  rewrite Hpos, skip_app, Hdec.
  destruct (handle_lines (readlines text)) as [events err]. simpl.
  rewrite length_append. f_equal. f_equal. lia.
Qed.

(** A line whose parsing raises a [ValueError] is passed over. *)
Lemma value_error_dropped (line : string) (rest : list string) (e : pyerror) :
  truthy (strip line) = true ->
  parse_entry (strip line) = Raised e ->
  caught e = true ->
  handle_lines (line :: rest) = handle_lines rest.
Proof. intros Ht Hp Hc. simpl. rewrite Ht, Hp, Hc. reflexivity. Qed.

(** A line whose parsing raises anything else ends the loop: the lines
    after it are not looked at. *)
Lemma other_error_escapes (line : string) (rest : list string) (e : pyerror) :
  truthy (strip line) = true ->
  parse_entry (strip line) = Raised e ->
  caught e = false ->
  handle_lines (line :: rest) = ([], Some e).
Proof. intros Ht Hp Hc. simpl. rewrite Ht, Hp, Hc. reflexivity. Qed.

(** A line that decodes to a JSON value other than an object raises
    [TypeError], which is not caught. *)
Lemma non_object_raises (line : string) (data : pyjson) :
  json_loads line = Some data ->
  match data with JDict _ => False | _ => True end ->
  parse_entry line = Raised TypeError /\ caught TypeError = false.
Proof.
  intros Hl Hd. unfold parse_entry, loads. rewrite Hl. simpl.
  destruct data; try contradiction; split; reflexivity.
Qed.

End Reading.

(** The history file gains an empty JSON array on a line of its own,
    followed by a well-formed entry. *)
Definition appended_lines : string :=
  "[]" ++ String newline (entry_line ++ String newline "").

(** C5, on a file where the read is cut short.  The entry alone is read and emitted.  After
    the line holding an empty array, which is well-formed JSON and not an
    object, the read ends with a [TypeError] that escapes
    [_read_new_entries]; the entry after it is not emitted, and it is
    never read again since the position is already at the end of the
    file. *)
Theorem array_line_aborts_the_read :
  let self := @_initialize_position (Some "") in
  let alone := @_read_new_entries sample_runtime self
                 (Some (entry_line ++ String newline "")) in
  let r := @_read_new_entries sample_runtime self (Some appended_lines) in
  List.length (emitted alone) = 1 /\ escaped alone = None /\
  emitted r = [] /\
  escaped r = Some TypeError /\
  last_position (watcher_after r) = String.length appended_lines /\
  emitted (@_read_new_entries sample_runtime (watcher_after r)
             (Some appended_lines)) = [].
Proof. vm_compute. repeat split. Qed.

End WatcherProps.

(** ** Answering a question *)

Module HawtcherProps.
Import PyStr Models TelegramRelay Hawtcher Samples.

(** The wait on the answer queue looks at the ticks up to the timeout and
    at no later one: it ends, with an answer or without. *)
Lemma queue_get_bounded (timeout : nat) (a b : inbox) (now : nat) :
  (forall t, now <= t <= now + timeout -> a t = b t) ->
  queue_get timeout a now = queue_get timeout b now.
Proof.
  revert now. induction timeout as [|timeout IH]; intros now Hsame; simpl.
  - rewrite (Hsame now) by lia. reflexivity.
  - rewrite (Hsame now) by lia.
    destruct (b now); [reflexivity|].
    apply IH. intros t Ht. apply Hsame. lia.
Qed.

Lemma queue_get_silent (timeout : nat) (now : nat) :
  queue_get timeout (fun _ => None) now = None.
Proof.
  revert now. induction timeout as [|timeout IH]; intros now; simpl;
    [reflexivity | apply IH].
Qed.

(** When the question goes to the user and no reply is obtained (there is
    no relay, or the relay returns nothing or an empty text), the answer
    returned is the automatic one if it is not empty, and the request to
    clarify otherwise. *)
Lemma fallback_answer (telegram_relay : option TelegramRelay)
  (arrivals : inbox) (question : string) (attempt : AnswerAttempt) :
  should_ask_user attempt = true ->
  match telegram_relay with
  | None => True
  | Some relay => truthy_opt (snd (ask_question relay arrivals)) = false
  end ->
  returned (_handle_question telegram_relay arrivals question attempt) =
    (if truthy (answer attempt) then answer attempt else clarify).
Proof.
  intros Hask Hno. unfold _handle_question. rewrite Hask.
  destruct telegram_relay as [relay|]; [|reflexivity].
  destruct (ask_question relay arrivals) as [relay' user_answer].
  simpl in Hno. destruct user_answer as [text|]; [|reflexivity].
  simpl in Hno. rewrite Hno. reflexivity.
Qed.

(** The text written to the intervention file is the same for every
    question, attempt and reply. *)
Lemma intervention_file_ignores_answer
  (telegram_relay : option TelegramRelay) (arrivals : inbox)
  (question : string) (attempt : AnswerAttempt) :
  file_text (_handle_question telegram_relay arrivals question attempt) =
    join (String newline "")
      [ "STOP - Hawtcher Intervention Required"; "";
        "Issue detected: Answering Claude Code's question"; "";
        "Action required: Return to the original task immediately." ].
Proof.
  unfold _handle_question.
  destruct (should_ask_user attempt).
  - destruct telegram_relay as [relay|]; [|reflexivity].
    destruct (ask_question relay arrivals) as [relay' user_answer].
    reflexivity.
  - reflexivity.
Qed.

Definition unsure_attempt : AnswerAttempt :=
  {| answer := "Use PostgreSQL"; attempt_confidence := 0.5;
     attempt_reasoning := "The task description mentions it";
     should_ask_user := true |}.

(** C6, on a question that falls back to the automatic answer.  No
    relay is configured and the attempt is
    below the threshold: the answer chosen is the automatic one, it is
    put in the message of the decision, and the text written to the
    intervention file, which is what the agent reads, does not hold it. *)
Theorem fallback_answer_not_in_file :
  let r := _handle_question None (fun _ => None)
             "Which database should I use?" unsure_attempt in
  returned r = "Use PostgreSQL" /\
  intervention_message (sent r) =
    "Answer to your question:" ++ String newline "Use PostgreSQL" /\
  contains "Use PostgreSQL" (file_text r) = false /\
  file_text r =
    join (String newline "")
      [ "STOP - Hawtcher Intervention Required"; "";
        "Issue detected: Answering Claude Code's question"; "";
        "Action required: Return to the original task immediately." ].
Proof. vm_compute. repeat split. Qed.

End HawtcherProps.

(** * Further code and its properties *)

(** ** Facts on the string operations *)

Module PyStrProps.
Import PyStr.

Lemma rstrip_idempotent (s : string) : rstrip (rstrip s) = rstrip s.
Proof.
  induction s as [|c s IH]; simpl; [reflexivity|].
  destruct (rstrip s) as [|d r] eqn:Hr.
  - destruct (isspace c) eqn:Hc; simpl; [reflexivity|].
    rewrite Hc. reflexivity.
  - simpl. simpl in IH. rewrite IH. reflexivity.
Qed.

Lemma rstrip_head (c : ascii) (s : string) :
  isspace c = false -> exists r, rstrip (String c s) = String c r.
Proof.
  intros Hc. simpl. destruct (rstrip s) as [|d r].
  - rewrite Hc. exists "". reflexivity.
  - exists (String d r). reflexivity.
Qed.

Lemma lstrip_head (s : string) :
  lstrip s = "" \/ exists c r, lstrip s = String c r /\ isspace c = false.
Proof.
  induction s as [|c s IH]; simpl; [left; reflexivity|].
  destruct (isspace c) eqn:Hc; [exact IH|].
  right. exists c, s. split; [reflexivity | exact Hc].
Qed.

(** The stripped text has no whitespace left at either end. *)
Lemma strip_head (s : string) :
  strip s = "" \/ exists c r, strip s = String c r /\ isspace c = false.
Proof.
  unfold strip. destruct (lstrip_head s) as [H|(c & r & H & Hc)]; rewrite H.
  - left. reflexivity.
  - right. destruct (@rstrip_head c r Hc) as (r' & Hr).
    exists c, r'. split; [exact Hr | exact Hc].
Qed.

Lemma strip_idempotent (s : string) : strip (strip s) = strip s.
Proof.
  destruct (strip_head s) as [H|(c & r & H & Hc)].
  - rewrite H. reflexivity.
  - unfold strip at 1. rewrite H. simpl lstrip. rewrite Hc.
    rewrite <- H. unfold strip. apply rstrip_idempotent.
Qed.

Lemma join_cons_head (sep : ascii) (c : ascii) (pieces : list string) :
  join (String sep "") (cons_head c pieces) =
    String c (join (String sep "") pieces).
Proof.
  destruct pieces as [|h [|h' t]]; reflexivity.
Qed.

Lemma split_char_not_nil (sep : ascii) (s : string) : split_char sep s <> [].
Proof.
  induction s as [|c s IH]; simpl; [discriminate|].
  destruct (Ascii.eqb c sep); [discriminate|].
  destruct (split_char sep s); [contradiction | discriminate].
Qed.

(** Joining the pieces of a split with the separator gives the text back. *)
Lemma join_split_char (sep : ascii) (s : string) :
  join (String sep "") (split_char sep s) = s.
Proof.
  induction s as [|c s IH]; [reflexivity|].
  simpl split_char. destruct (Ascii.eqb_spec c sep) as [->|Hne].
  - pose proof (@split_char_not_nil sep s) as Hnn.
    destruct (split_char sep s) as [|h t] eqn:Hs; [contradiction|].
    change (join (String sep "") ("" :: h :: t))
      with (String sep (join (String sep "") (h :: t))).
    rewrite IH. reflexivity.
  - rewrite join_cons_head, IH. reflexivity.
Qed.

(** A text without the separator splits into itself. *)
Lemma split_char_single (sep : ascii) (s : string) :
  contains (String sep "") s = false -> split_char sep s = [s].
Proof.
  induction s as [|c s IH]; [reflexivity|].
  simpl. intros H. apply orb_false_iff in H. destruct H as [H1 H2].
  destruct (Ascii.eqb sep c) eqn:Hc; [discriminate|].
  rewrite Ascii.eqb_sym, Hc. rewrite (IH H2). reflexivity.
Qed.

End PyStrProps.

(** ** monitor/question_detector.py: the question with its context *)

Module QuestionContext.
Import PyStr QuestionDetector.

Definition get_question_context (text : string) : string * string :=
  match extract_question text with
  | None => ("", text)
  | Some question =>
      if negb (truthy question) then ("", text)
      else
        let lines := split_char newline text in
        let context_lines :=
          filter (fun line => negb (String.eqb (strip line) question)) lines in
        (question, strip (join (String newline "") context_lines))
  end.

End QuestionContext.

Module QuestionContextProps.
Import PyStr QuestionDetector QuestionContext PyStrProps.

Lemma question_not_empty (q : string) : is_question q = true -> truthy q = true.
Proof. destruct q; [discriminate | reflexivity]. Qed.

Lemma question_not_blank (text : string) :
  is_question text = true -> truthy (strip text) = true.
Proof.
  unfold is_question. destruct (strip text); [|reflexivity].
  simpl. rewrite orb_true_r. discriminate.
Qed.

(** The two ways [extract_question] returns a question. *)
Lemma extract_some (text q : string) :
  extract_question text = Some q ->
  is_question text = true /\
  ((In q (map strip (split_char newline text)) /\ is_question q = true) \/
   (q = strip text /\ contains "?" text = true)).
Proof.
  unfold extract_question, collect_questions.
  destruct (is_question text); [|discriminate]. simpl negb. cbv iota.
  rewrite QuestionProps.collect_is_filter. simpl app.
  destruct (filter is_question (map strip (split_char newline text)))
    as [|q0 rest] eqn:Hf.
  - destruct (contains "?" text); [|discriminate].
    intros H. injection H as <-. split; [reflexivity|]. right. split; reflexivity.
  - intros H. injection H as <-. split; [reflexivity|]. left.
    assert (Hin : In q0 (filter is_question
                           (map strip (split_char newline text)))).
    { rewrite Hf. left. reflexivity. }
    apply filter_In in Hin. exact Hin.
Qed.

Lemma extracted_truthy (text q : string) :
  extract_question text = Some q -> truthy q = true.
Proof.
  intros H. destruct (extract_some text H) as (Hq & [(_ & Hisq)|(-> & _)]).
  - exact (question_not_empty q Hisq).
  - exact (question_not_blank text Hq).
Qed.

(** X1.  A question returned by [extract_question] is never empty and has
    no whitespace around it, and it is returned only for a text that
    [is_question] accepts. *)
Theorem extracted_question_is_clean (text q : string) :
  extract_question text = Some q ->
  is_question text = true /\ truthy q = true /\ strip q = q.
Proof.
  intros H. destruct (extract_some text H) as (Hq & [(Hin & Hisq)|(-> & _)]).
  - split; [exact Hq|]. split; [exact (question_not_empty q Hisq)|].
    apply in_map_iff in Hin. destruct Hin as (line & <- & _).
    apply strip_idempotent.
  - split; [exact Hq|]. split; [exact (question_not_blank text Hq)|].
    apply strip_idempotent.
Qed.

Lemma extracted_question_is_clean_example :
  is_question "  Should I proceed?" = true /\
  truthy "Should I proceed?" = true /\
  strip "Should I proceed?" = "Should I proceed?".
Proof.
  apply (@extracted_question_is_clean "  Should I proceed?"
           "Should I proceed?").
  reflexivity.
Defined.

(** X2.  [get_question_context] gives an empty question exactly when
    [extract_question] finds none, and then hands the text back
    unchanged; otherwise its first component is the extracted question. *)
Theorem context_without_question (text : string) :
  (fst (get_question_context text) = "" <-> extract_question text = None) /\
  (extract_question text = None -> get_question_context text = ("", text)) /\
  (forall q, extract_question text = Some q ->
             fst (get_question_context text) = q).
Proof.
  unfold get_question_context.
  destruct (extract_question text) as [q|] eqn:He.
  - pose proof (extracted_truthy text He) as Ht.
    rewrite Ht. simpl. split; [|split].
    + split; [|discriminate]. intros ->. discriminate.
    + discriminate.
    + intros q' H. injection H as <-. reflexivity.
  - simpl. split; [|split].
    + split; reflexivity.
    + reflexivity.
    + discriminate.
Qed.

(** X3.  For a text of one line from which a question is extracted, the
    question is the stripped text and the context is empty. *)
Theorem context_of_one_line (text q : string) :
  contains (String newline "") text = false ->
  extract_question text = Some q ->
  get_question_context text = (strip text, "").
Proof.
  intros Hnl He.
  assert (Hq : q = strip text).
  { destruct (extract_some text He) as (_ & [(Hin & _)|(-> & _)]);
      [|reflexivity].
    rewrite (split_char_single newline text Hnl) in Hin.
    simpl in Hin. destruct Hin as [<-|[]]. reflexivity. }
  subst q. unfold get_question_context. rewrite He.
  pose proof (extracted_truthy text He) as Ht.
  rewrite Ht. simpl negb. cbv iota zeta.
  rewrite (split_char_single newline text Hnl). simpl filter.
  rewrite String.eqb_refl. reflexivity.
Qed.

Lemma context_of_one_line_example :
  get_question_context "  Should I proceed?" = ("Should I proceed?", "").
Proof.
  apply (@context_of_one_line "  Should I proceed?" "Should I proceed?");
    reflexivity.
Defined.

Lemma filter_all {A : Type} (f : A -> bool) (l : list A) :
  (forall x, In x l -> f x = true) -> filter f l = l.
Proof.
  induction l as [|x l IH]; intros H; simpl; [reflexivity|].
  rewrite (H x (or_introl eq_refl)). f_equal.
  apply IH. intros y Hy. apply H. right. exact Hy.
Qed.

(** X4.  When no line of the text, stripped, is the extracted question
    (as when the whole text of several lines is returned for its question
    mark), nothing is taken out: the context is the whole text, stripped. *)
Theorem context_when_no_line_matches (text q : string) :
  extract_question text = Some q ->
  (forall line, In line (split_char newline text) -> strip line <> q) ->
  get_question_context text = (q, strip text).
Proof.
  intros He Hno. unfold get_question_context. rewrite He.
  pose proof (extracted_truthy text He) as Ht.
  rewrite Ht. simpl negb. cbv iota zeta.
  rewrite filter_all.
  - rewrite join_split_char. reflexivity.
  - intros line Hin. apply negb_true_iff. apply String.eqb_neq.
    exact (Hno line Hin).
Qed.

Definition padded_two_lines : string :=
  " What is this?" ++ String newline "ok".

Lemma context_when_no_line_matches_example :
  get_question_context padded_two_lines =
    ("What is this?" ++ String newline "ok",
     "What is this?" ++ String newline "ok").
Proof.
  apply (@context_when_no_line_matches padded_two_lines
           ("What is this?" ++ String newline "ok")).
  - reflexivity.
  - intros line [<-|[<-|[]]]; discriminate.
Defined.

End QuestionContextProps.

(** ** monitor/question_answerer.py *)

Module QuestionAnswerer.
Import PyStr LlmClient.

(** What makes the [try] block of [_parse_answer_response] fail. *)
Inductive parse_failure : Type :=
| NoText            (* the content is None: no [strip] *)
| NoFencedPart      (* an index out of range after a split *)
| NotJson           (* [json.loads] raised *)
| NotAMapping       (* the decoded value has no [get] *)
| NotANumber.       (* [float] raised *)

(** The built-in conversions the answerer calls on decoded values:
    [float] of an integer and of a text, [None] where it raises; and the
    text of a failure. *)
Class PyBuiltins : Type := {
  float_of_int : Z -> option float;
  float_of_str : string -> option float;
  failure_str : parse_failure -> string
}.

(** An [AnswerAttempt] as it is built: the dataclass checks no type, so
    the answer and the reasoning are whatever the reply held. *)
Record RawAttempt : Type := {
  raw_answer : pyjson;
  raw_confidence : float;
  raw_reasoning : pyjson;
  raw_should_ask_user : bool
}.

(** [min(a, b)] and [max(a, b)] of two floats: the first argument unless
    the second is strictly below, respectively above, it. *)
Definition py_min (a b : float) : float := if (b <? a)%float then b else a.
Definition py_max (a b : float) : float := if (a <? b)%float then b else a.

Section Answerer.
Context {rt : PyRuntime} {bi : PyBuiltins}.

(** [float(v)] *)
Definition builtin_float (v : pyjson) : option float :=
  match v with
  | JFloat x => Some x
  | JInt n => float_of_int n
  | JBool b => Some (if b then 1%float else 0%float)
  | JStr s => float_of_str s
  | JNull | JList _ | JDict _ => None
  end.

(** [data.get(key, default)] *)
Definition get_or (key : string) (default : pyjson)
  (fields : list (string * pyjson)) : pyjson :=
  match dict_get key fields with Some v => v | None => default end.

Definition failed_attempt (why : string) : RawAttempt :=
  {| raw_answer := JStr "";
     raw_confidence := 0;
     raw_reasoning := JStr why;
     raw_should_ask_user := true |}.

(** The [try] block of [_parse_answer_response], up to the decoded
    mapping. *)
Definition answer_data (content : option string)
  : list (string * pyjson) + parse_failure :=
  match content with
  | None => inr NoText
  | Some content =>
      let content := strip content in
      let fenced (mark : string) : option string :=
        match nth_error (split mark content) 1 with
        | Some inner => nth_error (split fence inner) 0
        | None => None
        end in
      let body :=
        if startswith fence_json content then fenced fence_json
        else if startswith fence content then fenced fence
        else Some content in
      match body with
      | None => inr NoFencedPart
      | Some body =>
          match json_loads (strip body) with
          | None => inr NotJson
          | Some (JDict fields) => inl fields
          | Some _ => inr NotAMapping
          end
      end
  end.

(** The [try] block of [_parse_answer_response]. *)
Definition parse_answer_body (confidence_threshold : float)
  (content : option string) : RawAttempt + parse_failure :=
  match answer_data content with
  | inr f => inr f
  | inl fields =>
      let answer := get_or "answer" (JStr "") fields in
      match builtin_float (get_or "confidence" (JFloat 0) fields) with
      | None => inr NotANumber
      | Some confidence =>
          let reasoning := get_or "reasoning" (JStr "") fields in
          let confidence := py_max 0 (py_min 1 confidence) in
          inl {| raw_answer := answer;
                 raw_confidence := confidence;
                 raw_reasoning := reasoning;
                 raw_should_ask_user :=
                   (confidence <? confidence_threshold)%float |}
      end
  end.

Definition _parse_answer_response (confidence_threshold : float)
  (content : option string) : RawAttempt :=
  match parse_answer_body confidence_threshold content with
  | inl attempt => attempt
  | inr f => failed_attempt ("Failed to parse response: " ++ failure_str f)
  end.


End Answerer.

(** The attempt as [_handle_question] reads it, for an answer and a
    reasoning that are texts. *)
Definition as_attempt (r : RawAttempt) : option Hawtcher.AnswerAttempt :=
  match raw_answer r, raw_reasoning r with
  | JStr a, JStr w =>
      Some {| Hawtcher.answer := a;
              Hawtcher.attempt_confidence := raw_confidence r;
              Hawtcher.attempt_reasoning := w;
              Hawtcher.should_ask_user := raw_should_ask_user r |}
  | _, _ => None
  end.

End QuestionAnswerer.

(** Replies and a runtime for the examples of the answerer. *)

Module AnswerSamples.
Import PyStr QuestionAnswerer Samples.

Definition sure_reply : string :=
  "{" ++ quoted "answer" ++ ": " ++ quoted "Use PostgreSQL" ++ ", "
      ++ quoted "confidence" ++ ": 0.97, "
      ++ quoted "reasoning" ++ ": " ++ quoted "The task names it" ++ "}".

Definition sure_data : pyjson :=
  JDict [ ("answer", JStr "Use PostgreSQL"); ("confidence", JFloat 0.97);
          ("reasoning", JStr "The task names it") ].

Definition nan_reply : string :=
  "{" ++ quoted "answer" ++ ": " ++ quoted "Yes" ++ ", "
      ++ quoted "confidence" ++ ": NaN}".

Definition nan_data : pyjson :=
  JDict [ ("answer", JStr "Yes"); ("confidence", JFloat PrimFloat.nan) ].

Definition answer_runtime : PyRuntime :=
  {| json_loads := fun text =>
       if String.eqb text sure_reply then Some sure_data
       else if String.eqb text nan_reply then Some nan_data
       else None;
     nests_too_deep := @nests_too_deep sample_runtime;
     lax_bool := @lax_bool sample_runtime;
     lax_int := @lax_int sample_runtime;
     lax_float := @lax_float sample_runtime;
     lax_str := @lax_str sample_runtime;
     fromtimestamp := @fromtimestamp sample_runtime;
     utf8_decode := @utf8_decode sample_runtime;
     exc_str := @exc_str sample_runtime |}.

Definition answer_builtins : PyBuiltins :=
  {| float_of_int := fun n =>
       if Z.eqb n 0 then Some 0%float
       else if Z.eqb n 1 then Some 1%float else None;
     float_of_str := fun _ => None;
     failure_str := fun f =>
       match f with
       | NoText => "'NoneType' object has no attribute 'strip'"
       | NoFencedPart => "list index out of range"
       | NotJson => "Expecting value"
       | NotAMapping => "object has no attribute 'get'"
       | NotANumber => "could not convert to float"
       end |}.

End AnswerSamples.

Module AnswererProps.
Import PyStr Models LlmClient QuestionAnswerer Samples AnswerSamples.

Lemma ltb_leb (x y : float) :
  (x <? y)%float = true -> (x <=? y)%float = true.
Proof.
  rewrite ltb_spec, leb_spec. unfold SFltb, SFleb.
  destruct (SFcompare (Prim2SF x) (Prim2SF y)) as [[| |]|];
    try discriminate; reflexivity.
Qed.

Lemma leb_not_ltb_eqb (x y : float) :
  (x <=? y)%float = true -> (x <? y)%float = false -> (x =? y)%float = true.
Proof.
  rewrite ltb_spec, leb_spec, eqb_spec. unfold SFltb, SFleb, SFeqb.
  destruct (SFcompare (Prim2SF x) (Prim2SF y)) as [[| |]|];
    try discriminate; reflexivity.
Qed.

Lemma SFeqb_sym (x y : spec_float) : SFeqb x y = SFeqb y x.
Proof.
  unfold SFeqb.
  destruct x as [sx|sx| |sx mx ex], y as [sy|sy| |sy my ey];
    FloatOrder.by_signs;
    change (Pos.compare_cont Eq) with Pos.compare;
    FloatOrder.cmp_cases; simpl in *;
    try discriminate; try reflexivity; try lia.
Qed.

Lemma eqb_sym (x y : float) : (x =? y)%float = (y =? x)%float.
Proof. rewrite !eqb_spec. apply SFeqb_sym. Qed.

Lemma SFeqb_ltb (x y t : spec_float) :
  SFeqb x y = true -> SFltb x t = SFltb y t.
Proof.
  unfold SFeqb, SFltb.
  destruct x as [sx|sx| |sx mx ex], y as [sy|sy| |sy my ey],
           t as [st|st| |st mt et];
    FloatOrder.by_signs;
    change (Pos.compare_cont Eq) with Pos.compare;
    intros Hxy; FloatOrder.cmp_cases; simpl in *;
    try discriminate; try reflexivity; try lia.
Qed.

Lemma eqb_ltb (x y t : float) :
  (x =? y)%float = true -> (x <? t)%float = (y <? t)%float.
Proof. rewrite eqb_spec, !ltb_spec. apply SFeqb_ltb. Qed.

(** The clamp of the answerer, [max(0.0, min(1.0, c))]. *)
Definition clamped (c : float) : float := py_max 0 (py_min 1 c).

Lemma clamped_in_bounds (c : float) : confidence_in_bounds (clamped c) = true.
Proof.
  unfold clamped, py_min, py_max, confidence_in_bounds.
  destruct (c <? 1)%float eqn:H1.
  - destruct (0 <? c)%float eqn:H0.
    + rewrite (ltb_leb H0), (ltb_leb H1). reflexivity.
    + reflexivity.
  - reflexivity.
Qed.

Lemma clamped_inside (c : float) :
  confidence_in_bounds c = true -> (clamped c =? c)%float = true.
Proof.
  unfold clamped, py_min, py_max, confidence_in_bounds.
  intros H. apply andb_true_iff in H. destruct H as [H0 H1].
  destruct (c <? 1)%float eqn:Hlt1.
  - destruct (0 <? c)%float eqn:Hlt0.
    + apply leb_not_ltb_eqb; [apply FloatOrder.leb_refl; exact H0|].
      destruct (c <? c)%float eqn:Hcc; [|reflexivity].
      apply FloatOrder.ltb_not_leb in Hcc.
      rewrite (FloatOrder.leb_refl H0) in Hcc. discriminate.
    + apply leb_not_ltb_eqb; assumption.
  - change (if (0 <? 1)%float then 1%float else 0%float) with 1%float.
    rewrite eqb_sym. apply leb_not_ltb_eqb; assumption.
Qed.

Section Answerer.
Context {rt : PyRuntime} {bi : PyBuiltins}.

Lemma parsed_attempt_shape (threshold : float) (content : option string)
  (r : RawAttempt) :
  parse_answer_body threshold content = inl r ->
  exists c, raw_confidence r = clamped c /\
            raw_should_ask_user r = (clamped c <? threshold)%float.
Proof.
  unfold parse_answer_body.
  destruct (answer_data content) as [fields|f]; [|discriminate].
  cbv zeta.
  destruct (builtin_float _) as [c|]; [|discriminate].
  intros H. injection H as <-. exists c. split; reflexivity.
Qed.

(** X5.  Whatever the reply, the attempt returned by
    [_parse_answer_response] has a confidence between 0 and 1, and it
    asks for the user unless the reply parsed and that confidence is not
    below the threshold.  A reply that does not parse gives the empty
    answer with confidence 0 and asks for the user. *)
Theorem answer_confidence_clamped (threshold : float)
  (content : option string) :
  let r := _parse_answer_response threshold content in
  confidence_in_bounds (raw_confidence r) = true /\
  (raw_should_ask_user r = false ->
     exists parsed, parse_answer_body threshold content = inl parsed /\
                    (raw_confidence r <? threshold)%float = false) /\
  (forall f, parse_answer_body threshold content = inr f ->
     raw_answer r = JStr "" /\ raw_confidence r = 0%float /\
     raw_should_ask_user r = true).
Proof.
  cbv zeta. unfold _parse_answer_response.
  destruct (parse_answer_body threshold content) as [r|f] eqn:Hp.
  - destruct (parsed_attempt_shape threshold content Hp) as (c & Hc & Hs).
    split; [rewrite Hc; apply clamped_in_bounds|].
    split; [|discriminate].
    intros Hno. exists r. split; [reflexivity|].
    rewrite Hc, <- Hs. exact Hno.
  - split; [reflexivity|]. split; [discriminate|].
    intros f' _. repeat split.
Qed.

Lemma nan_not_below (c x : float) :
  PrimFloat.is_nan c = true -> (c <? x)%float = false.
Proof.
  unfold PrimFloat.is_nan. rewrite ltb_spec, eqb_spec.
  unfold SFltb, SFeqb. intros Hn.
  destruct (Prim2SF c) as [s|s| |s m e]; simpl in *.
  - discriminate.
  - destruct s; discriminate.
  - reflexivity.
  - rewrite Z.compare_refl, Pos.compare_cont_refl in Hn.
    destruct s; discriminate.
Qed.

Lemma parsed_from_fields (threshold : float) (content : option string)
  (fields : list (string * pyjson)) (c : float) :
  answer_data content = inl fields ->
  builtin_float (get_or "confidence" (JFloat 0) fields) = Some c ->
  _parse_answer_response threshold content =
    {| raw_answer := get_or "answer" (JStr "") fields;
       raw_confidence := clamped c;
       raw_reasoning := get_or "reasoning" (JStr "") fields;
       raw_should_ask_user := (clamped c <? threshold)%float |}.
Proof.
  intros Hd Hc.
  unfold _parse_answer_response, parse_answer_body. rewrite Hd. cbv zeta.
  rewrite Hc. reflexivity.
Qed.

(** X6.  When the reply decodes to a mapping whose confidence converts to
    the number [c] (0 when the mapping has none), the attempt holds the
    answer and the reasoning of the mapping (the empty text for a missing
    one) and asks for the user exactly when its confidence is below the
    threshold.  When [c] lies between 0 and 1 its confidence is [c] (as a
    number: a negative zero comes out as zero), so it asks for the user
    exactly when [c] is below the threshold; when [c] is a NaN its
    confidence is 1, the highest. *)
Theorem answer_confidence_kept_or_one (threshold : float)
  (content : option string) (fields : list (string * pyjson)) (c : float) :
  answer_data content = inl fields ->
  builtin_float (get_or "confidence" (JFloat 0) fields) = Some c ->
  let r := _parse_answer_response threshold content in
  raw_answer r = get_or "answer" (JStr "") fields /\
  raw_reasoning r = get_or "reasoning" (JStr "") fields /\
  raw_should_ask_user r = (raw_confidence r <? threshold)%float /\
  (confidence_in_bounds c = true ->
     (raw_confidence r =? c)%float = true /\
     raw_should_ask_user r = (c <? threshold)%float) /\
  (PrimFloat.is_nan c = true -> raw_confidence r = 1%float).
Proof.
  intros Hd Hc. cbv zeta.
  rewrite (parsed_from_fields threshold content Hd Hc). simpl.
  split; [reflexivity|]. split; [reflexivity|]. split; [reflexivity|].
  split.
  - intros Hb. pose proof (clamped_inside c Hb) as He.
    split; [exact He|]. exact (eqb_ltb threshold He).
  - intros Hn. unfold clamped, py_min, py_max.
    rewrite (nan_not_below c 1 Hn). reflexivity.
Qed.

End Answerer.

(** A reply with confidence 0.97 under the threshold 0.95 is not sent to
    the user. *)
Lemma sure_reply_not_escalated :
  let r := @_parse_answer_response answer_runtime answer_builtins 0.95
             (Some sure_reply) in
  raw_answer r = JStr "Use PostgreSQL" /\
  (raw_confidence r =? 0.97)%float = true /\
  raw_should_ask_user r = false.
Proof.
  destruct (@answer_confidence_kept_or_one answer_runtime answer_builtins
              0.95 (Some sure_reply)
              [ ("answer", JStr "Use PostgreSQL"); ("confidence", JFloat 0.97);
                ("reasoning", JStr "The task names it") ]
              0.97 eq_refl eq_refl)
    as (Ha & _ & _ & Hin & _).
  destruct (Hin eq_refl) as (Hc & Hs).
  cbv zeta. split; [exact Ha|]. split; [exact Hc|]. exact Hs.
Defined.

End AnswererProps.

(** ** The console of the application *)

Module Console.

(** The lines that the code prints with a value of its own between the
    tags of console markup: the question, the automatic answer and its
    reasoning, the reply of the user, the notice that the intervention
    file was written, and the notices that writing it or logging
    failed, which end with the text of the exception. *)
Inductive console_line : Type :=
| QuestionLine (question : string)
| AnswerLine (answer : string)
| ReasoningLine (reasoning : string)
| ReceivedLine (user_answer : string)
| SentLine
| WriteFailedLine (e : pyerror)
| LogFailedLine (e : pyerror).

(** The console of the rich library: [print_ok line] tells whether
    [console.print] prints the line; where it does not, it raises
    [MarkupError], as on a value with a closing tag that no tag opens.
    The lines printed without a value of the code, and the panels made
    of [Text] objects, are printed in every case. *)
Class RichConsole : Type := {
  print_ok : console_line -> bool
}.

End Console.

(** ** monitor/interventor.py *)

Module Interventor.
Import PyStr Models Hawtcher Console.

(** The counter of the interventor, its paths and its files.  The
    temporary path is [intervention_file.with_suffix('.tmp')]:
    [temp_is_target] tells that it is the path of the intervention file
    itself, as it is when that path already ends in [.tmp].  A file is
    [None] while it does not exist; [temp_file] is the temporary file
    when it is another file than the intervention file. *)
Record Interventor : Type := {
  intervention_count : nat;
  temp_is_target : bool;
  log_path : bool;                 (* a log path is configured *)
  intervention_file : option string;
  temp_file : option string
}.

(** How the writing of one intervention goes: it succeeds; the path has
    no name and [with_suffix] raises [ValueError]; opening or writing
    the temporary path raises, leaving the file at that path in some
    state; or the file is written and its renaming raises. *)
Inductive io : Type :=
| Succeeds
| SuffixRaises
| WriteRaises (e : pyerror) (left_behind : option string)
| ReplaceRaises (e : pyerror).

Definition failure_of (outcome : io) : option pyerror :=
  match outcome with
  | Succeeds => None
  | SuffixRaises => Some ValueError
  | WriteRaises e _ => Some e
  | ReplaceRaises e => Some e
  end.

(** The files after [open(temp_file, "w")], [f.write(message)] and
    [temp_file.replace(self.intervention_file)], as far as they went. *)
Definition files_after (outcome : io) (self : Interventor)
  (message : string) : Interventor :=
  let written (content : option string) :=
    if temp_is_target self then
      {| intervention_count := intervention_count self;
         temp_is_target := temp_is_target self;
         log_path := log_path self;
         intervention_file := content;
         temp_file := temp_file self |}
    else
      {| intervention_count := intervention_count self;
         temp_is_target := temp_is_target self;
         log_path := log_path self;
         intervention_file := intervention_file self;
         temp_file := content |} in
  match outcome with
  | SuffixRaises => self
  | WriteRaises _ left_behind => written left_behind
  | ReplaceRaises _ => written (Some message)
  | Succeeds =>
      if temp_is_target self then written (Some message)
      else
        {| intervention_count := intervention_count self;
           temp_is_target := temp_is_target self;
           log_path := log_path self;
           intervention_file := Some message;
           temp_file := None |}
  end.

Section Printing.
Context {console : RichConsole}.

(** [_write_intervention_file]: the interventor afterwards and the
    exception that escapes, if any.  What the [try] block raises,
    the [MarkupError] of its last line included, is caught and
    reported on the console; that report may raise in its turn. *)
Definition _write_intervention_file (outcome : io) (self : Interventor)
  (decision : InterventionDecision) : Interventor * option pyerror :=
  let message := intervention_file_text decision in
  let self := files_after outcome self message in
  let caught :=
    match failure_of outcome with
    | Some e => Some e
    | None => if print_ok SentLine then None else Some MarkupError
    end in
  match caught with
  | None => (self, None)
  | Some e =>
      if print_ok (WriteFailedLine e) then (self, None)
      else (self, Some MarkupError)
  end.

(** [intervene], as to the counter, the files and what escapes; [log]
    is what appending to the log raises, if it raises.  The panel shown
    in between is made of [Text] objects and is printed in every
    case. *)
Definition intervene (outcome : io) (log : option pyerror)
  (self : Interventor) (decision : InterventionDecision)
  : Interventor * option pyerror :=
  let self :=
    {| intervention_count := intervention_count self + 1;
       temp_is_target := temp_is_target self;
       log_path := log_path self;
       intervention_file := intervention_file self;
       temp_file := temp_file self |} in
  let (self, raised) := _write_intervention_file outcome self decision in
  match raised with
  | Some e => (self, Some e)
  | None =>
      if log_path self then
        match log with
        | None => (self, None)
        | Some e =>
            if print_ok (LogFailedLine e) then (self, None)
            else (self, Some MarkupError)
        end
      else (self, None)
  end.

(** A series of interventions, each with the way its writes go; a call
    that raises leaves the interventor to the next call as it is. *)
Fixpoint intervene_all (self : Interventor)
  (calls : list (io * option pyerror * InterventionDecision))
  : Interventor :=
  match calls with
  | [] => self
  | (outcome, log, decision) :: rest =>
      intervene_all (fst (intervene outcome log self decision)) rest
  end.

End Printing.

(** [s[:n]] *)
Fixpoint take (n : nat) (s : string) : string :=
  match n, s with
  | O, _ => EmptyString
  | S _, EmptyString => EmptyString
  | S k, String c s' => String c (take k s')
  end.

(** The text that [display_event] shows for an event. *)
Definition display_text (event_text : string) : string :=
  if (100 <? String.length event_text)%nat
  then take 100 event_text ++ "..."
  else event_text.

End Interventor.

(** ** hawtcher.py: a question, with the console, the event loop and the
    intervention file *)

Module HawtcherRun.
Import PyStr Models TelegramRelay Hawtcher Console Interventor.

Section Run.
Context {console : RichConsole}.

(** [TelegramRelay.ask_question] with what it may raise.  [loop_set]
    tells whether the listener thread has stored its event loop in
    [self.loop]; before that, [asyncio.run_coroutine_threadsafe] is
    given [None] and raises [AttributeError].  [timeout] is
    [self.response_timeout] as configured, an integer of any sign;
    [Queue.get] raises [ValueError] on a negative one.  In both cases
    the relay is left waiting for an answer. *)
Definition ask_question_run (loop_set : bool) (timeout : Z)
  (self : TelegramRelay) (arrivals : inbox)
  : TelegramRelay * result (option string) :=
  if negb (truthy_opt (chat_id self)) then (self, Ok None)
  else
    let asked (waiting : bool) :=
      {| chat_id := chat_id self;
         response_timeout := response_timeout self;
         answer_queue := [];
         waiting_for_answer := waiting;
         current_question_id := current_question_id self + 1 |} in
    if negb loop_set then (asked true, Raised AttributeError)
    else if (timeout <? 0)%Z then (asked true, Raised ValueError)
    else (asked false, Ok (queue_get (Z.to_nat timeout) arrivals 0)).

(** The decision that carries the answer. *)
Definition answer_decision (answer : string) : InterventionDecision :=
  {| should_intervene := true;
     decision_severity := low;
     intervention_message :=
       "Answer to your question:" ++ String newline answer;
     analysis :=
       {| is_on_task := true;
          confidence := 1;
          reasoning := "Answering Claude Code's question";
          detected_issues := [];
          recommended_action := None |} |}.

(** What a call of [_handle_question] leaves: the answer returned or
    the exception raised, the relay and the interventor. *)
Record question_run : Type := {
  run_returned : result string;
  run_relay : option TelegramRelay;
  run_interventor : Interventor
}.

(** The choice of the answer, lines 134 to 160 of hawtcher.py. *)
Definition choose_answer (loop_set : bool) (timeout : Z)
  (telegram_relay : option TelegramRelay) (arrivals : inbox)
  (answer_attempt : AnswerAttempt)
  : option TelegramRelay * result string :=
  if should_ask_user answer_attempt then
    match telegram_relay with
    | Some relay =>
        let (relay', asked) :=
          ask_question_run loop_set timeout relay arrivals in
        (Some relay',
         user_answer <- asked ;;
         match user_answer with
         | Some text =>
             if truthy text then
               if print_ok (ReceivedLine text) then Ok text
               else Raised MarkupError
             else Ok (or_else (answer answer_attempt) clarify)
         | None => Ok (or_else (answer answer_attempt) clarify)
         end)
    | None => (None, Ok (or_else (answer answer_attempt) clarify))
    end
  else (telegram_relay, Ok (answer answer_attempt)).

(** The end of [_handle_question]: the answer chosen is written out
    through the interventor and returned. *)
Definition send_answer (write : io) (interventor : Interventor)
  (relay : option TelegramRelay) (chosen : result string) : question_run :=
  match chosen with
  | Raised e =>
      {| run_returned := Raised e;
         run_relay := relay;
         run_interventor := interventor |}
  | Ok answer =>
      let (interventor', raised) :=
        _write_intervention_file write interventor (answer_decision answer) in
      {| run_returned :=
           match raised with Some e => Raised e | None => Ok answer end;
         run_relay := relay;
         run_interventor := interventor' |}
  end.

(** [HawtcherApp._handle_question] with what it may raise: the texts
    of the question, of the automatic answer and of its reasoning are
    printed between markup tags before the answer is chosen. *)
Definition _handle_question_run (loop_set : bool) (timeout : Z)
  (write : io) (interventor : Interventor)
  (telegram_relay : option TelegramRelay) (arrivals : inbox)
  (question : string) (answer_attempt : AnswerAttempt) : question_run :=
  let stop :=
    {| run_returned := Raised MarkupError;
       run_relay := telegram_relay;
       run_interventor := interventor |} in
  if negb (print_ok (QuestionLine question)) then stop
  else if truthy (answer answer_attempt)
          && negb (print_ok (AnswerLine (answer answer_attempt))) then stop
  else if truthy (answer answer_attempt)
          && negb (print_ok
                     (ReasoningLine (attempt_reasoning answer_attempt)))
  then stop
  else
    let (relay', chosen) :=
      choose_answer loop_set timeout telegram_relay arrivals answer_attempt in
    send_answer write interventor relay' chosen.

End Run.

(** A console that prints every line but those whose text holds the
    start of a closing tag. *)
Definition sample_console : RichConsole :=
  {| print_ok := fun line =>
       match line with
       | QuestionLine text | AnswerLine text | ReasoningLine text
       | ReceivedLine text => negb (contains "[/" text)
       | _ => true
       end |}.

(** An interventor that has written nothing yet, with a log. *)
Definition fresh_interventor : Interventor :=
  {| intervention_count := 0; temp_is_target := false; log_path := true;
     intervention_file := None; temp_file := None |}.

End HawtcherRun.

(** ** monitor/telegram_relay.py: the listener *)

Module RelayListener.
Import PyStr TelegramRelay.

(** [_handle_start] for a command sent from the chat [user_chat_id]: the
    relay afterwards and the chat id handed to [on_chat_id_detected], when
    that callback is installed and called. *)
Definition _handle_start (callback : bool) (self : TelegramRelay)
  (user_chat_id : string) : TelegramRelay * option string :=
  if negb (truthy_opt (chat_id self)) then
    ({| chat_id := Some user_chat_id;
        response_timeout := response_timeout self;
        answer_queue := answer_queue self;
        waiting_for_answer := waiting_for_answer self;
        current_question_id := current_question_id self |},
     if callback then Some user_chat_id else None)
  else (self, None).

(** [_handle_message] and [_handle_button]: the text, or the data of the
    button, is queued only while an answer is awaited. *)
Definition _handle_message (self : TelegramRelay) (text : string)
  : TelegramRelay :=
  if negb (waiting_for_answer self) then self
  else
    {| chat_id := chat_id self;
       response_timeout := response_timeout self;
       answer_queue := (answer_queue self ++ [text])%list;
       waiting_for_answer := waiting_for_answer self;
       current_question_id := current_question_id self |}.

Definition _handle_button (self : TelegramRelay) (data : string)
  : TelegramRelay := _handle_message self data.

(** A series of start commands: the relay afterwards and the chat ids
    handed to the callback, in order. *)
Fixpoint starts (callback : bool) (self : TelegramRelay)
  (chat_ids : list string) : TelegramRelay * list string :=
  match chat_ids with
  | [] => (self, [])
  | id :: rest =>
      let (self', detected) := _handle_start callback self id in
      let (final, calls) := starts callback self' rest in
      (final, match detected with Some d => d :: calls | None => calls end)
  end.

End RelayListener.

Module EscalationProps.
Import PyStr Models LlmClient TelegramRelay RelayListener Hawtcher
       Console Interventor HawtcherRun QuestionAnswerer Samples
       AnswerSamples.



Section Run.
Context {console : RichConsole}.

(** The automatic answer is shown: it is empty and nothing is printed
    of it, or the console prints its text and its reasoning. *)
Definition attempt_shown (attempt : AnswerAttempt) : bool :=
  negb (truthy (answer attempt))
  || (print_ok (AnswerLine (answer attempt))
      && print_ok (ReasoningLine (attempt_reasoning attempt))).

(** The console prints what [_write_intervention_file] reports. *)
Definition write_reported (write : io) : bool :=
  match failure_of write with
  | Some e => print_ok (WriteFailedLine e)
  | None => print_ok SentLine || print_ok (WriteFailedLine MarkupError)
  end.

Lemma write_raises_nothing (write : io) (interventor : Interventor)
  (decision : InterventionDecision) :
  write_reported write = true ->
  snd (_write_intervention_file write interventor decision) = None.
Proof.
  unfold write_reported, _write_intervention_file.
  destruct (failure_of write) as [e|].
  - intros ->. reflexivity.
  - destruct (print_ok SentLine); [reflexivity|].
    simpl. intros ->. reflexivity.
Qed.

Lemma sent_answer (write : io) (interventor : Interventor)
  (relay : option TelegramRelay) (text : string) :
  write_reported write = true ->
  let r := send_answer write interventor relay (Ok text) in
  run_returned r = Ok text /\ run_relay r = relay /\
  run_interventor r =
    fst (_write_intervention_file write interventor (answer_decision text)).
Proof.
  intros Hw. cbv zeta. unfold send_answer.
  pose proof (write_raises_nothing write interventor (answer_decision text)
                Hw) as Hnone.
  destruct (_write_intervention_file write interventor
              (answer_decision text)) as [after raised].
  simpl in Hnone. subst raised. repeat split.
Qed.

(** Once the question and the attempt are printed, the answer is
    chosen and sent. *)
Lemma run_after_prints (loop_set : bool) (timeout : Z) (write : io)
  (interventor : Interventor) (telegram_relay : option TelegramRelay)
  (arrivals : inbox) (question : string) (attempt : AnswerAttempt) :
  print_ok (QuestionLine question) = true ->
  attempt_shown attempt = true ->
  _handle_question_run loop_set timeout write interventor telegram_relay
    arrivals question attempt =
    send_answer write interventor
      (fst (choose_answer loop_set timeout telegram_relay arrivals attempt))
      (snd (choose_answer loop_set timeout telegram_relay arrivals attempt)).
Proof.
  intros Hq Hshown. unfold _handle_question_run, attempt_shown in *.
  rewrite Hq. cbn [negb].
  destruct (truthy (answer attempt)); cbn [negb orb andb] in *.
  - apply andb_true_iff in Hshown. destruct Hshown as [-> ->]. cbn [negb].
    destruct (choose_answer _ _ _ _ _); reflexivity.
  - destruct (choose_answer _ _ _ _ _); reflexivity.
Qed.

(** With the event loop set and the timeout of the relay, a call that
    returns gives the answer and leaves the relay that
    [Hawtcher._handle_question] describes. *)
Lemma run_returns_core (write : io) (interventor : Interventor)
  (telegram_relay : option TelegramRelay) (timeout : Z) (arrivals : inbox)
  (question : string) (attempt : AnswerAttempt) (text : string) :
  (forall relay, telegram_relay = Some relay ->
                 timeout = Z.of_nat (response_timeout relay)) ->
  let r := _handle_question_run true timeout write interventor
             telegram_relay arrivals question attempt in
  run_returned r = Ok text ->
  returned (_handle_question telegram_relay arrivals question attempt) = text
  /\ relay_after (_handle_question telegram_relay arrivals question attempt)
     = run_relay r.
Proof.
  intros Htime. cbv zeta. unfold _handle_question_run.
  destruct (print_ok (QuestionLine question)); [|discriminate].
  cbn [negb].
  destruct (truthy (answer attempt) && negb (print_ok (AnswerLine _)));
    [discriminate|].
  destruct (truthy (answer attempt) && negb (print_ok (ReasoningLine _)));
    [discriminate|].
  unfold choose_answer, _handle_question.
  destruct (should_ask_user attempt).
  - destruct telegram_relay as [relay|].
    + rewrite (Htime relay eq_refl).
      unfold ask_question_run, ask_question.
      destruct (truthy_opt (chat_id relay)); cbn [negb].
      * assert (Hpos : (Z.of_nat (response_timeout relay) <? 0)%Z = false)
          by (apply Z.ltb_ge; lia).
        rewrite Hpos, Nat2Z.id.
        destruct (queue_get (response_timeout relay) arrivals 0)
          as [reply|]; cbn [bind].
        -- destruct (truthy reply).
           ++ destruct (print_ok (ReceivedLine reply)).
              ** unfold send_answer.
                 destruct (_write_intervention_file _ _ _) as [after [e|]];
                   cbn [run_returned run_relay]; [discriminate|].
                 intros H. injection H as <-. split; reflexivity.
              ** cbn [send_answer run_returned]. discriminate.
           ++ unfold send_answer.
              destruct (_write_intervention_file _ _ _) as [after [e|]];
                cbn [run_returned run_relay]; [discriminate|].
              intros H. injection H as <-. split; reflexivity.
        -- unfold send_answer.
           destruct (_write_intervention_file _ _ _) as [after [e|]];
             cbn [run_returned run_relay]; [discriminate|].
           intros H. injection H as <-. split; reflexivity.
      * cbn [bind]. unfold send_answer.
        destruct (_write_intervention_file _ _ _) as [after [e|]];
          cbn [run_returned run_relay]; [discriminate|].
        intros H. injection H as <-. split; reflexivity.
    + unfold send_answer.
      destruct (_write_intervention_file _ _ _) as [after [e|]];
        cbn [run_returned run_relay]; [discriminate|].
      intros H. injection H as <-. split; reflexivity.
  - unfold send_answer.
    destruct (_write_intervention_file _ _ _) as [after [e|]];
      cbn [run_returned run_relay]; [discriminate|].
    intros H. injection H as <-. split; reflexivity.
Qed.



(** X30.  [_handle_question] raises, and returns nothing, when the
    console refuses the text of the question: the relay is not asked and
    nothing is written.  It also raises when the question goes to a relay
    that has a chat id but whose event loop is not set yet: nothing is
    written, and the relay is left waiting for an answer. *)
Theorem question_handling_raises (loop_set : bool) (timeout : Z)
  (write : io) (interventor : Interventor)
  (telegram_relay : option TelegramRelay) (relay : TelegramRelay)
  (arrivals : inbox) (question : string) (attempt : AnswerAttempt) :
  (print_ok (QuestionLine question) = false ->
   _handle_question_run loop_set timeout write interventor telegram_relay
     arrivals question attempt =
     {| run_returned := Raised MarkupError;
        run_relay := telegram_relay;
        run_interventor := interventor |}) /\
  (print_ok (QuestionLine question) = true ->
   attempt_shown attempt = true ->
   should_ask_user attempt = true ->
   truthy_opt (chat_id relay) = true ->
   let r := _handle_question_run false timeout write interventor
              (Some relay) arrivals question attempt in
   run_returned r = Raised AttributeError /\
   run_interventor r = interventor /\
   exists relay',
     run_relay r = Some relay' /\ waiting_for_answer relay' = true).
Proof.
  split.
  - intros Hq. unfold _handle_question_run. rewrite Hq. reflexivity.
  - intros Hq Hshown Hask Hchat. cbv zeta.
    rewrite (run_after_prints false timeout write interventor (Some relay)
               arrivals question attempt Hq Hshown).
    unfold choose_answer, ask_question_run. rewrite Hask, Hchat.
    cbn [negb fst snd bind send_answer run_returned run_interventor
         run_relay].
    split; [reflexivity|]. split; [reflexivity|].
    eexists. split; reflexivity.
Qed.

End Run.

Definition linked_relay : TelegramRelay :=
  {| chat_id := Some "4242"; response_timeout := 300; answer_queue := [];
     waiting_for_answer := false; current_question_id := 6 |}.

Definition reply_at (tick : nat) (text : string) : inbox :=
  fun t => if Nat.eqb t tick then Some text else None.



(** X30 on a question that holds a closing tag, and on a relay asked
    before its listener has started. *)
Lemma question_handling_raises_example :
  run_returned
    (@_handle_question_run sample_console true 300 Succeeds
       fresh_interventor (Some linked_relay) (reply_at 2 "Use SQLite")
       "Should I keep the [/b] tag?" HawtcherProps.unsure_attempt)
  = Raised MarkupError /\
  run_returned
    (@_handle_question_run sample_console false 300 Succeeds
       fresh_interventor (Some linked_relay) (reply_at 2 "Use SQLite")
       "Which database should I use?" HawtcherProps.unsure_attempt)
  = Raised AttributeError.
Proof.
  split.
  - rewrite (proj1 (@question_handling_raises sample_console true 300
                      Succeeds fresh_interventor (Some linked_relay)
                      linked_relay (reply_at 2 "Use SQLite")
                      "Should I keep the [/b] tag?"
                      HawtcherProps.unsure_attempt) eq_refl).
    reflexivity.
  - exact (proj1 (proj2 (@question_handling_raises sample_console true 300
                           Succeeds fresh_interventor None linked_relay
                           (reply_at 2 "Use SQLite")
                           "Which database should I use?"
                           HawtcherProps.unsure_attempt)
                    eq_refl eq_refl eq_refl eq_refl)).
Defined.

(** X11.  The handling of a question depends on the replies that arrive
    within the timeout of the relay and on nothing that arrives later: the
    wait for the user ends when the timeout is over. *)
Theorem wait_ends_at_timeout (relay : TelegramRelay) (a b : inbox)
  (question : string) (attempt : AnswerAttempt) :
  (forall t, t <= response_timeout relay -> a t = b t) ->
  ask_question relay a = ask_question relay b /\
  _handle_question (Some relay) a question attempt =
    _handle_question (Some relay) b question attempt.
Proof.
  intros Hsame.
  assert (Hask : ask_question relay a = ask_question relay b).
  { unfold ask_question.
    destruct (negb (truthy_opt (chat_id relay))); [reflexivity|].
    rewrite (@HawtcherProps.queue_get_bounded (response_timeout relay) a b 0).
    - reflexivity.
    - intros t Ht. apply Hsame. lia. }
  split; [exact Hask|].
  unfold _handle_question. rewrite Hask. reflexivity.
Qed.

Lemma wait_ends_at_timeout_example :
  _handle_question (Some linked_relay) (reply_at 301 "Use SQLite")
    "Which database should I use?" HawtcherProps.unsure_attempt =
  _handle_question (Some linked_relay) (fun _ => None)
    "Which database should I use?" HawtcherProps.unsure_attempt.
Proof.
  apply (@wait_ends_at_timeout linked_relay (reply_at 301 "Use SQLite")
           (fun _ => None) "Which database should I use?"
           HawtcherProps.unsure_attempt).
  intros t Ht. unfold reply_at. simpl in Ht.
  destruct (Nat.eqb_spec t 301); [lia | reflexivity].
Defined.

Section Answerer.
Context {console : RichConsole} {rt : PyRuntime} {bi : PyBuiltins}.

(** X9.  A reply of the answerer whose answer and reasoning are texts
    and whose confidence lies between 0 and 1 and is not below the
    threshold is used as it is: [_handle_question] returns that answer
    and leaves the relay as it was, without asking it.  This holds when
    the console prints the question, the answer with its reasoning and
    the report of the write; otherwise [_handle_question] raises. *)
Theorem confident_reply_skips_relay (threshold : float)
  (content : option string) (fields : list (string * pyjson)) (c : float)
  (text why : string) (loop_set : bool) (timeout : Z) (write : io)
  (interventor : Interventor) (telegram_relay : option TelegramRelay)
  (arrivals : inbox) (question : string) :
  answer_data content = inl fields ->
  builtin_float (get_or "confidence" (JFloat 0) fields) = Some c ->
  get_or "answer" (JStr "") fields = JStr text ->
  get_or "reasoning" (JStr "") fields = JStr why ->
  confidence_in_bounds c = true ->
  (c <? threshold)%float = false ->
  print_ok (QuestionLine question) = true ->
  (truthy text = true ->
   print_ok (AnswerLine text) = true /\ print_ok (ReasoningLine why) = true) ->
  write_reported write = true ->
  exists attempt,
    as_attempt (_parse_answer_response threshold content) = Some attempt /\
    let r := _handle_question_run loop_set timeout write interventor
               telegram_relay arrivals question attempt in
    run_returned r = Ok text /\ run_relay r = telegram_relay.
Proof.
  intros Hd Hc Ha Hw Hb Hlt Hq Hshown Hwrite.
  rewrite (AnswererProps.parsed_from_fields threshold content Hd Hc).
  unfold as_attempt. cbn [raw_answer raw_reasoning raw_confidence
                          raw_should_ask_user]. rewrite Ha, Hw.
  eexists. split; [reflexivity|].
  cbv zeta. rewrite run_after_prints; [|exact Hq|].
  - unfold choose_answer. cbn [should_ask_user].
    rewrite (AnswererProps.eqb_ltb threshold
               (AnswererProps.clamped_inside c Hb)).
    rewrite Hlt. cbn [fst snd].
    destruct (sent_answer write interventor telegram_relay text Hwrite)
      as (Hret & Hrel & _).
    split; [exact Hret | exact Hrel].
  - unfold attempt_shown. cbn [answer attempt_reasoning].
    destruct (truthy text); [|reflexivity].
    destruct (Hshown eq_refl) as [-> ->]. reflexivity.
Qed.


End Answerer.

Lemma confident_reply_skips_relay_example :
  exists attempt,
    as_attempt (@_parse_answer_response answer_runtime answer_builtins 0.95
                  (Some sure_reply)) = Some attempt /\
    run_returned
      (@_handle_question_run sample_console true 300 Succeeds
         fresh_interventor (Some linked_relay) (reply_at 2 "Use SQLite")
         "Which database should I use?" attempt) = Ok "Use PostgreSQL" /\
    run_relay
      (@_handle_question_run sample_console true 300 Succeeds
         fresh_interventor (Some linked_relay) (reply_at 2 "Use SQLite")
         "Which database should I use?" attempt) = Some linked_relay.
Proof.
  destruct (@confident_reply_skips_relay sample_console answer_runtime
              answer_builtins 0.95
              (Some sure_reply)
              [ ("answer", JStr "Use PostgreSQL"); ("confidence", JFloat 0.97);
                ("reasoning", JStr "The task names it") ]
              0.97 "Use PostgreSQL" "The task names it" true 300 Succeeds
              fresh_interventor (Some linked_relay)
              (reply_at 2 "Use SQLite") "Which database should I use?"
              eq_refl eq_refl eq_refl eq_refl eq_refl eq_refl eq_refl
              (fun _ => conj eq_refl eq_refl) eq_refl)
    as (attempt & Ha & Hr & Hl).
  exists attempt. split; [exact Ha|]. split; [exact Hr | exact Hl].
Defined.


(** X12.  Over any series of start commands from chats with a non-empty
    id, received by a relay that has no chat id yet, the relay takes the
    id of the first command and keeps it, and the callback is called
    once, with that id. *)
Theorem first_contact_once (self : TelegramRelay) (first : string)
  (others : list string) :
  truthy_opt (chat_id self) = false ->
  truthy first = true ->
  let (final, calls) := starts true self (first :: others) in
  chat_id final = Some first /\ calls = [first].
Proof.
  intros Hnone Hfirst.
  assert (Hkeep : forall ids relay,
             truthy_opt (chat_id relay) = true ->
             starts true relay ids = (relay, [])).
  { induction ids as [|id rest IH]; intros relay Hset; [reflexivity|].
    simpl. unfold _handle_start. rewrite Hset. simpl.
    rewrite (IH relay Hset). reflexivity. }
  simpl. unfold _handle_start at 1. rewrite Hnone. simpl negb. cbv iota.
  rewrite Hkeep by exact Hfirst.
  split; reflexivity.
Qed.

Lemma first_contact_once_example :
  let (final, calls) :=
    starts true
      {| chat_id := None; response_timeout := 300; answer_queue := [];
         waiting_for_answer := false; current_question_id := 0 |}
      ["4242"; "777"; "4242"] in
  chat_id final = Some "4242" /\ calls = ["4242"].
Proof.
  apply (@first_contact_once
           {| chat_id := None; response_timeout := 300; answer_queue := [];
              waiting_for_answer := false; current_question_id := 0 |}
           "4242" ["777"; "4242"]); reflexivity.
Defined.

End EscalationProps.

(** ** More on the history watcher *)

Module WatcherMore.
Import PyStr Models Watcher Samples.

Lemma skip_all (n : nat) (s : string) :
  String.length s <= n -> skip n s = "".
Proof.
  revert n. induction s as [|c s IH]; intros [|n] H; simpl in *;
    try reflexivity; try lia.
  apply IH. lia.
Qed.

Section Reading.
Context {rt : PyRuntime}.

Lemma required_error {A : Type} (model : string) (conv : pyjson -> option A)
  (k : string) (fields : list (string * pyjson)) (e : pyerror) :
  required model conv k fields = Raised e -> e = ValidationError model.
Proof.
  unfold required. destruct (dict_get k fields) as [v|].
  - destruct (conv v); simpl; intros H; [discriminate|].
    injection H as <-. reflexivity.
  - intros H. injection H as <-. reflexivity.
Qed.

Lemma or_raise_error {A : Type} (e0 e : pyerror) (o : option A) :
  or_raise e0 o = Raised e -> e = e0.
Proof.
  destruct o; simpl; intros H; [discriminate|]. injection H as <-.
  reflexivity.
Qed.

(** The timestamp of the mapping, where it is there and converts to an
    integer, makes [datetime.fromtimestamp] return, or raise a
    [ValueError]. *)
Definition timestamp_converts (fields : list (string * pyjson)) : bool :=
  match dict_get "timestamp" fields with
  | Some v =>
      match lax_int v with
      | Some t =>
          match fromtimestamp t with
          | None => true
          | Some e => is_ValueError e
          end
      | None => true
      end
  | None => true
  end.

Lemma timestamp_field_error (model : string)
  (fields : list (string * pyjson)) (e : pyerror) :
  timestamp_converts fields = true ->
  timestamp_field model fields = Raised e -> e = ValidationError model.
Proof.
  unfold timestamp_converts, timestamp_field, bind, required,
    convert_timestamp.
  destruct (dict_get "timestamp" fields) as [v|];
    [|intros _ H; injection H as <-; reflexivity].
  destruct (lax_int v) as [t|]; simpl;
    [|intros _ H; injection H as <-; reflexivity].
  destruct (fromtimestamp t) as [e0|]; [|discriminate].
  intros Hv H. rewrite Hv in H. injection H as <-. reflexivity.
Qed.

Lemma validation_not_left (model : string)
  (fields : list (string * pyjson)) :
  timestamp_converts fields = true ->
  validation_left_by model fields = None.
Proof.
  intros Hc. unfold validation_left_by.
  destruct (timestamp_field model fields) as [t|e] eqn:Ht; [reflexivity|].
  rewrite (timestamp_field_error model fields Hc Ht). reflexivity.
Qed.

(** Building an event from a mapping whose timestamp converts raises
    nothing but a validation error. *)
Lemma event_of_mapping_error (fields : list (string * pyjson)) (e : pyerror) :
  timestamp_converts fields = true ->
  ClaudeHistoryEvent_of (JDict fields) = Raised e ->
  e = ValidationError "ClaudeHistoryEvent".
Proof.
  intros Hc. unfold ClaudeHistoryEvent_of.
  rewrite (validation_not_left "ClaudeHistoryEvent" fields Hc).
  unfold bind.
  destruct (required _ lax_str "display" fields) eqn:H1;
    [|intros H; injection H as <-; eapply required_error; exact H1].
  destruct (timestamp_field _ fields) eqn:H2;
    [|intros H; injection H as <-;
      exact (timestamp_field_error _ fields Hc H2)].
  destruct (required _ lax_str "project" fields) eqn:H3;
    [|intros H; injection H as <-; eapply required_error; exact H3].
  match goal with
  | |- match ?x with Ok _ => _ | Raised _ => _ end = _ -> _ =>
      destruct x eqn:H4;
        [|intros H; injection H as <-; eapply or_raise_error; exact H4]
  end.
  match goal with
  | |- match ?x with Ok _ => _ | Raised _ => _ end = _ -> _ =>
      destruct x eqn:H5; [discriminate|]
  end.
  intros H. injection H as <-.
  destruct (aliased "pastedContents" "pasted_contents" fields);
    [eapply or_raise_error; exact H5 | discriminate].
Qed.

(** The lines of a read, one by one: the event of a line that parses,
    nothing for a blank line and for a line that does not parse. *)
Definition events_of (new_lines : list string) : list ClaudeHistoryEvent :=
  flat_map (fun line =>
              if truthy (strip line) then
                match parse_entry (strip line) with
                | Ok event => [event]
                | Raised _ => []
                end
              else []) new_lines.

(** X13.  The loop over the new lines raises nothing when every line
    that [json.loads] refuses is refused with [JSONDecodeError], not for
    its depth of nesting, and every other line decodes to an object
    whose timestamp [datetime.fromtimestamp] converts or refuses with a
    [ValueError].  It then hands over the events of the lines that
    parse, in the order of the lines, and passes over the blank lines
    and the lines that do not parse. *)
Theorem lines_of_objects_never_raise (new_lines : list string) :
  (forall line,
      In line new_lines -> json_loads (strip line) = None ->
      nests_too_deep (strip line) = false) ->
  (forall line data,
      In line new_lines -> json_loads (strip line) = Some data ->
      exists fields, data = JDict fields /\
                     timestamp_converts fields = true) ->
  handle_lines new_lines = (events_of new_lines, None).
Proof.
  induction new_lines as [|line rest IH]; intros Hdeep Hobj; [reflexivity|].
  assert (Hrest : handle_lines rest = (events_of rest, None)).
  { apply IH.
    - intros l Hin. apply Hdeep. right. exact Hin.
    - intros l d Hin. apply Hobj. right. exact Hin. }
  simpl. destruct (truthy (strip line)) eqn:Ht; simpl; [|exact Hrest].
  destruct (parse_entry (strip line)) as [event|e] eqn:Hp.
  - rewrite Hrest. reflexivity.
  - assert (Hc : caught e = true).
    { unfold parse_entry, loads, bind in Hp.
      destruct (json_loads (strip line)) as [data|] eqn:Hl.
      - destruct (Hobj line data (or_introl eq_refl) Hl)
          as (fields & -> & Hts).
        rewrite (event_of_mapping_error fields Hts Hp). reflexivity.
      - rewrite (Hdeep line (or_introl eq_refl) Hl) in Hp.
        injection Hp as <-. reflexivity. }
    rewrite Hc. exact Hrest.
Qed.

(** X14.  A line that decodes to an object without one of the required
    fields (display, timestamp, project, and the session id under either
    of its names) is passed over, and the lines after it are handled as if
    it were not there, provided the timestamp, if the object has one, is
    converted or refused with a [ValueError] by [datetime.fromtimestamp]. *)
Theorem line_missing_field_skipped (line : string) (rest : list string)
  (fields : list (string * pyjson)) :
  truthy (strip line) = true ->
  json_loads (strip line) = Some (JDict fields) ->
  timestamp_converts fields = true ->
  dict_get "display" fields = None \/
  dict_get "timestamp" fields = None \/
  dict_get "project" fields = None \/
  (dict_get "sessionId" fields = None /\
   dict_get "session_id" fields = None) ->
  handle_lines (line :: rest) = handle_lines rest.
Proof.
  intros Ht Hl Hts Hmiss.
  assert (Hp : exists e, parse_entry (strip line) = Raised e).
  { unfold parse_entry, loads. rewrite Hl. unfold bind at 1.
    unfold ClaudeHistoryEvent_of.
    rewrite (validation_not_left "ClaudeHistoryEvent" fields Hts).
    unfold bind, timestamp_field, bind, required, aliased.
    destruct (dict_get "display" fields) as [d|] eqn:Hd;
      [|eexists; reflexivity].
    destruct (lax_str d); simpl; [|eexists; reflexivity].
    destruct (dict_get "timestamp" fields) as [t|] eqn:Hti;
      [|eexists; reflexivity].
    destruct (lax_int t) as [z|]; simpl; [|eexists; reflexivity].
    destruct (convert_timestamp _ z); [|eexists; reflexivity].
    destruct (dict_get "project" fields) as [p|] eqn:Hpr;
      [|eexists; reflexivity].
    destruct (lax_str p); simpl; [|eexists; reflexivity].
    destruct Hmiss as [H|[H|[H|[Ha Hn]]]]; try discriminate.
    rewrite Ha, Hn. simpl. eexists. reflexivity. }
  destruct Hp as (e & Hp).
  apply (@WatcherProps.value_error_dropped rt line rest e Ht Hp).
  unfold parse_entry, loads in Hp. rewrite Hl in Hp. unfold bind in Hp.
  rewrite (event_of_mapping_error fields Hts Hp). reflexivity.
Qed.

(** X28.  A line that decodes to an object whose timestamp makes
    [datetime.fromtimestamp] raise an error that is no [ValueError]
    (a time beyond the platform's range) ends the loop with that error,
    whatever the other fields hold: the lines after it are not looked
    at. *)
Theorem unconvertible_timestamp_aborts (line : string) (rest : list string)
  (fields : list (string * pyjson)) (v : pyjson) (t : Z) (e : pyerror) :
  truthy (strip line) = true ->
  json_loads (strip line) = Some (JDict fields) ->
  dict_get "timestamp" fields = Some v ->
  lax_int v = Some t ->
  fromtimestamp t = Some e ->
  is_ValueError e = false ->
  handle_lines (line :: rest) = ([], Some e).
Proof.
  intros Ht Hl Hv Hi Hf He.
  apply (@WatcherProps.other_error_escapes rt line rest e Ht); [|exact He].
  unfold parse_entry, loads. rewrite Hl. unfold bind at 1.
  unfold ClaudeHistoryEvent_of, validation_left_by, timestamp_field, bind,
    required, convert_timestamp.
  rewrite Hv. unfold or_raise. rewrite Hi, Hf, He.
  destruct e; try discriminate; reflexivity.
Qed.

(** X29.  A line nested beyond what [json.loads] can follow ends the
    loop with [RecursionError]: the lines after it are not looked at. *)
Theorem deeply_nested_line_aborts (line : string) (rest : list string) :
  truthy (strip line) = true ->
  json_loads (strip line) = None ->
  nests_too_deep (strip line) = true ->
  handle_lines (line :: rest) = ([], Some RecursionError).
Proof.
  intros Ht Hl Hd.
  apply (@WatcherProps.other_error_escapes rt line rest RecursionError Ht);
    [|reflexivity].
  unfold parse_entry, loads. rewrite Hl, Hd. reflexivity.
Qed.

(** X15.  A watcher attached to a file and polled after each of two
    appends emits at the first poll the events of the first append and at
    the second poll those of the second, nothing of what the file held
    when the watcher was attached, and ends with its position at the end
    of the file. *)
Theorem two_polls_read_each_append_once (old a b ta tb : string) :
  utf8_decode a = Some ta ->
  utf8_decode b = Some tb ->
  let self := _initialize_position (Some old) in
  let r1 := _read_new_entries self (Some (old ++ a)) in
  let r2 := _read_new_entries (watcher_after r1) (Some ((old ++ a) ++ b)) in
  emitted r1 = fst (handle_lines (readlines ta)) /\
  emitted r2 = fst (handle_lines (readlines tb)) /\
  last_position (watcher_after r2) = String.length ((old ++ a) ++ b).
Proof.
  intros Ha Hb. cbv zeta.
  pose proof (@WatcherProps.read_covers_appended rt
                (_initialize_position (Some old)) old a ta eq_refl Ha) as H1.
  rewrite H1. cbn [watcher_after emitted].
  pose proof (@WatcherProps.read_covers_appended rt
                {| last_position := String.length (old ++ a) |}
                (old ++ a) b tb eq_refl Hb) as H2.
  rewrite H2. repeat split.
Qed.

(** X16.  A poll of a file that is not longer than the stored position
    (nothing was appended, or the file was cut down) emits nothing and
    keeps the position, whatever the file holds. *)
Theorem poll_without_growth_emits_nothing (self : HistoryWatcher)
  (bytes : string) :
  utf8_decode "" = Some "" ->
  String.length bytes <= last_position self ->
  _read_new_entries self (Some bytes) =
    {| watcher_after := self; emitted := []; escaped := None |}.
Proof.
  intros Hd Hlen. unfold _read_new_entries.
  rewrite (skip_all _ Hlen), Hd. simpl.
  destruct self as [pos]. simpl in *.
  f_equal. f_equal. lia.
Qed.

End Reading.

Lemma lines_of_objects_never_raise_example :
  @handle_lines sample_runtime ["not json"; ""; entry_line] =
    (@events_of sample_runtime ["not json"; ""; entry_line], None).
Proof.
  apply (@lines_of_objects_never_raise sample_runtime).
  - intros line _ _. reflexivity.
  - intros line data [<-|[<-|[<-|[]]]] H; vm_compute in H;
      try discriminate.
    injection H as <-. eexists. split; reflexivity.
Defined.

Definition entry_without_display : string :=
  "{" ++ quoted "timestamp" ++ ": 1700000000000}".

Definition partial_runtime : PyRuntime :=
  {| json_loads := fun text =>
       if String.eqb text entry_without_display
       then Some (JDict [("timestamp", JInt 1700000000000)])
       else @json_loads sample_runtime text;
     nests_too_deep := @nests_too_deep sample_runtime;
     lax_bool := @lax_bool sample_runtime;
     lax_int := @lax_int sample_runtime;
     lax_float := @lax_float sample_runtime;
     lax_str := @lax_str sample_runtime;
     fromtimestamp := @fromtimestamp sample_runtime;
     utf8_decode := @utf8_decode sample_runtime;
     exc_str := @exc_str sample_runtime |}.

Lemma line_missing_field_skipped_example :
  @handle_lines partial_runtime [entry_without_display; entry_line] =
    @handle_lines partial_runtime [entry_line].
Proof.
  apply (@line_missing_field_skipped partial_runtime entry_without_display
           [entry_line] [("timestamp", JInt 1700000000000)]).
  - reflexivity.
  - reflexivity.
  - reflexivity.
  - left. reflexivity.
Defined.

(** An object with nothing but a timestamp far beyond the year 9999. *)
Definition entry_far_future : string :=
  "{" ++ quoted "timestamp" ++ ": 1000000000000000000000000000000}".

(** A line of a hundred thousand opening brackets. *)
Definition entry_deep : string :=
  N.iter 100000 (String "[") "".

Definition hostile_runtime : PyRuntime :=
  {| json_loads := fun text =>
       if String.eqb text entry_far_future
       then Some (JDict [("timestamp", JInt (10 ^ 30))])
       else @json_loads sample_runtime text;
     nests_too_deep := fun text => String.eqb text entry_deep;
     lax_bool := @lax_bool sample_runtime;
     lax_int := @lax_int sample_runtime;
     lax_float := @lax_float sample_runtime;
     lax_str := @lax_str sample_runtime;
     fromtimestamp := @fromtimestamp sample_runtime;
     utf8_decode := @utf8_decode sample_runtime;
     exc_str := @exc_str sample_runtime |}.

Lemma unconvertible_timestamp_aborts_example :
  @handle_lines hostile_runtime [entry_far_future; entry_line] =
    ([], Some OverflowError).
Proof.
  apply (@unconvertible_timestamp_aborts hostile_runtime entry_far_future
           [entry_line] [("timestamp", JInt (10 ^ 30))]
           (JInt (10 ^ 30)) (10 ^ 30)%Z OverflowError);
    vm_compute; reflexivity.
Defined.

Lemma deeply_nested_line_aborts_example :
  @handle_lines hostile_runtime [entry_deep; entry_line] =
    ([], Some RecursionError).
Proof.
  apply (@deeply_nested_line_aborts hostile_runtime entry_deep [entry_line]);
    vm_compute; reflexivity.
Defined.

Lemma two_polls_read_each_append_once_example :
  let self := _initialize_position (Some "old line") in
  let first := (entry_line ++ String newline "")%string in
  let r1 := @_read_new_entries sample_runtime self
              (Some ("old line" ++ first)) in
  let r2 := @_read_new_entries sample_runtime (watcher_after r1)
              (Some (("old line" ++ first) ++ first)) in
  emitted r1 = fst (@handle_lines sample_runtime (readlines first)) /\
  emitted r2 = fst (@handle_lines sample_runtime (readlines first)) /\
  last_position (watcher_after r2) =
    String.length (("old line" ++ first) ++ first).
Proof.
  apply (@two_polls_read_each_append_once sample_runtime "old line"
           (entry_line ++ String newline "") (entry_line ++ String newline "")
           (entry_line ++ String newline "") (entry_line ++ String newline ""));
    reflexivity.
Defined.

Lemma poll_without_growth_emits_nothing_example :
  @_read_new_entries sample_runtime {| last_position := 40 |} (Some "[]") =
    {| watcher_after := {| last_position := 40 |}; emitted := [];
       escaped := None |}.
Proof.
  apply (@poll_without_growth_emits_nothing sample_runtime
           {| last_position := 40 |} "[]"); [reflexivity | simpl; lia].
Defined.

End WatcherMore.

(** ** More on the analyzer *)

Module AnalyzerMore.
Import PyStr Models LlmClient Analyzer Samples.

(** The severities in increasing order. *)
Definition rank (s : severity) : nat :=
  match s with low => 0 | medium => 1 | high => 2 | critical => 3 end.

(** X17.  The severity grows with the confidence: of two judgments, the
    one with the higher confidence never gets the lower severity. *)
Theorem severity_monotone (a b : AnalysisResult) :
  (confidence a <=? confidence b)%float = true ->
  rank (_determine_severity a) <= rank (_determine_severity b).
Proof.
  intros Hab. unfold _determine_severity.
  assert (Hup : forall t, (t <=? confidence a)%float = true ->
                          (t <=? confidence b)%float = true).
  { intros t Ht. exact (FloatOrder.leb_trans Ht Hab). }
  destruct (0.9 <=? confidence a)%float eqn:A9.
  { rewrite (Hup _ A9). simpl. lia. }
  destruct (0.8 <=? confidence a)%float eqn:A8.
  { rewrite (Hup _ A8). destruct (0.9 <=? confidence b)%float; simpl; lia. }
  destruct (0.7 <=? confidence a)%float eqn:A7.
  { rewrite (Hup _ A7).
    destruct (0.9 <=? confidence b)%float; [simpl; lia|].
    destruct (0.8 <=? confidence b)%float; simpl; lia. }
  simpl. lia.
Qed.

Lemma severity_monotone_example :
  rank (_determine_severity (sample_judgment false 0.75)) <=
  rank (_determine_severity (sample_judgment false 0.85)).
Proof.
  apply (@severity_monotone (sample_judgment false 0.75)
           (sample_judgment false 0.85)).
  reflexivity.
Defined.

(** X18.  A decision built on a call that is not forced always carries
    the judgment of the classifier, and that judgment is off task with a
    confidence at or above the threshold; so under a threshold of 0.7 or
    more its severity is never low. *)
Theorem unforced_decision_is_grounded (llm_client : classifier)
  (self : TaskAnalyzer) (activity : string) (context : TaskContext)
  (judgment : AnalysisResult) (d : InterventionDecision) :
  _trigger_analysis llm_client self activity false =
    Analysed context judgment (Some d) ->
  analysis d = judgment /\
  judgment = llm_client context activity /\
  should_intervene d = true /\
  is_on_task judgment = false /\
  (intervention_threshold self <=? confidence judgment)%float = true /\
  ((0.7 <=? intervention_threshold self)%float = true ->
   decision_severity d <> low).
Proof.
  unfold _trigger_analysis.
  destruct (Analyzer.user_instruction self) as [instruction|]; [|discriminate].
  destruct (negb (truthy instruction)); [discriminate|].
  cbv zeta. rewrite orb_false_r.
  match goal with
  | |- context [llm_client ?c activity] => set (j := llm_client c activity)
  end.
  destruct (is_on_task j) eqn:Hon; simpl negb; cbv iota;
    [simpl; discriminate|].
  destruct (intervention_threshold self <=? confidence j)%float eqn:Hth;
    simpl; [|discriminate].
  intros H. injection H as <- <- <-. simpl.
  repeat split; try assumption.
  intros H7. pose proof (FloatOrder.leb_trans H7 Hth) as Hc.
  unfold _determine_severity.
  destruct (0.9 <=? confidence j)%float; [discriminate|].
  destruct (0.8 <=? confidence j)%float; [discriminate|].
  rewrite Hc. discriminate.
Qed.

Lemma unforced_decision_is_grounded_example :
  exists d,
    _trigger_analysis (sample_classifier false 0.85) sample_analyzer
      "I refactored the tests" false
    = Analysed
        {| Models.user_instruction := "Add a login endpoint";
           Models.recent_events := []; Models.current_todos := [];
           Models.completed_todos := [] |}
        (sample_judgment false 0.85) (Some d)
    /\ decision_severity d <> low.
Proof.
  eexists. split; [reflexivity|].
  refine (proj2 (proj2 (proj2 (proj2 (proj2
            (@unforced_decision_is_grounded (sample_classifier false 0.85)
               sample_analyzer "I refactored the tests" _ _ _ eq_refl)))))
            _).
  reflexivity.
Defined.

Lemma last_deque_append {A : Type} (maxlen : nat) (q : list A) (x dflt : A) :
  1 <= maxlen -> last (deque_append maxlen q x) dflt = x.
Proof.
  intros Hm. unfold deque_append. rewrite length_app. simpl.
  destruct (Nat.ltb_spec maxlen (List.length q + 1)) as [Hfull|Hroom].
  - destruct q as [|y q]; [simpl in Hfull; lia|].
    simpl tl. apply last_last.
  - apply last_last.
Qed.

(** X19.  Whenever an event makes the classifier run, the classifier is
    asked about the display text of that event, with a context that holds
    the instruction in force after the event (the display text itself
    when it has just been adopted) and the buffer with the event already
    appended, as its last item when the window is not empty. *)
Theorem classifier_sees_current_event (llm_client : classifier)
  (self : TaskAnalyzer) (event : ClaudeHistoryEvent) (force : bool)
  (context : TaskContext) (judgment : AnalysisResult)
  (decision : option InterventionDecision) :
  snd (process_event llm_client self event) =
    Checked force (Analysed context judgment decision) ->
  judgment = llm_client context (display event) /\
  Some (Models.user_instruction context) =
    Analyzer.user_instruction (fst (process_event llm_client self event)) /\
  Models.recent_events context =
    deque_append (context_window_size self)
      (Analyzer.recent_events self) event /\
  (1 <= context_window_size self ->
   last (Models.recent_events context) event = event) /\
  Models.current_todos context = Analyzer.current_todos self /\
  Models.completed_todos context = Analyzer.completed_todos self.
Proof.
  rewrite AnalyzerProps.process_event_state.
  unfold process_event.
  set (self' := {| context_window_size := context_window_size self;
                   intervention_threshold := _;
                   on_intervention := _;
                   Analyzer.user_instruction := _;
                   Analyzer.current_todos := _;
                   Analyzer.completed_todos := _;
                   Analyzer.recent_events := _;
                   event_count := _ |}).
  assert (Hgen : forall f,
    _trigger_analysis llm_client self' (display event) f =
      Analysed context judgment decision ->
    judgment = llm_client context (display event) /\
    Some (Models.user_instruction context) = Analyzer.user_instruction self' /\
    Models.recent_events context =
      deque_append (context_window_size self)
        (Analyzer.recent_events self) event /\
    (1 <= context_window_size self ->
     last (Models.recent_events context) event = event) /\
    Models.current_todos context = Analyzer.current_todos self /\
    Models.completed_todos context = Analyzer.completed_todos self).
  { intros f. unfold _trigger_analysis.
    destruct (Analyzer.user_instruction self') as [instruction|] eqn:Hi;
      [|discriminate].
    destruct (negb (truthy instruction)); [discriminate|].
    cbv zeta.
    match goal with
    | |- (if ?b then _ else _) = _ -> _ => destruct b
    end; intros H; injection H as <- <- _; simpl;
      (repeat split; try reflexivity;
       intros Hw; apply last_deque_append; exact Hw). }
  destruct (_is_suspicious_activity (display event)).
  - simpl snd. intros H. injection H as _ H. exact (Hgen true H).
  - destruct (event_count self' mod check_frequency =? 0)%nat.
    + simpl snd. intros H. injection H as _ H. exact (Hgen false H).
    + discriminate.
Qed.

Lemma classifier_sees_current_event_example :
  exists context,
    snd (process_event (sample_classifier false 0.85) sample_analyzer
           (sample_event "I'll monitor the build"))
    = Checked true
        (Analysed context (sample_judgment false 0.85)
           (Some {| should_intervene := true;
                    decision_severity := high;
                    intervention_message :=
                      _build_intervention_message (sample_judgment false 0.85);
                    analysis := sample_judgment false 0.85 |}))
    /\ Models.recent_events context = [sample_event "I'll monitor the build"].
Proof.
  eexists. split; [reflexivity|].
  exact (proj1 (proj2 (proj2
           (@classifier_sees_current_event (sample_classifier false 0.85)
              sample_analyzer (sample_event "I'll monitor the build")
              true _ _ _ eq_refl)))).
Defined.

Section Client.
Context {rt : PyRuntime}.

(** X20.  An event with a suspicious display text gives a decision even
    when every request to the classifier raises: the decision carries the
    default judgment, on task with confidence 0, has severity low, and is
    handed to the callback when one is installed. *)
Theorem forced_decision_survives_outage (chat : endpoint)
  (self : TaskAnalyzer) (event : ClaudeHistoryEvent) :
  _is_suspicious_activity (display event) = true ->
  (forall c a, exists e, chat c a = CallRaises e) ->
  on_intervention self = true ->
  exists context judgment d,
    snd (process_event (analyze_task_adherence chat) self event) =
      Checked true (Analysed context judgment (Some d)) /\
    delivered (fst (process_event (analyze_task_adherence chat) self event))
      (Analysed context judgment (Some d)) = Some d /\
    analysis d = judgment /\
    is_on_task judgment = true /\ confidence judgment = 0%float /\
    decision_severity d = low.
Proof.
  intros Hs Hdown Hcb.
  pose proof (AnalyzerProps.suspicious_is_not_empty _ Hs) as Hne.
  rewrite AnalyzerProps.process_event_state.
  unfold process_event. rewrite Hs. simpl snd.
  match goal with
  | |- context [_trigger_analysis _ ?s _ true] => set (self' := s)
  end.
  assert (Hk : truthy_opt (Analyzer.user_instruction self') = true).
  { unfold self'. simpl.
    destruct (truthy_opt (Analyzer.user_instruction self)) eqn:Hk0; simpl;
      [exact Hk0 | exact Hne]. }
  destruct (DecisionProps.trigger_known (analyze_task_adherence chat) self'
              (display event) true Hk) as (instruction & _ & Heq).
  cbv zeta in Heq. rewrite orb_true_r in Heq.
  eexists. eexists. eexists. split; [rewrite Heq; reflexivity|].
  unfold analyze_task_adherence.
  match goal with
  | |- context [chat ?c ?a] => destruct (Hdown c a) as (e & ->)
  end.
  simpl. rewrite Hcb. repeat split.
Qed.

End Client.

Lemma forced_decision_survives_outage_example :
  exists context judgment d,
    snd (process_event
           (@analyze_task_adherence sample_runtime
              (fun _ _ => CallRaises (ApiError "Connection refused")))
           sample_analyzer (sample_event "I'll monitor the build")) =
      Checked true (Analysed context judgment (Some d)) /\
    decision_severity d = low.
Proof.
  destruct (@forced_decision_survives_outage sample_runtime
              (fun _ _ => CallRaises (ApiError "Connection refused"))
              sample_analyzer (sample_event "I'll monitor the build")
              eq_refl
              (fun _ _ => ex_intro _ (ApiError "Connection refused") eq_refl)
              eq_refl)
    as (context & judgment & d & Ho & _ & _ & _ & _ & Hlow).
  exists context, judgment, d. split; [exact Ho | exact Hlow].
Defined.

End AnalyzerMore.

(** ** More on the client *)

Module ClientMore.
Import PyStr Models LlmClient Samples PyStrProps.

Definition tick : ascii := "`"%char.

(** The text holds no backtick. *)
Fixpoint ticks_free (s : string) : bool :=
  match s with
  | EmptyString => true
  | String c s' => negb (Ascii.eqb c tick) && ticks_free s'
  end.

Lemma ticks_free_cons (c : ascii) (s : string) :
  ticks_free (String c s) = true ->
  Ascii.eqb tick c = false /\ ticks_free s = true.
Proof.
  cbn [ticks_free]. intros H. apply andb_true_iff in H.
  destruct H as [Hc Hs].
  split; [|exact Hs]. rewrite Ascii.eqb_sym. apply negb_true_iff. exact Hc.
Qed.

Lemma ticks_free_lstrip (s : string) :
  ticks_free s = true -> ticks_free (lstrip s) = true.
Proof.
  induction s as [|c s IH]; [reflexivity|].
  intros H. simpl lstrip. destruct (isspace c); [|exact H].
  apply IH. exact (proj2 (ticks_free_cons c s H)).
Qed.

Lemma ticks_free_rstrip (s : string) :
  ticks_free s = true -> ticks_free (rstrip s) = true.
Proof.
  induction s as [|c s IH]; [reflexivity|].
  intros H. destruct (ticks_free_cons c s H) as [Hc Hs].
  simpl rstrip. specialize (IH Hs).
  destruct (rstrip s) as [|d r].
  - destruct (isspace c); [reflexivity|].
    cbn [ticks_free]. rewrite Ascii.eqb_sym, Hc. reflexivity.
  - change (ticks_free (String c (String d r)))
      with (negb (Ascii.eqb c tick) && ticks_free (String d r)).
    rewrite Ascii.eqb_sym, Hc, IH. reflexivity.
Qed.

Lemma ticks_free_strip (s : string) :
  ticks_free s = true -> ticks_free (strip s) = true.
Proof.
  intros H. unfold strip. apply ticks_free_rstrip, ticks_free_lstrip, H.
Qed.

Lemma not_fenced (s rest : string) :
  ticks_free s = true -> startswith (String tick rest) s = false.
Proof.
  destruct s as [|c s]; [reflexivity|].
  intros H. cbn [startswith].
  rewrite (proj1 (ticks_free_cons c s H)). reflexivity.
Qed.

Lemma rstrip_fence_end (s : string) : rstrip (s ++ fence) = s ++ fence.
Proof.
  induction s as [|c s IH]; [reflexivity|].
  change (String c s ++ fence) with (String c (s ++ fence)).
  simpl rstrip. rewrite IH.
  destruct s; reflexivity.
Qed.

Lemma append_assoc (a b c : string) : (a ++ b) ++ c = a ++ (b ++ c).
Proof. induction a as [|x a IH]; simpl; [reflexivity | now rewrite IH]. Qed.

Lemma strip_fenced (mark body : string) :
  strip (String tick mark ++ body ++ fence) = String tick mark ++ body ++ fence.
Proof.
  unfold strip.
  change (String tick mark ++ body ++ fence)
    with (String tick (mark ++ body ++ fence)).
  simpl lstrip.
  change (String tick (mark ++ body ++ fence))
    with (String tick mark ++ (body ++ fence)).
  rewrite <- append_assoc. apply rstrip_fence_end.
Qed.

Lemma split_json_mark_absent (body : string) :
  ticks_free body = true ->
  split_go fence_json 0 (body ++ fence) = [body ++ fence].
Proof.
  induction body as [|c body IH]; [reflexivity|].
  intros H. destruct (ticks_free_cons c body H) as [Hc Hb].
  change (String c body ++ fence) with (String c (body ++ fence)).
  cbn [split_go]. unfold fence_json at 1. cbn [startswith].
  change "`"%char with tick. rewrite Hc. cbn [andb].
  rewrite (IH Hb). reflexivity.
Qed.

Lemma split_fence_at_end (body : string) :
  ticks_free body = true ->
  split_go fence 0 (body ++ fence) = [body; ""].
Proof.
  induction body as [|c body IH]; [reflexivity|].
  intros H. destruct (ticks_free_cons c body H) as [Hc Hb].
  change (String c body ++ fence) with (String c (body ++ fence)).
  cbn [split_go]. unfold fence at 1. cbn [startswith].
  change "`"%char with tick. rewrite Hc. cbn [andb].
  rewrite (IH Hb). reflexivity.
Qed.

Lemma no_json_word (body : string) :
  startswith "json" body = false ->
  startswith "json" (body ++ fence) = false.
Proof.
  destruct body as [|c1 [|c2 [|c3 [|c4 body]]]]; simpl;
    rewrite ?andb_false_r; try reflexivity.
  intros H. exact H.
Qed.

Section Client.
Context {rt : PyRuntime}.

Lemma parse_body_bare (body : string) :
  ticks_free body = true ->
  parse_body (Some body) =
    match json_loads (strip body) with
    | Some data => AnalysisResult_of data
    | None =>
        Raised (if nests_too_deep (strip body) then RecursionError
                else JSONDecodeError (strip body))
    end.
Proof.
  intros H. unfold parse_body, loads, bind, or_raise. cbv beta iota.
  pose proof (ticks_free_strip body H) as Hs.
  unfold fence_json, fence.
  change "```json" with (String tick "``json").
  change "```" with (String tick "``").
  rewrite (@not_fenced (strip body) "``json" Hs).
  rewrite (@not_fenced (strip body) "``" Hs).
  rewrite strip_idempotent.
  destruct (json_loads (strip body)); reflexivity.
Qed.

Lemma parse_body_of_inner (content inner : string) :
  (if startswith fence_json content then
     inner <- item 1 (split fence_json content) ;;
     item 0 (split fence inner)
   else if startswith fence content then
     inner <- item 1 (split fence content) ;;
     item 0 (split fence inner)
   else Ok content) = Ok inner ->
  strip content = content ->
  parse_body (Some content) =
    match json_loads (strip inner) with
    | Some data => AnalysisResult_of data
    | None =>
        Raised (if nests_too_deep (strip inner) then RecursionError
                else JSONDecodeError (strip inner))
    end.
Proof.
  intros Hin Hstrip. unfold parse_body.
  cbn [or_raise]. unfold bind at 1. rewrite Hstrip.
  unfold bind at 1. rewrite Hin.
  unfold loads, bind, or_raise.
  destruct (json_loads (strip inner)); reflexivity.
Qed.

(** X21.  A reply whose body holds no backtick is read the same bare and
    between the marks of a fenced block, three backticks and the word
    json before it and three backticks after it; and likewise between
    plain marks of three backticks when the body does not start with the
    word json. *)
Theorem fenced_reply_read_as_bare (body : string) :
  ticks_free body = true ->
  _parse_analysis_response (Some (fence_json ++ body ++ fence)) =
    _parse_analysis_response (Some body) /\
  (startswith "json" body = false ->
   _parse_analysis_response (Some (fence ++ body ++ fence)) =
     _parse_analysis_response (Some body)).
Proof.
  intros H.
  assert (Hjson : parse_body (Some (fence_json ++ body ++ fence)) =
                  parse_body (Some body)).
  { rewrite (parse_body_bare body H).
    apply parse_body_of_inner; [|exact (strip_fenced "``json" body)].
    assert (Hstart : startswith fence_json (fence_json ++ body ++ fence) = true)
      by reflexivity.
    rewrite Hstart.
    assert (Hsplit : split fence_json (fence_json ++ body ++ fence) =
                     [""; body ++ fence]).
    { unfold split.
      change (split_go fence_json 0 (fence_json ++ body ++ fence))
        with ("" :: split_go fence_json 0 (body ++ fence)).
      rewrite (split_json_mark_absent body H). reflexivity. }
    rewrite Hsplit. unfold item. cbn [nth_error or_raise]. unfold bind.
    unfold split. rewrite (split_fence_at_end body H). reflexivity. }
  split.
  - unfold _parse_analysis_response. rewrite Hjson. reflexivity.
  - intros Hword.
    assert (Hplain : parse_body (Some (fence ++ body ++ fence)) =
                     parse_body (Some body)).
    { rewrite (parse_body_bare body H).
      apply parse_body_of_inner; [|exact (strip_fenced "``" body)].
      assert (Hnot : startswith fence_json (fence ++ body ++ fence) = false).
      { change (startswith fence_json (fence ++ body ++ fence))
          with (startswith "json" (body ++ fence)).
        apply no_json_word. exact Hword. }
      rewrite Hnot.
      assert (Hstart : startswith fence (fence ++ body ++ fence) = true)
        by reflexivity.
      rewrite Hstart.
      assert (Hsplit : split fence (fence ++ body ++ fence) = [""; body; ""]).
      { unfold split.
        change (split_go fence 0 (fence ++ body ++ fence))
          with ("" :: split_go fence 0 (body ++ fence)).
        rewrite (split_fence_at_end body H). reflexivity. }
      rewrite Hsplit. unfold item. cbn [nth_error or_raise]. unfold bind.
      assert (Hinner : split fence body = [body]).
      { clear -H. unfold split.
        induction body as [|c body IH]; [reflexivity|].
        destruct (ticks_free_cons c body H) as [Hc Hb].
        cbn [split_go]. unfold fence at 1. cbn [startswith].
        change "`"%char with tick. rewrite Hc. cbn [andb].
        rewrite (IH Hb). reflexivity. }
      rewrite Hinner. reflexivity. }
    unfold _parse_analysis_response. rewrite Hplain. reflexivity.
Qed.

(** X22.  A bare reply that decodes to a JSON value other than a
    mapping, or to a mapping without one of the fields is_on_task,
    confidence and reasoning, gives the default judgment: on task, with
    confidence 0, no issue and no recommended action.  Nothing is raised
    to the caller. *)
Theorem malformed_reply_fails_open (body : string) (data : pyjson) :
  ticks_free body = true ->
  json_loads (strip body) = Some data ->
  match data with
  | JDict fields =>
      dict_get "is_on_task" fields = None \/
      dict_get "confidence" fields = None \/
      dict_get "reasoning" fields = None
  | _ => True
  end ->
  exists e,
    _parse_analysis_response (Some body) =
      {| is_on_task := true; confidence := 0;
         reasoning := "Failed to parse response: " ++ exc_str e;
         detected_issues := []; recommended_action := None |} /\
    match data with
    | JDict _ => e = ValidationError "AnalysisResult"
    | _ => e = TypeError
    end.
Proof.
  intros H Hl Hbad.
  unfold _parse_analysis_response. rewrite (parse_body_bare body H), Hl.
  destruct data as [| | | | | |fields];
    try (exists TypeError; split; reflexivity).
  exists (ValidationError "AnalysisResult").
  unfold AnalysisResult_of, bind, required.
  destruct (dict_get "is_on_task" fields) as [v1|] eqn:H1;
    [|split; reflexivity].
  destruct (lax_bool v1); simpl; [|split; reflexivity].
  destruct (dict_get "confidence" fields) as [v2|] eqn:H2;
    [|split; reflexivity].
  destruct (lax_float v2) as [c|]; simpl; [|split; reflexivity].
  destruct (confidence_in_bounds c); simpl; [|split; reflexivity].
  destruct (dict_get "reasoning" fields) as [v3|] eqn:H3;
    [|split; reflexivity].
  destruct Hbad as [Hb|[Hb|Hb]]; discriminate.
Qed.

End Client.

Definition fenced_body : string :=
  String newline (overconfident_reply ++ String newline "").

Lemma fenced_reply_read_as_bare_example :
  @_parse_analysis_response sample_runtime
     (Some (fence_json ++ fenced_body ++ fence)) =
  @_parse_analysis_response sample_runtime (Some fenced_body).
Proof.
  exact (proj1 (@fenced_reply_read_as_bare sample_runtime fenced_body eq_refl)).
Defined.

Lemma malformed_reply_fails_open_example :
  exists e,
    @_parse_analysis_response sample_runtime (Some " [] ") =
      {| is_on_task := true; confidence := 0;
         reasoning := "Failed to parse response: " ++ @exc_str sample_runtime e;
         detected_issues := []; recommended_action := None |} /\
    e = TypeError.
Proof.
  exact (@malformed_reply_fails_open sample_runtime " [] " (JList [])
           eq_refl eq_refl I).
Defined.

End ClientMore.

(** ** More on the interventor *)

Module InterventorProps.
Import PyStr Models Hawtcher Console Interventor HawtcherRun Samples.

(** The message of the last call whose write succeeded, if any. *)
Fixpoint last_written
  (calls : list (io * option pyerror * InterventionDecision))
  : option string :=
  match calls with
  | [] => None
  | (outcome, _, decision) :: rest =>
      match last_written rest with
      | Some m => Some m
      | None =>
          match outcome with
          | Succeeds => Some (intervention_file_text decision)
          | _ => None
          end
      end
  end.

Section Printing.
Context {console : RichConsole}.

Lemma write_keeps_paths (outcome : io) (self : Interventor)
  (decision : InterventionDecision) :
  let after := fst (_write_intervention_file outcome self decision) in
  intervention_count after = intervention_count self /\
  temp_is_target after = temp_is_target self /\
  log_path after = log_path self.
Proof.
  cbv zeta. unfold _write_intervention_file, files_after.
  destruct outcome; simpl;
    repeat match goal with
           | |- context [if ?b then _ else _] => destruct b
           end; simpl; repeat split.
Qed.

Lemma write_file (outcome : io) (self : Interventor)
  (decision : InterventionDecision) :
  intervention_file (fst (_write_intervention_file outcome self decision)) =
    intervention_file
      (files_after outcome self (intervention_file_text decision)).
Proof.
  unfold _write_intervention_file.
  destruct (failure_of outcome);
    repeat match goal with
           | |- context [if ?b then _ else _] => destruct b
           end; reflexivity.
Qed.

Lemma intervene_state (outcome : io) (log : option pyerror)
  (self : Interventor) (decision : InterventionDecision) :
  fst (intervene outcome log self decision) =
    fst (_write_intervention_file outcome
           {| intervention_count := intervention_count self + 1;
              temp_is_target := temp_is_target self;
              log_path := log_path self;
              intervention_file := intervention_file self;
              temp_file := temp_file self |} decision).
Proof.
  unfold intervene.
  destruct (_write_intervention_file _ _ _) as [after [e|]];
    [reflexivity|]. cbn [fst].
  destruct (log_path after); [|reflexivity].
  destruct log as [e|]; [|reflexivity].
  destruct (print_ok _); reflexivity.
Qed.

Lemma intervene_all_app (self : Interventor)
  (calls more : list (io * option pyerror * InterventionDecision)) :
  intervene_all self (calls ++ more) =
    intervene_all (intervene_all self calls) more.
Proof.
  revert self. induction calls as [|[[outcome log] decision] rest IH];
    intros self; [reflexivity|].
  simpl. apply IH.
Qed.

Lemma intervene_all_paths (self : Interventor)
  (calls : list (io * option pyerror * InterventionDecision)) :
  temp_is_target (intervene_all self calls) = temp_is_target self.
Proof.
  revert self. induction calls as [|[[outcome log] decision] rest IH];
    intros self; [reflexivity|].
  simpl. rewrite IH, intervene_state.
  exact (proj1 (proj2 (write_keeps_paths outcome _ decision))).
Qed.

(** X23.  After any series of interventions, however their writes,
    their logging and their console lines went, the counter has grown
    by the number of interventions.  When the temporary path is another
    one than that of the intervention file, that file holds the whole
    message of the last intervention whose write succeeded, or what it
    held before when none did.  When the two paths are the same, as for
    a configured path that ends in .tmp, an intervention whose write
    fails leaves the intervention file as the failed write left it. *)
Theorem interventions_counted_and_whole (self : Interventor)
  (calls : list (io * option pyerror * InterventionDecision)) :
  intervention_count (intervene_all self calls) =
    intervention_count self + List.length calls /\
  (temp_is_target self = false ->
   intervention_file (intervene_all self calls) =
     match last_written calls with
     | Some message => Some message
     | None => intervention_file self
     end) /\
  (temp_is_target self = true ->
   forall e left_behind log decision,
     intervention_file
       (intervene_all self
          (calls ++ [(WriteRaises e left_behind, log, decision)])%list)
     = left_behind).
Proof.
  split; [|split].
  - revert self. induction calls as [|[[outcome log] decision] rest IH];
      intros self; [simpl; lia|].
    simpl intervene_all. rewrite IH, intervene_state.
    rewrite (proj1 (write_keeps_paths outcome _ decision)). simpl. lia.
  - revert self. induction calls as [|[[outcome log] decision] rest IH];
      intros self Hpaths; [reflexivity|].
    simpl intervene_all. rewrite IH.
    + simpl last_written. destruct (last_written rest); [reflexivity|].
      rewrite intervene_state, write_file. unfold files_after.
      cbn [temp_is_target intervention_file]. rewrite Hpaths.
      destruct outcome; reflexivity.
    + rewrite intervene_state.
      rewrite (proj1 (proj2 (write_keeps_paths outcome _ decision))).
      exact Hpaths.
  - intros Hpaths e left_behind log decision.
    rewrite intervene_all_app. simpl intervene_all.
    rewrite intervene_state, write_file. unfold files_after.
    cbn [temp_is_target intervention_file].
    rewrite intervene_all_paths, Hpaths. reflexivity.
Qed.

End Printing.

Definition drifting : InterventionDecision :=
  {| should_intervene := true; decision_severity := high;
     intervention_message := "Off task";
     analysis := sample_judgment false 0.85 |}.

(** X23 on an interventor whose intervention file ends in .tmp: the
    first intervention is written; the write of the second fails after
    the file was opened, and the file is left empty. *)
Lemma interventions_counted_and_whole_example :
  let self :=
    {| intervention_count := 0; temp_is_target := true; log_path := true;
       intervention_file := None; temp_file := None |} in
  let after :=
    @intervene_all sample_console self
      [ (Succeeds, None, drifting);
        (WriteRaises OSError (Some ""), None, drifting) ] in
  intervention_count after = 2 /\ intervention_file after = Some "".
Proof.
  cbv zeta. split.
  - exact (proj1 (@interventions_counted_and_whole sample_console
                    {| intervention_count := 0; temp_is_target := true;
                       log_path := true; intervention_file := None;
                       temp_file := None |}
                    [ (Succeeds, None, drifting);
                      (WriteRaises OSError (Some ""), None, drifting) ])).
  - exact (proj2 (proj2 (@interventions_counted_and_whole sample_console
                    {| intervention_count := 0; temp_is_target := true;
                       log_path := true; intervention_file := None;
                       temp_file := None |}
                    [ (Succeeds, None, drifting) ]))
             eq_refl OSError (Some "") None drifting).
Defined.

Lemma length_take (n : nat) (s : string) :
  String.length (take n s) = Nat.min n (String.length s).
Proof.
  revert s. induction n as [|n IH]; intros [|c s]; simpl; try reflexivity.
  rewrite IH. reflexivity.
Qed.

Lemma take_is_prefix (n : nat) (s : string) : startswith (take n s) s = true.
Proof.
  revert s. induction n as [|n IH]; intros [|c s]; simpl; try reflexivity.
  rewrite Ascii.eqb_refl. apply IH.
Qed.

(** X24.  The text shown for an event is never longer than 103
    characters: a text of at most 100 characters is shown as it is, a
    longer one as its first 100 characters followed by three dots. *)
Theorem display_text_bounded (event_text : string) :
  String.length (display_text event_text) <= 103 /\
  (String.length event_text <= 100 -> display_text event_text = event_text) /\
  (100 < String.length event_text ->
   String.length (display_text event_text) = 103 /\
   display_text event_text = take 100 event_text ++ "..." /\
   startswith (take 100 event_text) event_text = true).
Proof.
  unfold display_text.
  destruct (Nat.ltb_spec 100 (String.length event_text)) as [Hlong|Hshort].
  - assert (Hlen : String.length (take 100 event_text ++ "...") = 103).
    { rewrite WatcherProps.length_append, length_take.
      change (String.length "...") with 3. lia. }
    split; [lia|]. split; [lia|]. intros _.
    split; [exact Hlen|]. split; [reflexivity | apply take_is_prefix].
  - split; [lia|]. split; [reflexivity | lia].
Qed.

End InterventorProps.

(** ** More on the detection of questions and of suspicious phrases *)

Module DetectionProps.
Import PyStr Re QuestionDetector Analyzer Samples PyStrFacts.

Lemma search_from_question_mark (s : string) (prev : option ascii) :
  search_from [Lit "?"; Eol] prev (s ++ "?") = true.
Proof.
  revert prev. induction s as [|c s IH]; intros prev.
  - reflexivity.
  - change (String c s ++ "?") with (String c (s ++ "?")).
    cbn [search_from]. rewrite IH. apply orb_true_r.
Qed.

Lemma rstrip_question_mark (s : string) : rstrip (s ++ "?") = s ++ "?".
Proof.
  induction s as [|c s IH]; [reflexivity|].
  change (String c s ++ "?") with (String c (s ++ "?")).
  simpl rstrip. rewrite IH. destruct s; reflexivity.
Qed.

Lemma lstrip_question_mark (s : string) :
  exists s', lstrip (s ++ "?") = s' ++ "?".
Proof.
  induction s as [|c s IH].
  - exists "". reflexivity.
  - change (String c s ++ "?") with (String c (s ++ "?")).
    simpl lstrip. destruct (isspace c); [exact IH|].
    exists (String c s). reflexivity.
Qed.

(** X25.  A text that ends with a question mark is classified as a
    question unless one of the exclusion patterns matches it. *)
Theorem ending_question_mark_is_question (s : string) :
  existsb (fun p => search p (s ++ "?")) RHETORICAL_PATTERNS = false ->
  is_question (s ++ "?") = true.
Proof.
  intros Hr. unfold is_question. rewrite Hr.
  assert (Ht : truthy (s ++ "?") = true) by (destruct s; reflexivity).
  rewrite Ht.
  assert (Hs : (String.length (strip (s ++ "?")) =? 0)%nat = false).
  { unfold strip. destruct (lstrip_question_mark s) as (s' & ->).
    rewrite rstrip_question_mark. destruct s'; reflexivity. }
  rewrite Hs. simpl negb. cbv iota.
  unfold QUESTION_PATTERNS. cbn [existsb].
  unfold search at 1. rewrite search_from_question_mark. reflexivity.
Qed.

Lemma ending_question_mark_is_question_example :
  is_question "Is the build green?" = true.
Proof.
  apply (@ending_question_mark_is_question "Is the build green").
  reflexivity.
Defined.

(** X26.  A suspicious text stays suspicious whatever is written before
    and after it: the phrases are looked for anywhere in the text. *)
Theorem suspicious_inside_longer_text (before activity after : string) :
  _is_suspicious_activity activity = true ->
  _is_suspicious_activity (before ++ activity ++ after) = true.
Proof.
  intros H. apply AnalyzerProps.suspicious_iff in H.
  destruct H as (pattern & Hin & Hc).
  apply AnalyzerProps.suspicious_iff. exists pattern. split; [exact Hin|].
  rewrite !lower_app. apply contains_app_l, contains_app_r. exact Hc.
Qed.

Lemma suspicious_inside_longer_text_example :
  _is_suspicious_activity
    ("Done. " ++ "I WILL CHECK the logs" ++ " tomorrow.") = true.
Proof.
  apply (@suspicious_inside_longer_text "Done. " "I WILL CHECK the logs"
           " tomorrow.").
  reflexivity.
Defined.

Lemma lower_char_idempotent (c : ascii) :
  lower_char (lower_char c) = lower_char c.
Proof.
  destruct c as [[] [] [] [] [] [] [] []]; vm_compute; reflexivity.
Qed.

Lemma lower_idempotent (s : string) : lower (lower s) = lower s.
Proof.
  induction s as [|c s IH]; simpl; [reflexivity|].
  rewrite lower_char_idempotent, IH. reflexivity.
Qed.

(** X27.  Whether a text is suspicious does not depend on the case of
    its letters: the text and its lower-cased form are classified alike,
    and so are any two texts with the same lower-cased form. *)
Theorem suspicious_ignores_letter_case (a b : string) :
  _is_suspicious_activity (lower a) = _is_suspicious_activity a /\
  (lower a = lower b ->
   _is_suspicious_activity a = _is_suspicious_activity b).
Proof.
  unfold _is_suspicious_activity. cbv zeta. split.
  - rewrite lower_idempotent. reflexivity.
  - intros ->. reflexivity.
Qed.

End DetectionProps.
